(** * EduHub: a shallow embedding of [eduhub_mongodb_project.py]

    The script talks to a document database through the [pymongo] client.
    The helper functions of the script ([get_next_id], [load_json_file],
    [create_collection_with_schema], [read_document], [create_document],
    [create_documents], [update_document], [delete_document]) are embedded
    as functions over an explicit database state; the client calls they
    make ([find], [find_one], [insert_one], [insert_many], [update_many],
    [create_collection], [create_index], [aggregate]) are given by a model of
    the document store that follows the behaviour the script relies on.  *)

From Stdlib Require Import List String Ascii ZArith QArith Bool Lia.
From Stdlib Require Import Permutation Sorted SetoidList Btauto.
Import ListNotations.

Local Close Scope Q_scope.
Local Open Scope string_scope.
Local Open Scope list_scope.

Set Implicit Arguments.

(* ================================================================= *)
(** ** Values and documents *)

(** A BSON / Python value.  Python [int] and [float] are both carried by
    [VNum] as exact rationals ([49.99] is [4999/100]); [datetime(Y,M,D,h,m,s)]
    is the integer [YYYYMMDDhhmmss], which keeps the order of time stamps;
    [None] is [VNull]; a [dict] is an ordered list of fields. *)
#[warnings="-register-all"]
Inductive value : Type :=
| VNull : value
| VBool : bool -> value
| VNum  : Q -> value
| VStr  : string -> value
| VDate : Z -> value
| VOid  : nat -> value
| VList : list value -> value
| VDoc  : list (string * value) -> value.

Definition doc : Type := list (string * value).

(** Equality of values as the store compares them: numbers by numeric
    value, embedded documents field by field in order. *)
Fixpoint value_eqb (a b : value) {struct a} : bool :=
  match a, b with
  | VNull, VNull => true
  | VBool x, VBool y => Bool.eqb x y
  | VNum x, VNum y => Qeq_bool x y
  | VStr x, VStr y => String.eqb x y
  | VDate x, VDate y => Z.eqb x y
  | VOid x, VOid y => Nat.eqb x y
  | VList xs, VList ys =>
      (fix go (xs ys : list value) {struct xs} : bool :=
         match xs, ys with
         | [], [] => true
         | x :: xs', y :: ys' => value_eqb x y && go xs' ys'
         | _, _ => false
         end) xs ys
  | VDoc xs, VDoc ys =>
      (fix go (xs ys : list (string * value)) {struct xs} : bool :=
         match xs, ys with
         | [], [] => true
         | (k, x) :: xs', (k', y) :: ys' =>
             String.eqb k k' && value_eqb x y && go xs' ys'
         | _, _ => false
         end) xs ys
  | _, _ => false
  end.

Definition doc_eqb (a b : doc) : bool := value_eqb (VDoc a) (VDoc b).

(** The position of each type in the BSON comparison order. *)
Definition bson_rank (v : value) : nat :=
  match v with
  | VNull => 1
  | VNum _ => 2
  | VStr _ => 3
  | VDoc _ => 4
  | VList _ => 5
  | VOid _ => 7
  | VBool _ => 8
  | VDate _ => 9
  end.

(** BSON comparison: first by type, then inside the type.  Arrays and
    embedded documents of the same type are left unordered (they compare
    [Eq]); the script sorts on scalar fields only. *)
Definition bson_compare (a b : value) : comparison :=
  match Nat.compare (bson_rank a) (bson_rank b) with
  | Eq =>
      match a, b with
      | VNum x, VNum y => Qcompare x y
      | VStr x, VStr y => String.compare x y
      | VBool x, VBool y => Bool.compare x y
      | VDate x, VDate y => Z.compare x y
      | VOid x, VOid y => Nat.compare x y
      | _, _ => Eq
      end
  | c => c
  end.

(** Python dicts and the collections of a database are both looked up by
    name; the first entry with the name is the one that counts. *)
Fixpoint assoc_get {A : Type} (k : string) (l : list (string * A)) : option A :=
  match l with
  | [] => None
  | (k', v) :: r => if String.eqb k k' then Some v else assoc_get k r
  end.

(** [l[k] = v]: the entry keeps its place when it exists and is appended
    otherwise. *)
Fixpoint assoc_set {A : Type} (k : string) (v : A) (l : list (string * A))
  : list (string * A) :=
  match l with
  | [] => [(k, v)]
  | (k', v') :: r =>
      if String.eqb k k' then (k, v) :: r else (k', v') :: assoc_set k v r
  end.

(** [d[k]], [k in d] and [d[k] = v] on a Python dict. *)
Abbreviation doc_get := (@assoc_get value).
Abbreviation doc_set := (@assoc_set value).

Definition doc_has (k : string) (d : doc) : bool :=
  match doc_get k d with Some _ => true | None => false end.

(** A dotted path such as ["profile.bio"] cut at the dots. *)
Fixpoint split_path_aux (acc : string) (s : string) : list string :=
  match s with
  | EmptyString => [acc]
  | String c r =>
      if Ascii.eqb c "."%char then acc :: split_path_aux EmptyString r
      else split_path_aux (acc ++ String c EmptyString)%string r
  end.

Definition split_path (s : string) : list string := split_path_aux EmptyString s.

Fixpoint get_in (ks : list string) (v : value) : option value :=
  match ks with
  | [] => Some v
  | k :: ks' =>
      match v with
      | VDoc f =>
          match doc_get k f with
          | Some v' => get_in ks' v'
          | None => None
          end
      | _ => None
      end
  end.

(** The value a query, an index or a pipeline stage reads at a path;
    a path through embedded documents only. *)
Definition get_path (p : string) (d : doc) : option value :=
  get_in (split_path p) (VDoc d).

(** A missing field reads as null in sort keys, index keys, group keys and
    join keys. *)
Definition field_or_null (p : string) (d : doc) : value :=
  match get_path p d with Some v => v | None => VNull end.

(* ================================================================= *)
(** ** Exceptions *)

Inductive exn_class : Type :=
| FileNotFoundError | IsADirectoryError | PermissionError | JSONDecodeError
| TypeError | ValueError | KeyError
| CollectionInvalid | OperationFailure | WriteError | DuplicateKeyError
| BulkWriteError.

(** An exception object: its class and [str(e)]. *)
Record exn : Type := Exn { exn_cls : exn_class; exn_str : string }.

Inductive result (A : Type) : Type :=
| Ok : A -> result A
| Raised : exn -> result A.

Arguments Ok {A} _.
Arguments Raised {A} _.

Definition bind {A B : Type} (r : result A) (k : A -> result B) : result B :=
  match r with
  | Ok a => k a
  | Raised e => Raised e
  end.

Notation "x <- r ;; k" := (bind r (fun x => k))
  (at level 61, r at next level, right associativity).

(** The two [except] clauses of the script. *)
Inductive except_clause : Type :=
| ExceptException          (* except Exception as e *)
| ExceptFileNotFoundError. (* except FileNotFoundError *)

Definition exn_class_eqb (a b : exn_class) : bool :=
  match a, b with
  | FileNotFoundError, FileNotFoundError
  | IsADirectoryError, IsADirectoryError
  | PermissionError, PermissionError
  | JSONDecodeError, JSONDecodeError
  | TypeError, TypeError
  | ValueError, ValueError
  | KeyError, KeyError
  | CollectionInvalid, CollectionInvalid
  | OperationFailure, OperationFailure
  | WriteError, WriteError
  | DuplicateKeyError, DuplicateKeyError
  | BulkWriteError, BulkWriteError => true
  | _, _ => false
  end.

(** Every class above derives from [Exception]; [FileNotFoundError] has no
    subclass among them. *)
Definition catches (c : except_clause) (e : exn) : bool :=
  match c with
  | ExceptException => true
  | ExceptFileNotFoundError => exn_class_eqb (exn_cls e) FileNotFoundError
  end.

(* ================================================================= *)
(** ** Update operators: [$set] and [$addToSet] *)

Fixpoint set_in (ks : list string) (new : value) (cur : option value)
  : result value :=
  match ks with
  | [] => Ok new
  | k :: ks' =>
      match cur with
      | None =>
          v <- set_in ks' new None ;; Ok (VDoc [(k, v)])
      | Some (VDoc f) =>
          v <- set_in ks' new (doc_get k f) ;; Ok (VDoc (doc_set k v f))
      | Some _ =>
          Raised (Exn WriteError "Cannot create field in element")
      end
  end.

(** [$set] of one path: embedded documents are created on the way, and a
    scalar or an array on the way is a write error. *)
Definition set_path (p : string) (v : value) (d : doc) : result doc :=
  r <- set_in (split_path p) v (Some (VDoc d)) ;;
  match r with
  | VDoc d' => Ok d'
  | _ => Raised (Exn WriteError "An empty update path is not valid")
  end.

Definition add_all (xs vs : list value) : list value :=
  fold_left
    (fun acc v => if existsb (value_eqb v) acc then acc else acc ++ [v])
    vs xs.

(** [$addToSet] with [$each]: the values not yet in the array are appended;
    the field must be an array or missing. *)
Definition add_to_set (p : string) (vs : list value) (d : doc) : result doc :=
  match get_path p d with
  | None => set_path p (VList (add_all [] vs)) d
  | Some (VList xs) => set_path p (VList (add_all xs vs)) d
  | Some _ =>
      Raised (Exn WriteError "Cannot apply $addToSet to non-array field")
  end.

Inductive update_op : Type :=
| USet (p : string) (v : value)
| UAddToSet (p : string) (vs : list value).

Definition op_path (o : update_op) : list string :=
  match o with
  | USet p _ => split_path p
  | UAddToSet p _ => split_path p
  end.

Fixpoint list_prefix (a b : list string) : bool :=
  match a, b with
  | [], _ => true
  | x :: a', y :: b' => String.eqb x y && list_prefix a' b'
  | _ :: _, [] => false
  end.

(** Two operators of one update may not write the same path or a path and
    one of its parents. *)
Fixpoint conflicting (ops : list update_op) : bool :=
  match ops with
  | [] => false
  | o :: r =>
      existsb (fun o' => list_prefix (op_path o) (op_path o')
                         || list_prefix (op_path o') (op_path o)) r
      || conflicting r
  end.

Definition compile_set (arg : value) : result (list update_op) :=
  match arg with
  | VDoc fields => Ok (map (fun kv => USet (fst kv) (snd kv)) fields)
  | _ => Raised (Exn OperationFailure "Modifiers operate on fields")
  end.

Definition compile_add_to_set (arg : value) : result (list update_op) :=
  match arg with
  | VDoc fields =>
      Ok (map (fun kv =>
                 match snd kv with
                 | VDoc [("$each", VList vs)] => UAddToSet (fst kv) vs
                 | v => UAddToSet (fst kv) [v]
                 end) fields)
  | _ => Raised (Exn OperationFailure "Modifiers operate on fields")
  end.

Fixpoint compile_operators (u : doc) : result (list update_op) :=
  match u with
  | [] => Ok []
  | (name, arg) :: r =>
      ops <- (if String.eqb name "$set" then compile_set arg
              else if String.eqb name "$addToSet" then compile_add_to_set arg
              else Raised (Exn OperationFailure "Unknown modifier")) ;;
      ops' <- compile_operators r ;;
      Ok (ops ++ ops')
  end.

(** The update document of [update_many].  The client refuses an update
    that is empty or whose first key is not an operator; the operators
    the script uses are [$set] and [$addToSet], the others are outside the
    model and rejected as unknown. *)
Definition compile_update (u : doc) : result (list update_op) :=
  match u with
  | [] => Raised (Exn ValueError "update cannot be empty")
  | (name, _) :: _ =>
      if String.prefix "$" name then
        ops <- compile_operators u ;;
        if conflicting ops
        then Raised (Exn WriteError "Updating the path would create a conflict")
        else Ok ops
      else Raised (Exn ValueError "update only works with $ operators")
  end.

Definition apply_op (o : update_op) (d : doc) : result doc :=
  match o with
  | USet p v => set_path p v d
  | UAddToSet p vs => add_to_set p vs d
  end.

Fixpoint apply_ops (ops : list update_op) (d : doc) : result doc :=
  match ops with
  | [] => Ok d
  | o :: r => d' <- apply_op o d ;; apply_ops r d'
  end.

(** One document under an update; [_id] is immutable. *)
Definition apply_update (ops : list update_op) (d : doc) : result doc :=
  d' <- apply_ops ops d ;;
  if value_eqb (field_or_null "_id" d) (field_or_null "_id" d')
  then Ok d'
  else Raised (Exn WriteError "Performing an update on the immutable field _id").

(* ================================================================= *)
(** ** Query filters *)

Inductive cond : Type :=
| CEq (v : value)
| CCmp (test : comparison -> bool) (v : value)
| CIn (vs : list value)
| CRegex (pat : string) (icase : bool).

Definition is_operator_doc (v : value) : bool :=
  match v with
  | VDoc ((k, _) :: _) => String.prefix "$" k
  | _ => false
  end.

Definition lower (c : ascii) : ascii :=
  let n := nat_of_ascii c in
  if (65 <=? n)%nat && (n <=? 90)%nat then ascii_of_nat (n + 32) else c.

Fixpoint lower_string (s : string) : string :=
  match s with
  | EmptyString => EmptyString
  | String c r => String (lower c) (lower_string r)
  end.

Fixpoint contains (pat s : string) : bool :=
  String.prefix pat s
  || match s with
     | EmptyString => false
     | String _ r => contains pat r
     end.

Definition is_lt (c : comparison) : bool := match c with Lt => true | _ => false end.
Definition is_gt (c : comparison) : bool := match c with Gt => true | _ => false end.
Definition is_le (c : comparison) : bool := negb (is_gt c).
Definition is_ge (c : comparison) : bool := negb (is_lt c).

(** The operators of one field: [$eq], [$gt], [$gte], [$lt], [$lte], [$in]
    and [$regex] with [$options]; every other operator is outside the
    model and rejected as unknown. *)
Fixpoint compile_conds (field_ops all_ops : doc) : result (list cond) :=
  match field_ops with
  | [] => Ok []
  | (name, v) :: r =>
      c <- (if String.eqb name "$eq" then Ok [CEq v]
            else if String.eqb name "$gt" then Ok [CCmp is_gt v]
            else if String.eqb name "$gte" then Ok [CCmp is_ge v]
            else if String.eqb name "$lt" then Ok [CCmp is_lt v]
            else if String.eqb name "$lte" then Ok [CCmp is_le v]
            else if String.eqb name "$in" then
              match v with
              | VList vs => Ok [CIn vs]
              | _ => Raised (Exn OperationFailure "$in needs an array")
              end
            else if String.eqb name "$regex" then
              match v with
              | VStr pat =>
                  match doc_get "$options" all_ops with
                  | Some (VStr o) => Ok [CRegex pat (contains "i" o)]
                  | Some _ =>
                      Raised (Exn OperationFailure "$options has to be a string")
                  | None => Ok [CRegex pat false]
                  end
              | _ => Raised (Exn OperationFailure "$regex has to be a string")
              end
            else if String.eqb name "$options" then
              if doc_has "$regex" all_ops then Ok []
              else Raised (Exn OperationFailure "$options needs a $regex")
            else Raised (Exn OperationFailure "unknown operator")) ;;
      cs <- compile_conds r all_ops ;;
      Ok (c ++ cs)
  end.

(** A filter document: each top-level key is a field path with either a
    value to equal or a document of operators.  Top-level operators
    ([$and], [$or], ...) are not used by the script and are rejected. *)
Fixpoint compile_filter (q : doc) : result (list (string * list cond)) :=
  match q with
  | [] => Ok []
  | (path, v) :: r =>
      cs <- (if String.prefix "$" path
             then Raised (Exn OperationFailure "unknown top level operator")
             else if is_operator_doc v then
               match v with
               | VDoc ops => compile_conds ops ops
               | _ => Ok [CEq v]
               end
             else Ok [CEq v]) ;;
      rest <- compile_filter r ;;
      Ok ((path, cs) :: rest)
  end.

(** A field against one condition.  An array field satisfies a condition
    when one of its elements does; a missing field equals null. *)
Definition scalar_cond (c : cond) (x : value) : bool :=
  match c with
  | CEq v => value_eqb x v
  | CCmp test v =>
      Nat.eqb (bson_rank x) (bson_rank v) && test (bson_compare x v)
  | CIn vs => existsb (value_eqb x) vs
  | CRegex pat icase =>
      match x with
      | VStr s =>
          if icase then contains (lower_string pat) (lower_string s)
          else contains pat s
      | _ => false
      end
  end.

Definition holds (c : cond) (fv : option value) : bool :=
  match fv with
  | None =>
      match c with
      | CEq v => value_eqb VNull v
      | CIn vs => existsb (value_eqb VNull) vs
      | _ => false
      end
  | Some x =>
      scalar_cond c x
      || match x with
         | VList xs => existsb (scalar_cond c) xs
         | _ => false
         end
  end.

Definition matches (cf : list (string * list cond)) (d : doc) : bool :=
  forallb (fun pc => forallb (fun c => holds c (get_path (fst pc) d)) (snd pc))
          cf.

(* ================================================================= *)
(** ** Collections and the database *)

(** A collection: its documents in natural order, the validator it was
    created with (the reading of [{"$jsonSchema": schema}] at validation
    level strict; [fun _ => true] when there is none) and the key lists of
    its unique indexes.  The unique index on [_id] is always there. *)
Record collection : Type := Collection {
  coll_docs : list doc;
  coll_validator : doc -> bool;
  coll_unique : list (list string)
}.

Definition empty_collection : collection :=
  Collection [] (fun _ => true) [].

Definition set_docs (c : collection) (ds : list doc) : collection :=
  Collection ds (coll_validator c) (coll_unique c).

(** The database: its collections by name and the counter the client draws
    fresh [ObjectId]s from. *)
Record database : Type := Database {
  db_colls : list (string * collection);
  db_next_oid : nat
}.

(** [db[collection_name]]: a collection that does not exist yet reads as
    empty and comes to exist with the first write. *)
Definition db_coll (db : database) (name : string) : collection :=
  match assoc_get name (db_colls db) with
  | Some c => c
  | None => empty_collection
  end.

Definition db_exists (db : database) (name : string) : bool :=
  match assoc_get name (db_colls db) with Some _ => true | None => false end.

Definition db_put (db : database) (name : string) (c : collection) : database :=
  Database (assoc_set name c (db_colls db)) (db_next_oid db).

(** The state after a write to [db[name]]: a collection that did not
    exist comes to exist with the first document stored in it. *)
Definition db_store (db : database) (name : string) (c : collection) : database :=
  if db_exists db name then db_put db name c
  else match coll_docs c with
       | [] => db
       | _ => db_put db name c
       end.

Definition db_fresh (db : database) (n : nat) : database :=
  Database (db_colls db) (db_next_oid db + n).

(* ----------------------------------------------------------------- *)
(** *** Index keys *)

(** The key of a document under an index: the values at the paths of the
    index, a missing field reading as null.  An array is read here as one
    value; the store indexes each of its elements, so it refuses whatever
    collides here and, on arrays, more.  Statements go that way only:
    what collides here is refused, what the store accepts is distinct
    here. *)
Definition index_key (ks : list string) (d : doc) : list value :=
  map (fun k => field_or_null k d) ks.

Fixpoint key_eqb (a b : list value) : bool :=
  match a, b with
  | [], [] => true
  | x :: a', y :: b' => value_eqb x y && key_eqb a' b'
  | _, _ => false
  end.

Definition collides (ks : list string) (d : doc) (others : list doc) : bool :=
  existsb (fun o => key_eqb (index_key ks d) (index_key ks o)) others.

Fixpoint has_duplicates (ks : list string) (ds : list doc) : bool :=
  match ds with
  | [] => false
  | d :: r => collides ks d r || has_duplicates ks r
  end.

Definition all_unique (c : collection) : list (list string) :=
  ["_id"] :: coll_unique c.

(** What the server checks before it stores [d] next to [others]: the
    validator, then every unique index. *)
Definition check_write (c : collection) (d : doc) (others : list doc)
  : result unit :=
  if negb (coll_validator c d)
  then Raised (Exn WriteError "Document failed validation")
  else if existsb (fun ks => collides ks d others) (all_unique c)
  then Raised (Exn DuplicateKeyError "E11000 duplicate key error collection")
  else Ok tt.

(* ----------------------------------------------------------------- *)
(** *** [insert_one], [insert_many] *)

(** The client gives a document without [_id] a fresh [ObjectId]. *)
Definition with_id (n : nat) (d : doc) : doc :=
  if doc_has "_id" d then d else ("_id", VOid n) :: d.

Definition insert_one (c : collection) (n : nat) (d : doc)
  : collection * result value :=
  let d' := with_id n d in
  match check_write c d' (coll_docs c) with
  | Ok _ => (set_docs c (coll_docs c ++ [d']), Ok (field_or_null "_id" d'))
  | Raised e => (c, Raised e)
  end.

(** An ordered bulk insert: documents go in one by one and the first one
    that fails stops the batch; those before it stay. *)
Fixpoint insert_loop (c : collection) (n : nat) (ds : list doc)
  : collection * result (list value) :=
  match ds with
  | [] => (c, Ok [])
  | d :: r =>
      match insert_one c n d with
      | (c', Ok i) =>
          let (c'', res) := insert_loop c' (S n) r in
          (c'', ids <- res ;; Ok (i :: ids))
      | (c', Raised e) =>
          (c', Raised (Exn BulkWriteError "batch op errors occurred"))
      end
  end.

Definition insert_many (c : collection) (n : nat) (ds : list doc)
  : collection * result (list value) :=
  match ds with
  | [] => (c, Raised (Exn TypeError "documents must be a non-empty list"))
  | _ => insert_loop c n ds
  end.

(* ----------------------------------------------------------------- *)
(** *** [update_many] *)

Record update_result : Type := UpdateResult {
  matched_count : nat;
  modified_count : nat
}.

Definition bump (modified : bool) (r : update_result) : update_result :=
  UpdateResult (S (matched_count r))
               (if modified then S (modified_count r) else modified_count r).

(** The multi-document update.  [before] holds the documents already
    passed, in their new state; the result is the new state of [rest].
    A matching document the update leaves as it was counts as matched
    only and is not written.  A write that fails stops the update: the
    documents already written stay written. *)
Fixpoint update_loop (c : collection) (p : doc -> bool)
         (f : doc -> result doc) (before rest : list doc)
  : list doc * result update_result :=
  match rest with
  | [] => ([], Ok (UpdateResult 0 0))
  | d :: rest' =>
      if p d then
        match f d with
        | Raised e => (rest, Raised e)
        | Ok d' =>
            if doc_eqb d d' then
              let (out, r) := update_loop c p f (before ++ [d]) rest' in
              (d :: out, x <- r ;; Ok (bump false x))
            else
              match check_write c d' (before ++ rest') with
              | Raised e => (rest, Raised e)
              | Ok _ =>
                  let (out, r) := update_loop c p f (before ++ [d']) rest' in
                  (d' :: out, x <- r ;; Ok (bump true x))
              end
        end
      else
        let (out, r) := update_loop c p f (before ++ [d]) rest' in
        (d :: out, r)
  end.

Definition update_many (c : collection) (q u : doc)
  : collection * result update_result :=
  match compile_update u with
  | Raised e => (c, Raised e)
  | Ok ops =>
      match compile_filter q with
      | Raised e => (c, Raised e)
      | Ok cf =>
          let (ds, r) :=
            update_loop c (matches cf) (apply_update ops) [] (coll_docs c) in
          (set_docs c ds, r)
      end
  end.

(* ----------------------------------------------------------------- *)
(** *** [find], [find_one] *)

Inductive direction : Type :=
| Ascending    (* 1 *)
| Descending.  (* -1 *)

Definition goes_before (dir : direction) (a b : value) : bool :=
  match dir with
  | Ascending => is_le (bson_compare a b)
  | Descending => is_ge (bson_compare a b)
  end.

Fixpoint insert_sorted {A : Type} (before : A -> A -> bool) (x : A) (l : list A)
  : list A :=
  match l with
  | [] => [x]
  | y :: r => if before x y then x :: l else y :: insert_sorted before x r
  end.

(** A stable sort: elements with equal keys keep their natural order. *)
Definition stable_sort {A : Type} (before : A -> A -> bool) (l : list A)
  : list A :=
  fold_right (insert_sorted before) [] l.

Definition sort_by (field : string) (dir : direction) (l : list doc) : list doc :=
  stable_sort (fun a b => goes_before dir (field_or_null field a)
                                          (field_or_null field b)) l.

Definition find (c : collection) (q : doc) : result (list doc) :=
  cf <- compile_filter q ;; Ok (filter (matches cf) (coll_docs c)).

(** [find_one(sort=[(field, dir)])]: the first document in sort order,
    [None] when the collection is empty. *)
Definition find_one_sorted (c : collection) (field : string) (dir : direction)
  : option doc :=
  hd_error (sort_by field dir (coll_docs c)).

(* ----------------------------------------------------------------- *)
(** *** [create_index] *)

Fixpoint key_list_eqb (a b : list string) : bool :=
  match a, b with
  | [], [] => true
  | x :: a', y :: b' => String.eqb x y && key_list_eqb a' b'
  | _, _ => false
  end.

(** Building a unique index fails when two documents already share the
    key; asking again for a unique index that is there changes nothing.
    An index that is not unique changes nothing a query returns. *)
Definition create_index (c : collection) (ks : list string) (unique : bool)
  : result collection :=
  if unique then
    if has_duplicates ks (coll_docs c)
    then Raised (Exn DuplicateKeyError "E11000 duplicate key error collection")
    else if existsb (key_list_eqb ks) (coll_unique c) then Ok c
    else Ok (Collection (coll_docs c) (coll_validator c) (coll_unique c ++ [ks]))
  else Ok c.

(** [db[name].create_index(...)] at the top level of the script. *)
Definition db_create_index (db : database) (name : string) (ks : list string)
           (unique : bool) : result database :=
  c <- create_index (db_coll db name) ks unique ;; Ok (db_put db name c).

(* ================================================================= *)
(** ** Aggregation pipelines *)

Inductive accumulator : Type :=
| AccSum (e : value)    (* {"$sum": e} *)
| AccAvg (e : value).   (* {"$avg": e} *)

Inductive stage : Type :=
| SGroup (id_expr : value) (fields : list (string * accumulator))
| SSort (field : string) (dir : direction)
| SLookup (from localField foreignField as_ : string)
| SUnwind (path : string).

Definition strip_dollar (s : string) : string :=
  match s with
  | String _ r => r
  | EmptyString => EmptyString
  end.

(** An expression: ["$path"] reads the field, anything else is a constant. *)
Definition eval_expr (e : value) (d : doc) : value :=
  match e with
  | VStr s => if String.prefix "$" s then field_or_null (strip_dollar s) d else e
  | _ => e
  end.

Fixpoint nums (vs : list value) : list Q :=
  match vs with
  | [] => []
  | VNum q :: r => q :: nums r
  | _ :: r => nums r
  end.

Definition Qsum (l : list Q) : Q := fold_right Qplus 0%Q l.

Definition mean (l : list Q) : Q :=
  (Qsum l / inject_Z (Z.of_nat (List.length l)))%Q.

(** [$avg] skips the values that are not numbers and is null when none is. *)
Definition avg_of (vs : list value) : value :=
  match nums vs with
  | [] => VNull
  | ns => VNum (mean ns)
  end.

Definition sum_of (vs : list value) : value := VNum (Qsum (nums vs)).

Definition eval_acc (a : accumulator) (ds : list doc) : value :=
  match a with
  | AccSum e => sum_of (map (eval_expr e) ds)
  | AccAvg e => avg_of (map (eval_expr e) ds)
  end.

(** The distinct values of a list, each at its first occurrence. *)
Fixpoint distinct (ks : list value) : list value :=
  match ks with
  | [] => []
  | k :: r => k :: filter (fun x => negb (value_eqb k x)) (distinct r)
  end.

Definition group_members (id_expr k : value) (ds : list doc) : list doc :=
  filter (fun d => value_eqb k (eval_expr id_expr d)) ds.

Definition group_stage (id_expr : value) (fields : list (string * accumulator))
           (ds : list doc) : list doc :=
  map (fun k =>
         ("_id", k)
         :: map (fun fa => (fst fa, eval_acc (snd fa) (group_members id_expr k ds)))
                fields)
      (distinct (map (eval_expr id_expr) ds)).

(** The documents of [from] a [$lookup] joins to [d]: those whose
    [foreignField] equals the [localField] of [d] (missing reads as null). *)
Definition lookup_matches (foreign : list doc) (lf ff : string) (d : doc)
  : list doc :=
  filter (fun f => value_eqb (field_or_null lf d) (field_or_null ff f)) foreign.

(** [$lookup]: every document gets the array of its matches. *)
Definition lookup_stage (foreign : list doc) (lf ff as_ : string)
           (ds : list doc) : list doc :=
  map (fun d => doc_set as_ (VList (map VDoc (lookup_matches foreign lf ff d))) d)
      ds.

(** [$unwind] of a top-level field: one output document per element of
    the array; a missing, null or empty array drops the document and any
    other value is kept as it is. *)
Definition unwind_stage (path : string) (ds : list doc) : list doc :=
  flat_map (fun d =>
              match doc_get (strip_dollar path) d with
              | Some (VList xs) => map (fun x => doc_set (strip_dollar path) x d) xs
              | None | Some VNull => []
              | Some _ => [d]
              end)
           ds.

Definition run_stage (db : database) (st : stage) (ds : list doc) : list doc :=
  match st with
  | SGroup id_expr fields => group_stage id_expr fields ds
  | SSort field dir => sort_by field dir ds
  | SLookup from lf ff as_ =>
      lookup_stage (coll_docs (db_coll db from)) lf ff as_ ds
  | SUnwind path => unwind_stage path ds
  end.

(** [list(db[name].aggregate(pipeline))] *)
Definition aggregate (db : database) (name : string) (pipeline : list stage)
  : list doc :=
  fold_left (fun ds st => run_stage db st ds) pipeline (coll_docs (db_coll db name)).

(* ================================================================= *)
(** ** Python values the helpers compute with *)

(** [v + 1]: defined on numbers ([bool] is a subclass of [int]); a
    [TypeError] on everything else.  Numbers are exact in this
    development: this is Python's [+ 1] on an [int], and on a [float] as
    long as the sum is a double again, as it is for whole numbers below
    2^53; statements that need more than the branch taken carry that
    bound as a hypothesis. *)
Definition py_add1 (v : value) : result value :=
  match v with
  | VNum q => Ok (VNum (q + 1))
  | VBool b => Ok (VNum (if b then 2 else 1))
  | _ => Raised (Exn TypeError "unsupported operand type(s) for +")
  end.

(** [d[k]] raising [KeyError]. *)
Definition py_getitem (k : string) (d : doc) : result value :=
  match doc_get k d with
  | Some v => Ok v
  | None => Raised (Exn KeyError k)
  end.

(** Truth value of a dict: a dict is false when it is empty. *)
Definition py_truthy (d : doc) : bool :=
  match d with [] => false | _ => true end.

(* ================================================================= *)
(** ** The files the script reads *)

Inductive fs_entry : Type :=
| NoEntry
| Directory
| Unreadable
| File (content : string).

Definition filesystem : Type := string -> fs_entry.

(** [open(file_path, "r")] followed by reading the whole file. *)
Definition open_read (fs : filesystem) (path : string) : result string :=
  match fs path with
  | NoEntry => Raised (Exn FileNotFoundError "[Errno 2] No such file or directory")
  | Directory => Raised (Exn IsADirectoryError "[Errno 21] Is a directory")
  | Unreadable => Raised (Exn PermissionError "[Errno 13] Permission denied")
  | File s => Ok s
  end.

(* ================================================================= *)
(** ** Running a helper: state, printed lines, returned value *)

Record run (S A : Type) : Type := Run {
  run_state : S;
  run_printed : list string;
  run_value : result A
}.

Arguments Run {S A} _ _ _.

(** [try: body  except clause as e: print(message e); return sentinel] *)
Definition try_except {S A : Type} (clause : except_clause) (body : run S A)
           (message : exn -> string) (sentinel : A) : run S A :=
  match run_value body with
  | Ok _ => body
  | Raised e =>
      if catches clause e
      then Run (run_state body) (run_printed body ++ [message e]) (Ok sentinel)
      else body
  end.

(* ================================================================= *)
(** ** The helper functions of the script *)

Section Helpers.

(** [json.load] on the text of a file: [None] when the text is not JSON. *)
Variable json_loads : string -> option value.

(** Python's [str] on the value of an [_id]. *)
Variable py_str : value -> string.

(** The server's reading of [{"$jsonSchema": schema}]: the predicate the
    schema stands for, [None] when the server rejects the schema. *)
Variable jsonSchema : value -> option (doc -> bool).

(** The [try] block of [get_next_id]. *)
Definition get_next_id_try (db : database) (collection_name id_field : string)
  : result value :=
  let collection := db_coll db collection_name in
  let last_doc := find_one_sorted collection id_field Descending in
  match last_doc with
  | Some d =>
      if py_truthy d && doc_has id_field d
      then v <- py_getitem id_field d ;; py_add1 v
      else Ok (VNum 1)
  | None => Ok (VNum 1)
  end.

Definition get_next_id (db : database) (collection_name id_field : string)
  : run database value :=
  try_except ExceptException
    (Run db [] (get_next_id_try db collection_name id_field))
    (fun e => ("Error while fetching id: " ++ exn_str e)%string)
    VNull.

Definition load_json_file (fs : filesystem) (file_path : string)
  : run unit value :=
  try_except ExceptFileNotFoundError
    (Run tt []
       (text <- open_read fs file_path ;;
        match json_loads text with
        | Some data => Ok data
        | None => Raised (Exn JSONDecodeError "Expecting value")
        end))
    (fun _ => "File not found")
    VNull.

(** [db.create_collection(name, validator={"$jsonSchema": schema},
    validationLevel="strict")]: the client refuses a name that exists,
    the server a schema it cannot read. *)
Definition create_collection (db : database) (name : string) (schema : value)
  : database * result unit :=
  if db_exists db name
  then (db, Raised (Exn CollectionInvalid
                    ("collection " ++ name ++ " already exists")%string))
  else
    match jsonSchema schema with
    | Some v => (db_put db name (Collection [] v []), Ok tt)
    | None => (db, Raised (Exn OperationFailure "$jsonSchema must be an object"))
    end.

Definition create_collection_with_schema (db : database)
           (collection_name : string) (schema : value) : run database bool :=
  try_except ExceptException
    (let (db', r) := create_collection db collection_name schema in
     match r with
     | Ok _ =>
         Run db'
           [("Collection '" ++ collection_name
             ++ "' created successfully with schema validation.")%string]
           (Ok true)
     | Raised e => Run db' [] (Raised e)
     end)
    (fun e => ("Error creating collection '" ++ collection_name ++ "': "
               ++ exn_str e)%string)
    false.

Definition read_document (db : database) (collection_name : string)
           (filter_query : doc) : run database (list doc) :=
  try_except ExceptException
    (let collection := db_coll db collection_name in
     Run db [] (find collection filter_query))
    (fun e => ("Error reading documents: " ++ exn_str e)%string)
    [].

Definition create_document (db : database) (collection_name : string)
           (document : doc) : run database (option string) :=
  try_except ExceptException
    (let collection := db_coll db collection_name in
     let (c, r) := insert_one collection (db_next_oid db) document in
     Run (db_fresh (db_store db collection_name c) 1) []
         (inserted_id <- r ;; Ok (Some (py_str inserted_id))))
    (fun e => ("Error inserting document: " ++ exn_str e)%string)
    None.

Definition create_documents (db : database) (collection_name : string)
           (documents : list doc) (id_field : string)
  : run database (list string) :=
  try_except ExceptException
    (let collection := db_coll db collection_name in
     let (c, r) := insert_many collection (db_next_oid db) documents in
     Run (db_fresh (db_store db collection_name c) (List.length documents)) []
         (inserted_ids <- r ;; Ok (map py_str inserted_ids)))
    (fun e => ("Error inserting documents: " ++ exn_str e)%string)
    [].

Definition update_document (db : database) (collection_name : string)
           (filter_query update_data : doc) : run database nat :=
  try_except ExceptException
    (let collection := db_coll db collection_name in
     let (c, r) := update_many collection filter_query update_data in
     Run (db_store db collection_name c) []
         (res <- r ;; Ok (modified_count res)))
    (fun e => ("Error updating document: " ++ exn_str e)%string)
    0.

(** [now] is what [datetime.now()] returns when the call is made. *)
Definition delete_document (now : Z) (db : database) (collection_name : string)
           (document_query : doc) : run database nat :=
  try_except ExceptException
    (let collection := db_coll db collection_name in
     let (c, r) :=
       update_many collection document_query
         [("$set", VDoc [("isActive", VBool false);
                         ("updatedAt", VDate now)])] in
     Run (db_store db collection_name c) []
         (res <- r ;; Ok (modified_count res)))
    (fun e => ("Error performing soft delete: " ++ exn_str e)%string)
    0.

End Helpers.

(* ================================================================= *)
(** ** The script *)

Definition user_collection : string := "user".
Definition course_collection : string := "course".
Definition lesson_collection : string := "lesson".
Definition assignment_collection : string := "assignment".
Definition submission_collection : string := "submission".
Definition enrollment_collection : string := "enrollment".

(** The unique indexes the script creates, in the order of the calls. *)
Definition unique_indexes : list (string * list string) :=
  [ (user_collection, ["userId"]);
    (enrollment_collection, ["enrollmentId"]);
    (enrollment_collection, ["courseId"; "studentId"]);
    (lesson_collection, ["lessonId"]);
    (assignment_collection, ["assignmentId"]);
    (submission_collection, ["submissionId"]) ].

(** The index creation section.  The calls are not inside a [try]: the
    first one that raises ends the script. *)
Fixpoint create_indexes (ixs : list (string * list string)) (db : database)
  : result database :=
  match ixs with
  | [] => Ok db
  | (name, ks) :: r =>
      db' <- db_create_index db name ks true ;; create_indexes r db'
  end.

Definition create_unique_indexes (db : database) : result database :=
  create_indexes unique_indexes db.

(** Average course rating, grouped by category. *)
Definition course_rating_pipeline : list stage :=
  [ SGroup (VStr "$category") [("averageRating", AccAvg (VStr "$reviewRate"))];
    SSort "averageRating" Descending ].

(** Average grade per student. *)
Definition student_performance_pipeline : list stage :=
  [ SLookup "submission" "enrollmentId" "enrollmentId" "submissions";
    SUnwind "$submissions";
    SGroup (VStr "$studentId")
           [("averageGrade", AccAvg (VStr "$submissions.grade"))];
    SSort "averageGrade" Descending ].

(** Count of enrollments per course. *)
Definition enrollment_count_pipeline : list stage :=
  [ SGroup (VStr "$courseId") [("totalEnrollments", AccSum (VNum 1))] ].

(* ================================================================= *)
(** ** The sample data

    The six lists of the script, field by field.  Where a document holds
    [datetime.now()] the time of the run is the parameter [now]. *)

Definition users_data : list doc :=
  [
    [("userId", VNum 1); ("email", VStr "alice.student@example.com");
     ("firstName", VStr "Alice"); ("lastName", VStr "Johnson"); ("role", VStr
     "student"); ("joinedAt", VDate 20230115100000); ("profile", VDoc [("bio",
     VStr "Loves learning Python"); ("avatar", VStr EmptyString); ("skills",
     VList [VStr "Python"; VStr "Data Analysis"])]); ("isActive", VBool true);
     ("updatedAt", VDate 20230920120000)];
    [("userId", VNum 2); ("email", VStr "bob.student@example.com");
     ("firstName", VStr "Bob"); ("lastName", VStr "Smith"); ("role", VStr
     "student"); ("joinedAt", VDate 20230210093000); ("profile", VDoc [("bio",
     VStr "Front-end enthusiast"); ("avatar", VStr EmptyString); ("skills",
     VList [VStr "HTML"; VStr "CSS"; VStr "JavaScript"])]); ("isActive", VBool
     true); ("updatedAt", VDate 20230918110000)];
    [("userId", VNum 3); ("email", VStr "carol.student@example.com");
     ("firstName", VStr "Carol"); ("lastName", VStr "Davis"); ("role", VStr
     "student"); ("joinedAt", VDate 20230301084500); ("profile", VDoc [("bio",
     VStr "Data Science beginner"); ("avatar", VStr EmptyString); ("skills",
     VList [VStr "Python"; VStr "Statistics"])]); ("isActive", VBool true);
     ("updatedAt", VDate 20230915100000)];
    [("userId", VNum 4); ("email", VStr "david.student@example.com");
     ("firstName", VStr "David"); ("lastName", VStr "Wilson"); ("role", VStr
     "student"); ("joinedAt", VDate 20230120101500); ("profile", VDoc [("bio",
     VStr "AI hobbyist"); ("avatar", VStr EmptyString); ("skills", VList [VStr
     "Python"; VStr "Machine Learning"])]); ("isActive", VBool true);
     ("updatedAt", VDate 20230919093000)];
    [("userId", VNum 5); ("email", VStr "emma.student@example.com");
     ("firstName", VStr "Emma"); ("lastName", VStr "Taylor"); ("role", VStr
     "student"); ("joinedAt", VDate 20230225110000); ("profile", VDoc [("bio",
     VStr "Web developer in training"); ("avatar", VStr EmptyString);
     ("skills", VList [VStr "HTML"; VStr "CSS"])]); ("isActive", VBool true);
     ("updatedAt", VDate 20230921121500)];
    [("userId", VNum 6); ("email", VStr "frank.student@example.com");
     ("firstName", VStr "Frank"); ("lastName", VStr "Anderson"); ("role", VStr
     "student"); ("joinedAt", VDate 20230310093000); ("profile", VDoc [("bio",
     VStr "Interested in DevOps"); ("avatar", VStr EmptyString); ("skills",
     VList [VStr "Docker"; VStr "Kubernetes"])]); ("isActive", VBool true);
     ("updatedAt", VDate 20230920114500)];
    [("userId", VNum 7); ("email", VStr "grace.student@example.com");
     ("firstName", VStr "Grace"); ("lastName", VStr "Thomas"); ("role", VStr
     "student"); ("joinedAt", VDate 20230128100000); ("profile", VDoc [("bio",
     VStr "Learning backend development"); ("avatar", VStr EmptyString);
     ("skills", VList [VStr "Node.js"; VStr "Express"])]); ("isActive", VBool
     true); ("updatedAt", VDate 20230919103000)];
    [("userId", VNum 8); ("email", VStr "henry.student@example.com");
     ("firstName", VStr "Henry"); ("lastName", VStr "Moore"); ("role", VStr
     "student"); ("joinedAt", VDate 20230205090000); ("profile", VDoc [("bio",
     VStr "Database enthusiast"); ("avatar", VStr EmptyString); ("skills",
     VList [VStr "SQL"; VStr "PostgreSQL"])]); ("isActive", VBool true);
     ("updatedAt", VDate 20230918111500)];
    [("userId", VNum 9); ("email", VStr "isabel.student@example.com");
     ("firstName", VStr "Isabel"); ("lastName", VStr "Martin"); ("role", VStr
     "student"); ("joinedAt", VDate 20230312083000); ("profile", VDoc [("bio",
     VStr "Learning AI"); ("avatar", VStr EmptyString); ("skills", VList [VStr
     "Python"; VStr "TensorFlow"])]); ("isActive", VBool true); ("updatedAt",
     VDate 20230921095000)];
    [("userId", VNum 10); ("email", VStr "jack.student@example.com");
     ("firstName", VStr "Jack"); ("lastName", VStr "Lee"); ("role", VStr
     "student"); ("joinedAt", VDate 20230118102000); ("profile", VDoc [("bio",
     VStr "Cloud computing beginner"); ("avatar", VStr EmptyString);
     ("skills", VList [VStr "AWS"; VStr "Azure"])]); ("isActive", VBool true);
     ("updatedAt", VDate 20230920104000)];
    [("userId", VNum 11); ("email", VStr "kate.student@example.com");
     ("firstName", VStr "Kate"); ("lastName", VStr "Perez"); ("role", VStr
     "student"); ("joinedAt", VDate 20230222111000); ("profile", VDoc [("bio",
     VStr "Cybersecurity enthusiast"); ("avatar", VStr EmptyString);
     ("skills", VList [VStr "Network Security"; VStr "Linux"])]); ("isActive",
     VBool true); ("updatedAt", VDate 20230919120000)];
    [("userId", VNum 12); ("email", VStr "leo.student@example.com");
     ("firstName", VStr "Leo"); ("lastName", VStr "Harris"); ("role", VStr
     "student"); ("joinedAt", VDate 20230305095000); ("profile", VDoc [("bio",
     VStr "Loves Python scripting"); ("avatar", VStr EmptyString); ("skills",
     VList [VStr "Python"; VStr "Automation"])]); ("isActive", VBool true);
     ("updatedAt", VDate 20230918102000)];
    [("userId", VNum 13); ("email", VStr "mia.student@example.com");
     ("firstName", VStr "Mia"); ("lastName", VStr "Clark"); ("role", VStr
     "student"); ("joinedAt", VDate 20230130100500); ("profile", VDoc [("bio",
     VStr "Full-stack web developer"); ("avatar", VStr EmptyString);
     ("skills", VList [VStr "React"; VStr "Node.js"])]); ("isActive", VBool
     true); ("updatedAt", VDate 20230921111000)];
    [("userId", VNum 14); ("email", VStr "nick.student@example.com");
     ("firstName", VStr "Nick"); ("lastName", VStr "Lewis"); ("role", VStr
     "student"); ("joinedAt", VDate 20230212094000); ("profile", VDoc [("bio",
     VStr "Interested in DevOps"); ("avatar", VStr EmptyString); ("skills",
     VList [VStr "Docker"; VStr "CI/CD"])]); ("isActive", VBool true);
     ("updatedAt", VDate 20230920123000)];
    [("userId", VNum 15); ("email", VStr "olivia.student@example.com");
     ("firstName", VStr "Olivia"); ("lastName", VStr "Walker"); ("role", VStr
     "student"); ("joinedAt", VDate 20230307085000); ("profile", VDoc [("bio",
     VStr "Learning Data Science"); ("avatar", VStr EmptyString); ("skills",
     VList [VStr "Python"; VStr "Pandas"])]); ("isActive", VBool true);
     ("updatedAt", VDate 20230919105000)];
    [("userId", VNum 16); ("email", VStr "paul.student@example.com");
     ("firstName", VStr "Paul"); ("lastName", VStr "Hall"); ("role", VStr
     "student"); ("joinedAt", VDate 20230125103000); ("profile", VDoc [("bio",
     VStr "Interested in AI"); ("avatar", VStr EmptyString); ("skills", VList
     [VStr "Python"; VStr "Keras"])]); ("isActive", VBool true); ("updatedAt",
     VDate 20230921121000)];
    [("userId", VNum 17); ("email", VStr "queen.instructor@example.com");
     ("firstName", VStr "Queen"); ("lastName", VStr "Allen"); ("role", VStr
     "instructor"); ("joinedAt", VDate 20221210090000); ("profile", VDoc
     [("bio", VStr "Expert in Python"); ("avatar", VStr EmptyString);
     ("skills", VList [VStr "Python"; VStr "Data Science"])]); ("isActive",
     VBool true); ("updatedAt", VDate 20230915120000)];
    [("userId", VNum 18); ("email", VStr "roger.instructor@example.com");
     ("firstName", VStr "Roger"); ("lastName", VStr "Young"); ("role", VStr
     "instructor"); ("joinedAt", VDate 20221105083000); ("profile", VDoc
     [("bio", VStr "Web development instructor"); ("avatar", VStr
     EmptyString); ("skills", VList [VStr "HTML"; VStr "CSS"; VStr
     "JavaScript"])]); ("isActive", VBool true); ("updatedAt", VDate
     20230918114000)];
    [("userId", VNum 19); ("email", VStr "sophia.instructor@example.com");
     ("firstName", VStr "Sophia"); ("lastName", VStr "King"); ("role", VStr
     "instructor"); ("joinedAt", VDate 20221215091500); ("profile", VDoc
     [("bio", VStr "AI and ML instructor"); ("avatar", VStr EmptyString);
     ("skills", VList [VStr "Python"; VStr "Machine Learning"])]);
     ("isActive", VBool true); ("updatedAt", VDate 20230920103000)];
    [("userId", VNum 20); ("email", VStr "tom.instructor@example.com");
     ("firstName", VStr "Tom"); ("lastName", VStr "Scott"); ("role", VStr
     "instructor"); ("joinedAt", VDate 20221220084500); ("profile", VDoc
     [("bio", VStr "Cloud computing instructor"); ("avatar", VStr
     EmptyString); ("skills", VList [VStr "AWS"; VStr "Azure"])]);
     ("isActive", VBool true); ("updatedAt", VDate 20230921115000)];
    [("userId", VNum 21); ("email", VStr "uma.student@example.com");
     ("firstName", VStr "Uma"); ("lastName", VStr "Adams"); ("role", VStr
     "student"); ("joinedAt", VDate 20230201101000); ("profile", VDoc [("bio",
     VStr "Learning front-end"); ("avatar", VStr EmptyString); ("skills",
     VList [VStr "React"; VStr "CSS"])]); ("isActive", VBool true);
     ("updatedAt", VDate 20230920102000)];
    [("userId", VNum 22); ("email", VStr "victor.student@example.com");
     ("firstName", VStr "Victor"); ("lastName", VStr "Baker"); ("role", VStr
     "student"); ("joinedAt", VDate 20230218093500); ("profile", VDoc [("bio",
     VStr "Backend beginner"); ("avatar", VStr EmptyString); ("skills", VList
     [VStr "Node.js"; VStr "Express"])]); ("isActive", VBool true);
     ("updatedAt", VDate 20230919111500)];
    [("userId", VNum 23); ("email", VStr "wendy.student@example.com");
     ("firstName", VStr "Wendy"); ("lastName", VStr "Carter"); ("role", VStr
     "student"); ("joinedAt", VDate 20230303085500); ("profile", VDoc [("bio",
     VStr "Learning DevOps"); ("avatar", VStr EmptyString); ("skills", VList
     [VStr "Docker"; VStr "Kubernetes"])]); ("isActive", VBool true);
     ("updatedAt", VDate 20230921124000)];
    [("userId", VNum 24); ("email", VStr "xander.student@example.com");
     ("firstName", VStr "Xander"); ("lastName", VStr "Evans"); ("role", VStr
     "student"); ("joinedAt", VDate 20230127102000); ("profile", VDoc [("bio",
     VStr "Database learner"); ("avatar", VStr EmptyString); ("skills", VList
     [VStr "SQL"; VStr "PostgreSQL"])]); ("isActive", VBool true);
     ("updatedAt", VDate 20230918105000)];
    [("userId", VNum 25); ("email", VStr "yara.student@example.com");
     ("firstName", VStr "Yara"); ("lastName", VStr "Foster"); ("role", VStr
     "student"); ("joinedAt", VDate 20230208095000); ("profile", VDoc [("bio",
     VStr "Learning AI"); ("avatar", VStr EmptyString); ("skills", VList [VStr
     "Python"; VStr "TensorFlow"])]); ("isActive", VBool true); ("updatedAt",
     VDate 20230920112500)];
    [("userId", VNum 26); ("email", VStr "zane.student@example.com");
     ("firstName", VStr "Zane"); ("lastName", VStr "Green"); ("role", VStr
     "student"); ("joinedAt", VDate 20230311084000); ("profile", VDoc [("bio",
     VStr "Python and ML beginner"); ("avatar", VStr EmptyString); ("skills",
     VList [VStr "Python"; VStr "ML"])]); ("isActive", VBool true);
     ("updatedAt", VDate 20230921120500)];
    [("userId", VNum 27); ("email", VStr "amy.student@example.com");
     ("firstName", VStr "Amy"); ("lastName", VStr "Hughes"); ("role", VStr
     "student"); ("joinedAt", VDate 20230119100500); ("profile", VDoc [("bio",
     VStr "Interested in cybersecurity"); ("avatar", VStr EmptyString);
     ("skills", VList [VStr "Network Security"; VStr "Linux"])]); ("isActive",
     VBool true); ("updatedAt", VDate 20230920103500)];
    [("userId", VNum 28); ("email", VStr "brian.student@example.com");
     ("firstName", VStr "Brian"); ("lastName", VStr "Irwin"); ("role", VStr
     "student"); ("joinedAt", VDate 20230228092000); ("profile", VDoc [("bio",
     VStr "Learning cloud computing"); ("avatar", VStr EmptyString);
     ("skills", VList [VStr "AWS"; VStr "Azure"])]); ("isActive", VBool true);
     ("updatedAt", VDate 20230919115500)];
    [("userId", VNum 29); ("email", VStr "chloe.student@example.com");
     ("firstName", VStr "Chloe"); ("lastName", VStr "Jones"); ("role", VStr
     "student"); ("joinedAt", VDate 20230306085000); ("profile", VDoc [("bio",
     VStr "Data science enthusiast"); ("avatar", VStr EmptyString); ("skills",
     VList [VStr "Python"; VStr "Pandas"])]); ("isActive", VBool true);
     ("updatedAt", VDate 20230921123000)];
    [("userId", VNum 30); ("email", VStr "daniel.student@example.com");
     ("firstName", VStr "Daniel"); ("lastName", VStr "Kelly"); ("role", VStr
     "student"); ("joinedAt", VDate 20230123102500); ("profile", VDoc [("bio",
     VStr "Interested in AI and ML"); ("avatar", VStr EmptyString); ("skills",
     VList [VStr "Python"; VStr "Keras"])]); ("isActive", VBool true);
     ("updatedAt", VDate 20230920105500)];
    [("userId", VNum 31); ("email", VStr "ella.student@example.com");
     ("firstName", VStr "Ella"); ("lastName", VStr "Lopez"); ("role", VStr
     "student"); ("joinedAt", VDate 20230214094000); ("profile", VDoc [("bio",
     VStr "Front-end learner"); ("avatar", VStr EmptyString); ("skills", VList
     [VStr "HTML"; VStr "CSS"; VStr "React"])]); ("isActive", VBool true);
     ("updatedAt", VDate 20230919111000)];
    [("userId", VNum 32); ("email", VStr "fred.student@example.com");
     ("firstName", VStr "Fred"); ("lastName", VStr "Morris"); ("role", VStr
     "student"); ("joinedAt", VDate 20230309083500); ("profile", VDoc [("bio",
     VStr "Learning backend development"); ("avatar", VStr EmptyString);
     ("skills", VList [VStr "Node.js"; VStr "Express"])]); ("isActive", VBool
     true); ("updatedAt", VDate 20230921122000)]
  ].

Definition courses_data : list doc :=
  [
    [("courseId", VNum 1); ("title", VStr "Introduction to Python");
     ("description", VStr "Learn the basics of Python programming.");
     ("instructorId", VNum 17); ("category", VStr "Programming");
     ("difficultyLevel", VStr "beginner"); ("duration", VNum 20); ("price",
     VNum 49.99); ("tags", VList [VStr "python"; VStr "programming"; VStr
     "basics"]); ("isPublished", VBool true); ("isActive", VBool true);
     ("reviewRate", VNum 4.5); ("createdAt", VDate 20230110090000);
     ("updatedAt", VDate 20230501120000)];
    [("courseId", VNum 2); ("title", VStr "Advanced Python"); ("description",
     VStr "Master advanced Python concepts and best practices.");
     ("instructorId", VNum 18); ("category", VStr "Programming");
     ("difficultyLevel", VStr "advanced"); ("duration", VNum 35); ("price",
     VNum 99.99); ("tags", VList [VStr "python"; VStr "advanced"; VStr
     "OOP"]); ("isPublished", VBool true); ("isActive", VBool true);
     ("reviewRate", VNum 4.8); ("createdAt", VDate 20230215100000);
     ("updatedAt", VDate 20230620140000)];
    [("courseId", VNum 3); ("title", VStr "Data Science Basics");
     ("description", VStr
     "Introduction to data science, statistics, and visualization.");
     ("instructorId", VNum 19); ("category", VStr "Data Science");
     ("difficultyLevel", VStr "beginner"); ("duration", VNum 25); ("price",
     VNum 59.99); ("tags", VList [VStr "data science"; VStr "statistics"; VStr
     "visualization"]); ("isPublished", VBool true); ("isActive", VBool true);
     ("reviewRate", VNum 4.6); ("createdAt", VDate 20230301110000);
     ("updatedAt", VDate 20230615120000)];
    [("courseId", VNum 4); ("title", VStr "Machine Learning A-Z");
     ("description", VStr "Learn machine learning algorithms from scratch.");
     ("instructorId", VNum 20); ("category", VStr "Data Science");
     ("difficultyLevel", VStr "intermidiate"); ("duration", VNum 40);
     ("price", VNum 129.99); ("tags", VList [VStr "machine learning"; VStr
     "python"; VStr "AI"]); ("isPublished", VBool true); ("isActive", VBool
     true); ("reviewRate", VNum 4.7); ("createdAt", VDate 20230310090000);
     ("updatedAt", VDate 20230701150000)];
    [("courseId", VNum 5); ("title", VStr
     "Web Development with HTML, CSS, JS"); ("description", VStr
     "Build interactive websites using HTML, CSS, and JavaScript.");
     ("instructorId", VNum 17); ("category", VStr "Web Development");
     ("difficultyLevel", VStr "beginner"); ("duration", VNum 30); ("price",
     VNum 79.99); ("tags", VList [VStr "web"; VStr "html"; VStr "css"; VStr
     "javascript"]); ("isPublished", VBool true); ("isActive", VBool true);
     ("reviewRate", VNum 4.3); ("createdAt", VDate 20230120080000);
     ("updatedAt", VDate 20230525130000)];
    [("courseId", VNum 6); ("title", VStr "React for Beginners");
     ("description", VStr
     "Learn how to build dynamic front-end applications using React.");
     ("instructorId", VNum 18); ("category", VStr "Web Development");
     ("difficultyLevel", VStr "beginner"); ("duration", VNum 28); ("price",
     VNum 89.99); ("tags", VList [VStr "react"; VStr "javascript"; VStr
     "frontend"]); ("isPublished", VBool true); ("isActive", VBool true);
     ("reviewRate", VNum 4.4); ("createdAt", VDate 20230205103000);
     ("updatedAt", VDate 20230605123000)];
    [("courseId", VNum 7); ("title", VStr "Node.js and Express");
     ("description", VStr
     "Server-side development with Node.js and Express."); ("instructorId",
     VNum 19); ("category", VStr "Backend Development"); ("difficultyLevel",
     VStr "intermidiate"); ("duration", VNum 32); ("price", VNum 99.99);
     ("tags", VList [VStr "nodejs"; VStr "express"; VStr "backend"]);
     ("isPublished", VBool true); ("isActive", VBool true); ("reviewRate",
     VNum 4.5); ("createdAt", VDate 20230301093000); ("updatedAt", VDate
     20230710140000)];
    [("courseId", VNum 8); ("title", VStr "Docker Essentials");
     ("description", VStr
     "Learn containerization concepts and Docker fundamentals.");
     ("instructorId", VNum 20); ("category", VStr "DevOps");
     ("difficultyLevel", VStr "beginner"); ("duration", VNum 18); ("price",
     VNum 59.99); ("tags", VList [VStr "docker"; VStr "containers"; VStr
     "devops"]); ("isPublished", VBool true); ("isActive", VBool true);
     ("reviewRate", VNum 4.2); ("createdAt", VDate 20230125110000);
     ("updatedAt", VDate 20230530133000)];
    [("courseId", VNum 9); ("title", VStr "Kubernetes for Beginners");
     ("description", VStr
     "Introduction to Kubernetes and container orchestration.");
     ("instructorId", VNum 17); ("category", VStr "DevOps");
     ("difficultyLevel", VStr "intermidiate"); ("duration", VNum 25);
     ("price", VNum 79.99); ("tags", VList [VStr "kubernetes"; VStr
     "containers"; VStr "orchestration"]); ("isPublished", VBool true);
     ("isActive", VBool true); ("reviewRate", VNum 4.3); ("createdAt", VDate
     20230215094500); ("updatedAt", VDate 20230620123000)];
    [("courseId", VNum 10); ("title", VStr "SQL for Beginners");
     ("description", VStr "Learn to query databases using SQL.");
     ("instructorId", VNum 18); ("category", VStr "Database");
     ("difficultyLevel", VStr "beginner"); ("duration", VNum 20); ("price",
     VNum 49.99); ("tags", VList [VStr "sql"; VStr "database"; VStr "query"]);
     ("isPublished", VBool true); ("isActive", VBool true); ("reviewRate",
     VNum 4.4); ("createdAt", VDate 20230112083000); ("updatedAt", VDate
     20230515110000)];
    [("courseId", VNum 11); ("title", VStr "PostgreSQL Advanced");
     ("description", VStr
     "Advanced PostgreSQL features and optimization techniques.");
     ("instructorId", VNum 19); ("category", VStr "Database");
     ("difficultyLevel", VStr "advanced"); ("duration", VNum 30); ("price",
     VNum 99.99); ("tags", VList [VStr "postgresql"; VStr "database"; VStr
     "advanced"]); ("isPublished", VBool true); ("isActive", VBool true);
     ("reviewRate", VNum 4.6); ("createdAt", VDate 20230301100000);
     ("updatedAt", VDate 20230625140000)];
    [("courseId", VNum 12); ("title", VStr "Introduction to AI");
     ("description", VStr
     "Basic concepts and applications of Artificial Intelligence.");
     ("instructorId", VNum 20); ("category", VStr "AI"); ("difficultyLevel",
     VStr "beginner"); ("duration", VNum 22); ("price", VNum 69.99); ("tags",
     VList [VStr "AI"; VStr "artificial intelligence"; VStr
     "machine learning"]); ("isPublished", VBool true); ("isActive", VBool
     true); ("reviewRate", VNum 4.3); ("createdAt", VDate 20230201110000);
     ("updatedAt", VDate 20230605120000)];
    [("courseId", VNum 13); ("title", VStr "Advanced AI Techniques");
     ("description", VStr
     "Deep dive into AI algorithms and neural networks."); ("instructorId",
     VNum 17); ("category", VStr "AI"); ("difficultyLevel", VStr "advanced");
     ("duration", VNum 40); ("price", VNum 149.99); ("tags", VList [VStr "AI";
     VStr "neural networks"; VStr "deep learning"]); ("isPublished", VBool
     true); ("isActive", VBool true); ("reviewRate", VNum 4.7); ("createdAt",
     VDate 20230315090000); ("updatedAt", VDate 20230705140000)];
    [("courseId", VNum 14); ("title", VStr "Cloud Computing Basics");
     ("description", VStr
     "Learn the fundamentals of cloud services and architecture.");
     ("instructorId", VNum 18); ("category", VStr "Cloud");
     ("difficultyLevel", VStr "beginner"); ("duration", VNum 18); ("price",
     VNum 59.99); ("tags", VList [VStr "cloud"; VStr "AWS"; VStr "azure"; VStr
     "basics"]); ("isPublished", VBool true); ("isActive", VBool true);
     ("reviewRate", VNum 4.2); ("createdAt", VDate 20230128100000);
     ("updatedAt", VDate 20230601120000)];
    [("courseId", VNum 15); ("title", VStr
     "AWS Certified Solutions Architect"); ("description", VStr
     "Prepare for AWS certification with hands-on labs and examples.");
     ("instructorId", VNum 19); ("category", VStr "Cloud");
     ("difficultyLevel", VStr "intermidiate"); ("duration", VNum 35);
     ("price", VNum 129.99); ("tags", VList [VStr "AWS"; VStr "cloud"; VStr
     "certification"]); ("isPublished", VBool true); ("isActive", VBool true);
     ("reviewRate", VNum 4.6); ("createdAt", VDate 20230210093000);
     ("updatedAt", VDate 20230620140000)];
    [("courseId", VNum 16); ("title", VStr "Cybersecurity Fundamentals");
     ("description", VStr
     "Introduction to cybersecurity concepts and practices.");
     ("instructorId", VNum 20); ("category", VStr "Security");
     ("difficultyLevel", VStr "beginner"); ("duration", VNum 25); ("price",
     VNum 79.99); ("tags", VList [VStr "cybersecurity"; VStr "security"; VStr
     "basics"]); ("isPublished", VBool true); ("isActive", VBool true);
     ("reviewRate", VNum 4.4); ("createdAt", VDate 20230301103000);
     ("updatedAt", VDate 20230701153000)]
  ].

Definition enrollments_data (now : Z) : list doc :=
  [
    [("enrollmentId", VNum 1); ("courseId", VNum 1); ("studentId", VNum 1);
     ("isActive", VBool true); ("completionStatus", VStr "in_progress");
     ("trackProgress", VNum 20); ("attendance", VList [VDoc [("lessonId", VNum
     1); ("hasFinished", VBool true); ("attendedAt", VDate 20230901100000)];
     VDoc [("lessonId", VNum 2); ("hasFinished", VBool false); ("attendedAt",
     VDate now)]]); ("completionDate", VNull); ("createdAt", VDate
     20230820120000); ("updatedAt", VDate 20230901100500)];
    [("enrollmentId", VNum 2); ("courseId", VNum 2); ("studentId", VNum 2);
     ("isActive", VBool true); ("completionStatus", VStr "in_progress");
     ("trackProgress", VNum 50); ("attendance", VList [VDoc [("lessonId", VNum
     3); ("hasFinished", VBool true); ("attendedAt", VDate 20230902110000)];
     VDoc [("lessonId", VNum 4); ("hasFinished", VBool true); ("attendedAt",
     VDate 20230905110000)]]); ("completionDate", VNull); ("createdAt", VDate
     20230822090000); ("updatedAt", VDate 20230905120000)];
    [("enrollmentId", VNum 3); ("courseId", VNum 3); ("studentId", VNum 3);
     ("isActive", VBool true); ("completionStatus", VStr "not_started");
     ("trackProgress", VNum 0); ("attendance", VList [VDoc [("lessonId", VNum
     5); ("hasFinished", VBool false); ("attendedAt", VDate now)]; VDoc
     [("lessonId", VNum 6); ("hasFinished", VBool false); ("attendedAt", VDate
     now)]]); ("completionDate", VNull); ("createdAt", VDate 20230825103000);
     ("updatedAt", VDate 20230825103000)];
    [("enrollmentId", VNum 4); ("courseId", VNum 1); ("studentId", VNum 4);
     ("isActive", VBool true); ("completionStatus", VStr "completed");
     ("trackProgress", VNum 100); ("attendance", VList [VDoc [("lessonId",
     VNum 1); ("hasFinished", VBool true); ("attendedAt", VDate
     20230828090000)]; VDoc [("lessonId", VNum 2); ("hasFinished", VBool
     true); ("attendedAt", VDate 20230830093000)]]); ("completionDate", VDate
     20230831120000); ("createdAt", VDate 20230820121000); ("updatedAt", VDate
     20230831120500)];
    [("enrollmentId", VNum 5); ("courseId", VNum 4); ("studentId", VNum 5);
     ("isActive", VBool true); ("completionStatus", VStr "in_progress");
     ("trackProgress", VNum 30); ("attendance", VList [VDoc [("lessonId", VNum
     7); ("hasFinished", VBool true); ("attendedAt", VDate 20230903100000)];
     VDoc [("lessonId", VNum 8); ("hasFinished", VBool false); ("attendedAt",
     VDate now)]]); ("completionDate", VNull); ("createdAt", VDate
     20230823110000); ("updatedAt", VDate 20230903100500)];
    [("enrollmentId", VNum 6); ("courseId", VNum 2); ("studentId", VNum 6);
     ("isActive", VBool true); ("completionStatus", VStr "in_progress");
     ("trackProgress", VNum 40); ("attendance", VList [VDoc [("lessonId", VNum
     3); ("hasFinished", VBool true); ("attendedAt", VDate 20230904093000)];
     VDoc [("lessonId", VNum 4); ("hasFinished", VBool false); ("attendedAt",
     VDate now)]]); ("completionDate", VNull); ("createdAt", VDate
     20230822091500); ("updatedAt", VDate 20230904093500)];
    [("enrollmentId", VNum 7); ("courseId", VNum 5); ("studentId", VNum 7);
     ("isActive", VBool true); ("completionStatus", VStr "not_started");
     ("trackProgress", VNum 0); ("attendance", VList [VDoc [("lessonId", VNum
     9); ("hasFinished", VBool false); ("attendedAt", VDate now)]; VDoc
     [("lessonId", VNum 10); ("hasFinished", VBool false); ("attendedAt",
     VDate now)]]); ("completionDate", VNull); ("createdAt", VDate
     20230824104500); ("updatedAt", VDate 20230824104500)];
    [("enrollmentId", VNum 8); ("courseId", VNum 3); ("studentId", VNum 8);
     ("isActive", VBool true); ("completionStatus", VStr "completed");
     ("trackProgress", VNum 100); ("attendance", VList [VDoc [("lessonId",
     VNum 5); ("hasFinished", VBool true); ("attendedAt", VDate
     20230829100000)]; VDoc [("lessonId", VNum 6); ("hasFinished", VBool
     true); ("attendedAt", VDate 20230901103000)]]); ("completionDate", VDate
     20230902120000); ("createdAt", VDate 20230825103500); ("updatedAt", VDate
     20230902120500)];
    [("enrollmentId", VNum 9); ("courseId", VNum 6); ("studentId", VNum 9);
     ("isActive", VBool true); ("completionStatus", VStr "in_progress");
     ("trackProgress", VNum 15); ("attendance", VList [VDoc [("lessonId", VNum
     11); ("hasFinished", VBool true); ("attendedAt", VDate 20230905100000)];
     VDoc [("lessonId", VNum 12); ("hasFinished", VBool false); ("attendedAt",
     VDate now)]]); ("completionDate", VNull); ("createdAt", VDate
     20230826095000); ("updatedAt", VDate 20230905100500)];
    [("enrollmentId", VNum 10); ("courseId", VNum 4); ("studentId", VNum 10);
     ("isActive", VBool true); ("completionStatus", VStr "not_started");
     ("trackProgress", VNum 0); ("attendance", VList [VDoc [("lessonId", VNum
     7); ("hasFinished", VBool false); ("attendedAt", VDate now)]; VDoc
     [("lessonId", VNum 8); ("hasFinished", VBool false); ("attendedAt", VDate
     now)]]); ("completionDate", VNull); ("createdAt", VDate 20230823111500);
     ("updatedAt", VDate 20230823111500)];
    [("enrollmentId", VNum 11); ("courseId", VNum 5); ("studentId", VNum 11);
     ("isActive", VBool true); ("completionStatus", VStr "in_progress");
     ("trackProgress", VNum 60); ("attendance", VList [VDoc [("lessonId", VNum
     9); ("hasFinished", VBool true); ("attendedAt", VDate 20230906094500)];
     VDoc [("lessonId", VNum 10); ("hasFinished", VBool true); ("attendedAt",
     VDate 20230908100000)]]); ("completionDate", VNull); ("createdAt", VDate
     20230824105000); ("updatedAt", VDate 20230908100500)];
    [("enrollmentId", VNum 12); ("courseId", VNum 6); ("studentId", VNum 12);
     ("isActive", VBool true); ("completionStatus", VStr "in_progress");
     ("trackProgress", VNum 25); ("attendance", VList [VDoc [("lessonId", VNum
     11); ("hasFinished", VBool true); ("attendedAt", VDate 20230907100000)];
     VDoc [("lessonId", VNum 12); ("hasFinished", VBool false); ("attendedAt",
     VDate now)]]); ("completionDate", VNull); ("createdAt", VDate
     20230826095500); ("updatedAt", VDate 20230907100500)];
    [("enrollmentId", VNum 13); ("courseId", VNum 7); ("studentId", VNum 13);
     ("isActive", VBool true); ("completionStatus", VStr "not_started");
     ("trackProgress", VNum 0); ("attendance", VList [VDoc [("lessonId", VNum
     13); ("hasFinished", VBool false); ("attendedAt", VDate now)]; VDoc
     [("lessonId", VNum 14); ("hasFinished", VBool false); ("attendedAt",
     VDate now)]]); ("completionDate", VNull); ("createdAt", VDate
     20230827110000); ("updatedAt", VDate 20230827110000)];
    [("enrollmentId", VNum 14); ("courseId", VNum 7); ("studentId", VNum 14);
     ("isActive", VBool true); ("completionStatus", VStr "in_progress");
     ("trackProgress", VNum 45); ("attendance", VList [VDoc [("lessonId", VNum
     13); ("hasFinished", VBool true); ("attendedAt", VDate 20230908100000)];
     VDoc [("lessonId", VNum 14); ("hasFinished", VBool false); ("attendedAt",
     VDate now)]]); ("completionDate", VNull); ("createdAt", VDate
     20230827111000); ("updatedAt", VDate 20230908100500)];
    [("enrollmentId", VNum 15); ("courseId", VNum 8); ("studentId", VNum 15);
     ("isActive", VBool true); ("completionStatus", VStr "completed");
     ("trackProgress", VNum 100); ("attendance", VList [VDoc [("lessonId",
     VNum 15); ("hasFinished", VBool true); ("attendedAt", VDate
     20230830100000)]; VDoc [("lessonId", VNum 16); ("hasFinished", VBool
     true); ("attendedAt", VDate 20230901103000)]]); ("completionDate", VDate
     20230902120000); ("createdAt", VDate 20230828120000); ("updatedAt", VDate
     20230902120500)];
    [("enrollmentId", VNum 16); ("courseId", VNum 8); ("studentId", VNum 16);
     ("isActive", VBool true); ("completionStatus", VStr "in_progress");
     ("trackProgress", VNum 30); ("attendance", VList [VDoc [("lessonId", VNum
     15); ("hasFinished", VBool true); ("attendedAt", VDate 20230909100000)];
     VDoc [("lessonId", VNum 16); ("hasFinished", VBool false); ("attendedAt",
     VDate now)]]); ("completionDate", VNull); ("createdAt", VDate
     20230828121000); ("updatedAt", VDate 20230909100500)];
    [("enrollmentId", VNum 17); ("courseId", VNum 9); ("studentId", VNum 6);
     ("isActive", VBool true); ("completionStatus", VStr "not_started");
     ("trackProgress", VNum 0); ("attendance", VList [VDoc [("lessonId", VNum
     17); ("hasFinished", VBool false); ("attendedAt", VDate now)]; VDoc
     [("lessonId", VNum 18); ("hasFinished", VBool false); ("attendedAt",
     VDate now)]]); ("completionDate", VNull); ("createdAt", VDate
     20230829110000); ("updatedAt", VDate 20230829110000)];
    [("enrollmentId", VNum 18); ("courseId", VNum 9); ("studentId", VNum 8);
     ("isActive", VBool true); ("completionStatus", VStr "in_progress");
     ("trackProgress", VNum 50); ("attendance", VList [VDoc [("lessonId", VNum
     17); ("hasFinished", VBool true); ("attendedAt", VDate 20230910100000)];
     VDoc [("lessonId", VNum 18); ("hasFinished", VBool false); ("attendedAt",
     VDate now)]]); ("completionDate", VNull); ("createdAt", VDate
     20230829111000); ("updatedAt", VDate 20230910100500)];
    [("enrollmentId", VNum 19); ("courseId", VNum 10); ("studentId", VNum 13);
     ("isActive", VBool true); ("completionStatus", VStr "not_started");
     ("trackProgress", VNum 0); ("attendance", VList [VDoc [("lessonId", VNum
     19); ("hasFinished", VBool false); ("attendedAt", VDate now)]; VDoc
     [("lessonId", VNum 20); ("hasFinished", VBool false); ("attendedAt",
     VDate now)]]); ("completionDate", VNull); ("createdAt", VDate
     20230830100000); ("updatedAt", VDate 20230830100000)];
    [("enrollmentId", VNum 20); ("courseId", VNum 10); ("studentId", VNum 21);
     ("isActive", VBool true); ("completionStatus", VStr "in_progress");
     ("trackProgress", VNum 35); ("attendance", VList [VDoc [("lessonId", VNum
     19); ("hasFinished", VBool true); ("attendedAt", VDate 20230911100000)];
     VDoc [("lessonId", VNum 20); ("hasFinished", VBool false); ("attendedAt",
     VDate now)]]); ("completionDate", VNull); ("createdAt", VDate
     20230830101000); ("updatedAt", VDate 20230911100500)];
    [("enrollmentId", VNum 21); ("courseId", VNum 11); ("studentId", VNum 21);
     ("isActive", VBool true); ("completionStatus", VStr "completed");
     ("trackProgress", VNum 100); ("attendance", VList [VDoc [("lessonId",
     VNum 21); ("hasFinished", VBool true); ("attendedAt", VDate
     20230831100000)]; VDoc [("lessonId", VNum 22); ("hasFinished", VBool
     true); ("attendedAt", VDate 20230902103000)]]); ("completionDate", VDate
     20230903120000); ("createdAt", VDate 20230831120000); ("updatedAt", VDate
     20230903120500)];
    [("enrollmentId", VNum 22); ("courseId", VNum 11); ("studentId", VNum 22);
     ("isActive", VBool true); ("completionStatus", VStr "in_progress");
     ("trackProgress", VNum 40); ("attendance", VList [VDoc [("lessonId", VNum
     21); ("hasFinished", VBool true); ("attendedAt", VDate 20230912100000)];
     VDoc [("lessonId", VNum 22); ("hasFinished", VBool false); ("attendedAt",
     VDate now)]]); ("completionDate", VNull); ("createdAt", VDate
     20230831121000); ("updatedAt", VDate 20230912100500)];
    [("enrollmentId", VNum 23); ("courseId", VNum 12); ("studentId", VNum 23);
     ("isActive", VBool true); ("completionStatus", VStr "not_started");
     ("trackProgress", VNum 0); ("attendance", VList [VDoc [("lessonId", VNum
     23); ("hasFinished", VBool false); ("attendedAt", VDate now)]; VDoc
     [("lessonId", VNum 24); ("hasFinished", VBool false); ("attendedAt",
     VDate now)]]); ("completionDate", VNull); ("createdAt", VDate
     20230901110000); ("updatedAt", VDate 20230901110000)];
    [("enrollmentId", VNum 24); ("courseId", VNum 12); ("studentId", VNum 24);
     ("isActive", VBool true); ("completionStatus", VStr "in_progress");
     ("trackProgress", VNum 50); ("attendance", VList [VDoc [("lessonId", VNum
     23); ("hasFinished", VBool true); ("attendedAt", VDate 20230913100000)];
     VDoc [("lessonId", VNum 24); ("hasFinished", VBool false); ("attendedAt",
     VDate now)]]); ("completionDate", VNull); ("createdAt", VDate
     20230901111000); ("updatedAt", VDate 20230913100500)];
    [("enrollmentId", VNum 25); ("courseId", VNum 13); ("studentId", VNum 25);
     ("isActive", VBool true); ("completionStatus", VStr "completed");
     ("trackProgress", VNum 100); ("attendance", VList [VDoc [("lessonId",
     VNum 25); ("hasFinished", VBool true); ("attendedAt", VDate
     20230901100000)]; VDoc [("lessonId", VNum 26); ("hasFinished", VBool
     true); ("attendedAt", VDate 20230903103000)]]); ("completionDate", VDate
     20230904120000); ("createdAt", VDate 20230901120000); ("updatedAt", VDate
     20230904120500)];
    [("enrollmentId", VNum 26); ("courseId", VNum 13); ("studentId", VNum 26);
     ("isActive", VBool true); ("completionStatus", VStr "in_progress");
     ("trackProgress", VNum 30); ("attendance", VList [VDoc [("lessonId", VNum
     25); ("hasFinished", VBool true); ("attendedAt", VDate 20230914100000)];
     VDoc [("lessonId", VNum 26); ("hasFinished", VBool false); ("attendedAt",
     VDate now)]]); ("completionDate", VNull); ("createdAt", VDate
     20230901121000); ("updatedAt", VDate 20230914100500)];
    [("enrollmentId", VNum 27); ("courseId", VNum 14); ("studentId", VNum 27);
     ("isActive", VBool true); ("completionStatus", VStr "not_started");
     ("trackProgress", VNum 0); ("attendance", VList [VDoc [("lessonId", VNum
     27); ("hasFinished", VBool false); ("attendedAt", VDate now)]; VDoc
     [("lessonId", VNum 28); ("hasFinished", VBool false); ("attendedAt",
     VDate now)]]); ("completionDate", VNull); ("createdAt", VDate
     20230902110000); ("updatedAt", VDate 20230902110000)];
    [("enrollmentId", VNum 28); ("courseId", VNum 14); ("studentId", VNum 28);
     ("isActive", VBool true); ("completionStatus", VStr "in_progress");
     ("trackProgress", VNum 55); ("attendance", VList [VDoc [("lessonId", VNum
     27); ("hasFinished", VBool true); ("attendedAt", VDate 20230915100000)];
     VDoc [("lessonId", VNum 28); ("hasFinished", VBool false); ("attendedAt",
     VDate now)]]); ("completionDate", VNull); ("createdAt", VDate
     20230902111000); ("updatedAt", VDate 20230915100500)];
    [("enrollmentId", VNum 29); ("courseId", VNum 15); ("studentId", VNum 29);
     ("isActive", VBool true); ("completionStatus", VStr "completed");
     ("trackProgress", VNum 100); ("attendance", VList [VDoc [("lessonId",
     VNum 29); ("hasFinished", VBool true); ("attendedAt", VDate
     20230902100000)]; VDoc [("lessonId", VNum 30); ("hasFinished", VBool
     true); ("attendedAt", VDate 20230904103000)]]); ("completionDate", VDate
     20230905120000); ("createdAt", VDate 20230902120000); ("updatedAt", VDate
     20230905120500)];
    [("enrollmentId", VNum 30); ("courseId", VNum 15); ("studentId", VNum 30);
     ("isActive", VBool true); ("completionStatus", VStr "in_progress");
     ("trackProgress", VNum 40); ("attendance", VList [VDoc [("lessonId", VNum
     29); ("hasFinished", VBool true); ("attendedAt", VDate 20230916100000)];
     VDoc [("lessonId", VNum 30); ("hasFinished", VBool false); ("attendedAt",
     VDate now)]]); ("completionDate", VNull); ("createdAt", VDate
     20230902121000); ("updatedAt", VDate 20230916100500)];
    [("enrollmentId", VNum 31); ("courseId", VNum 16); ("studentId", VNum 31);
     ("isActive", VBool true); ("completionStatus", VStr "not_started");
     ("trackProgress", VNum 0); ("attendance", VList [VDoc [("lessonId", VNum
     31); ("hasFinished", VBool false); ("attendedAt", VDate now)]; VDoc
     [("lessonId", VNum 32); ("hasFinished", VBool false); ("attendedAt",
     VDate now)]]); ("completionDate", VNull); ("createdAt", VDate
     20230903110000); ("updatedAt", VDate 20230903110000)];
    [("enrollmentId", VNum 32); ("courseId", VNum 16); ("studentId", VNum 32);
     ("isActive", VBool true); ("completionStatus", VStr "in_progress");
     ("trackProgress", VNum 45); ("attendance", VList [VDoc [("lessonId", VNum
     31); ("hasFinished", VBool true); ("attendedAt", VDate 20230917100000)];
     VDoc [("lessonId", VNum 32); ("hasFinished", VBool false); ("attendedAt",
     VDate now)]]); ("completionDate", VNull); ("createdAt", VDate
     20230903111000); ("updatedAt", VDate 20230917100500)]
  ].

Definition lessons_data : list doc :=
  [
    [("lessonId", VNum 1); ("courseId", VNum 1); ("title", VStr
     "Intro to Python"); ("description", VStr
     "Python basics, syntax and setup."); ("assignmentId", VNum 1);
     ("isActive", VBool true); ("createdAt", VDate 20230101100000);
     ("updatedAt", VDate 20230101100000)];
    [("lessonId", VNum 2); ("courseId", VNum 1); ("title", VStr
     "Data Types and Variables"); ("description", VStr
     "Understanding Python data types."); ("assignmentId", VNum 2);
     ("isActive", VBool true); ("createdAt", VDate 20230102100000);
     ("updatedAt", VDate 20230102100000)];
    [("lessonId", VNum 3); ("courseId", VNum 2); ("title", VStr
     "HTML Basics"); ("description", VStr
     "Intro to HTML and structure of web pages."); ("assignmentId", VNum 3);
     ("isActive", VBool true); ("createdAt", VDate 20230103100000);
     ("updatedAt", VDate 20230103100000)];
    [("lessonId", VNum 4); ("courseId", VNum 2); ("title", VStr "CSS Basics");
     ("description", VStr "Styling web pages with CSS."); ("assignmentId",
     VNum 4); ("isActive", VBool true); ("createdAt", VDate 20230104100000);
     ("updatedAt", VDate 20230104100000)];
    [("lessonId", VNum 5); ("courseId", VNum 3); ("title", VStr
     "JavaScript Fundamentals"); ("description", VStr
     "Variables, functions and events in JS."); ("assignmentId", VNum 5);
     ("isActive", VBool true); ("createdAt", VDate 20230105100000);
     ("updatedAt", VDate 20230105100000)];
    [("lessonId", VNum 6); ("courseId", VNum 3); ("title", VStr
     "DOM Manipulation"); ("description", VStr
     "Selecting and modifying HTML elements."); ("assignmentId", VNum 6);
     ("isActive", VBool true); ("createdAt", VDate 20230106100000);
     ("updatedAt", VDate 20230106100000)];
    [("lessonId", VNum 7); ("courseId", VNum 4); ("title", VStr "SQL Basics");
     ("description", VStr "Introduction to SQL queries."); ("assignmentId",
     VNum 7); ("isActive", VBool true); ("createdAt", VDate 20230107100000);
     ("updatedAt", VDate 20230107100000)];
    [("lessonId", VNum 8); ("courseId", VNum 4); ("title", VStr
     "Joins and Aggregation"); ("description", VStr "Advanced SQL queries.");
     ("assignmentId", VNum 8); ("isActive", VBool true); ("createdAt", VDate
     20230108100000); ("updatedAt", VDate 20230108100000)];
    [("lessonId", VNum 9); ("courseId", VNum 5); ("title", VStr "Git Basics");
     ("description", VStr "Version control introduction."); ("assignmentId",
     VNum 9); ("isActive", VBool true); ("createdAt", VDate 20230109100000);
     ("updatedAt", VDate 20230109100000)];
    [("lessonId", VNum 10); ("courseId", VNum 5); ("title", VStr
     "Git Branching"); ("description", VStr "Working with branches in Git.");
     ("assignmentId", VNum 10); ("isActive", VBool true); ("createdAt", VDate
     20230110100000); ("updatedAt", VDate 20230110100000)];
    [("lessonId", VNum 11); ("courseId", VNum 6); ("title", VStr
     "Docker Introduction"); ("description", VStr
     "Containers and Docker basics."); ("assignmentId", VNum 11); ("isActive",
     VBool true); ("createdAt", VDate 20230111100000); ("updatedAt", VDate
     20230111100000)];
    [("lessonId", VNum 12); ("courseId", VNum 6); ("title", VStr
     "Docker Compose"); ("description", VStr
     "Managing multi-container apps."); ("assignmentId", VNum 12);
     ("isActive", VBool true); ("createdAt", VDate 20230112100000);
     ("updatedAt", VDate 20230112100000)];
    [("lessonId", VNum 13); ("courseId", VNum 7); ("title", VStr
     "Python OOP"); ("description", VStr
     "Object-oriented programming concepts."); ("assignmentId", VNum 13);
     ("isActive", VBool true); ("createdAt", VDate 20230113100000);
     ("updatedAt", VDate 20230113100000)];
    [("lessonId", VNum 14); ("courseId", VNum 7); ("title", VStr
     "Advanced OOP"); ("description", VStr
     "Inheritance, polymorphism, and encapsulation."); ("assignmentId", VNum
     14); ("isActive", VBool true); ("createdAt", VDate 20230114100000);
     ("updatedAt", VDate 20230114100000)];
    [("lessonId", VNum 15); ("courseId", VNum 8); ("title", VStr
     "REST APIs Intro"); ("description", VStr "Building RESTful services.");
     ("assignmentId", VNum 15); ("isActive", VBool true); ("createdAt", VDate
     20230115100000); ("updatedAt", VDate 20230115100000)];
    [("lessonId", VNum 16); ("courseId", VNum 8); ("title", VStr
     "API Security"); ("description", VStr
     "Authentication and authorization."); ("assignmentId", VNum 16);
     ("isActive", VBool true); ("createdAt", VDate 20230116100000);
     ("updatedAt", VDate 20230116100000)];
    [("lessonId", VNum 17); ("courseId", VNum 9); ("title", VStr
     "Cloud Basics"); ("description", VStr "Intro to cloud computing.");
     ("assignmentId", VNum 17); ("isActive", VBool true); ("createdAt", VDate
     20230117100000); ("updatedAt", VDate 20230117100000)];
    [("lessonId", VNum 18); ("courseId", VNum 9); ("title", VStr
     "AWS Services"); ("description", VStr "Core AWS services overview.");
     ("assignmentId", VNum 18); ("isActive", VBool true); ("createdAt", VDate
     20230118100000); ("updatedAt", VDate 20230118100000)];
    [("lessonId", VNum 19); ("courseId", VNum 10); ("title", VStr
     "Kubernetes Intro"); ("description", VStr
     "Containers orchestration basics."); ("assignmentId", VNum 19);
     ("isActive", VBool true); ("createdAt", VDate 20230119100000);
     ("updatedAt", VDate 20230119100000)];
    [("lessonId", VNum 20); ("courseId", VNum 10); ("title", VStr
     "K8s Deployments"); ("description", VStr
     "Managing deployments in Kubernetes."); ("assignmentId", VNum 20);
     ("isActive", VBool true); ("createdAt", VDate 20230120100000);
     ("updatedAt", VDate 20230120100000)];
    [("lessonId", VNum 21); ("courseId", VNum 11); ("title", VStr
     "Data Analysis Intro"); ("description", VStr
     "Analyzing data with Pandas."); ("assignmentId", VNum 21); ("isActive",
     VBool true); ("createdAt", VDate 20230121100000); ("updatedAt", VDate
     20230121100000)];
    [("lessonId", VNum 22); ("courseId", VNum 11); ("title", VStr
     "Data Visualization"); ("description", VStr
     "Creating charts with matplotlib."); ("assignmentId", VNum 22);
     ("isActive", VBool true); ("createdAt", VDate 20230122100000);
     ("updatedAt", VDate 20230122100000)];
    [("lessonId", VNum 23); ("courseId", VNum 12); ("title", VStr
     "Machine Learning Intro"); ("description", VStr
     "Supervised and unsupervised learning."); ("assignmentId", VNum 23);
     ("isActive", VBool true); ("createdAt", VDate 20230123100000);
     ("updatedAt", VDate 20230123100000)];
    [("lessonId", VNum 24); ("courseId", VNum 12); ("title", VStr
     "ML Algorithms"); ("description", VStr
     "Regression, classification, clustering."); ("assignmentId", VNum 24);
     ("isActive", VBool true); ("createdAt", VDate 20230124100000);
     ("updatedAt", VDate 20230124100000)];
    [("lessonId", VNum 25); ("courseId", VNum 13); ("title", VStr
     "Big Data Overview"); ("description", VStr
     "Introduction to Big Data concepts."); ("assignmentId", VNum 25);
     ("isActive", VBool true); ("createdAt", VDate 20230125100000);
     ("updatedAt", VDate 20230125100000)];
    [("lessonId", VNum 26); ("courseId", VNum 13); ("title", VStr
     "Hadoop Basics"); ("description", VStr
     "Hadoop ecosystem and architecture."); ("assignmentId", VNum 26);
     ("isActive", VBool true); ("createdAt", VDate 20230126100000);
     ("updatedAt", VDate 20230126100000)];
    [("lessonId", VNum 27); ("courseId", VNum 14); ("title", VStr
     "NoSQL Intro"); ("description", VStr "Key concepts of NoSQL databases.");
     ("assignmentId", VNum 27); ("isActive", VBool true); ("createdAt", VDate
     20230127100000); ("updatedAt", VDate 20230127100000)];
    [("lessonId", VNum 28); ("courseId", VNum 14); ("title", VStr
     "MongoDB Basics"); ("description", VStr
     "CRUD operations and aggregation."); ("assignmentId", VNum 28);
     ("isActive", VBool true); ("createdAt", VDate 20230128100000);
     ("updatedAt", VDate 20230128100000)];
    [("lessonId", VNum 29); ("courseId", VNum 15); ("title", VStr
     "Python Data Science"); ("description", VStr
     "Using Python for data analysis."); ("assignmentId", VNum 29);
     ("isActive", VBool true); ("createdAt", VDate 20230129100000);
     ("updatedAt", VDate 20230129100000)];
    [("lessonId", VNum 30); ("courseId", VNum 15); ("title", VStr
     "Data Science Project"); ("description", VStr
     "Hands-on project for data science."); ("assignmentId", VNum 30);
     ("isActive", VBool true); ("createdAt", VDate 20230130100000);
     ("updatedAt", VDate 20230130100000)];
    [("lessonId", VNum 31); ("courseId", VNum 1); ("title", VStr
     "Python Functions"); ("description", VStr
     "Defining and using functions in Python."); ("assignmentId", VNum 31);
     ("isActive", VBool true); ("createdAt", VDate 20230201100000);
     ("updatedAt", VDate 20230201100000)];
    [("lessonId", VNum 32); ("courseId", VNum 2); ("title", VStr
     "Forms in HTML"); ("description", VStr "Creating interactive forms.");
     ("assignmentId", VNum 32); ("isActive", VBool true); ("createdAt", VDate
     20230202100000); ("updatedAt", VDate 20230202100000)];
    [("lessonId", VNum 33); ("courseId", VNum 3); ("title", VStr
     "Events in JavaScript"); ("description", VStr
     "Handling user interactions."); ("assignmentId", VNum 33); ("isActive",
     VBool true); ("createdAt", VDate 20230203100000); ("updatedAt", VDate
     20230203100000)];
    [("lessonId", VNum 34); ("courseId", VNum 4); ("title", VStr
     "Indexes in SQL"); ("description", VStr
     "Creating and using indexes for performance."); ("assignmentId", VNum
     34); ("isActive", VBool true); ("createdAt", VDate 20230204100000);
     ("updatedAt", VDate 20230204100000)];
    [("lessonId", VNum 35); ("courseId", VNum 5); ("title", VStr
     "Git Merge Conflicts"); ("description", VStr
     "Resolving conflicts in Git."); ("assignmentId", VNum 35); ("isActive",
     VBool true); ("createdAt", VDate 20230205100000); ("updatedAt", VDate
     20230205100000)];
    [("lessonId", VNum 36); ("courseId", VNum 6); ("title", VStr
     "Docker Networking"); ("description", VStr
     "Managing networks in Docker."); ("assignmentId", VNum 36); ("isActive",
     VBool true); ("createdAt", VDate 20230206100000); ("updatedAt", VDate
     20230206100000)];
    [("lessonId", VNum 37); ("courseId", VNum 7); ("title", VStr
     "OOP Design Patterns"); ("description", VStr
     "Common patterns in software design."); ("assignmentId", VNum 37);
     ("isActive", VBool true); ("createdAt", VDate 20230207100000);
     ("updatedAt", VDate 20230207100000)];
    [("lessonId", VNum 38); ("courseId", VNum 8); ("title", VStr
     "API Testing"); ("description", VStr "Testing REST APIs with Postman.");
     ("assignmentId", VNum 38); ("isActive", VBool true); ("createdAt", VDate
     20230208100000); ("updatedAt", VDate 20230208100000)];
    [("lessonId", VNum 39); ("courseId", VNum 9); ("title", VStr
     "Cloud Security"); ("description", VStr
     "Best practices for securing cloud services."); ("assignmentId", VNum
     39); ("isActive", VBool true); ("createdAt", VDate 20230209100000);
     ("updatedAt", VDate 20230209100000)];
    [("lessonId", VNum 40); ("courseId", VNum 10); ("title", VStr
     "Kubernetes Services"); ("description", VStr
     "Exposing applications with services."); ("assignmentId", VNum 40);
     ("isActive", VBool true); ("createdAt", VDate 20230210100000);
     ("updatedAt", VDate 20230210100000)]
  ].

Definition assignments_data : list doc :=
  [
    [("assignmentId", VNum 1); ("lessonId", VNum 1); ("courseId", VNum 1);
     ("title", VStr "Python Setup Assignment"); ("description", VStr
     "Install Python and run your first script."); ("dueDate", VDate
     20230105235900); ("isActive", VBool true); ("createdAt", VDate
     20230101100000); ("updatedAt", VDate 20230101100000)];
    [("assignmentId", VNum 2); ("lessonId", VNum 2); ("courseId", VNum 1);
     ("title", VStr "Variables and Data Types"); ("description", VStr
     "Create variables of different types."); ("dueDate", VDate
     20230106235900); ("isActive", VBool true); ("createdAt", VDate
     20230102100000); ("updatedAt", VDate 20230102100000)];
    [("assignmentId", VNum 3); ("lessonId", VNum 3); ("courseId", VNum 2);
     ("title", VStr "HTML Structure Assignment"); ("description", VStr
     "Build a basic HTML page with headings and paragraphs."); ("dueDate",
     VDate 20230107235900); ("isActive", VBool true); ("createdAt", VDate
     20230103100000); ("updatedAt", VDate 20230103100000)];
    [("assignmentId", VNum 4); ("lessonId", VNum 4); ("courseId", VNum 2);
     ("title", VStr "CSS Styling Assignment"); ("description", VStr
     "Style your HTML page using CSS."); ("dueDate", VDate 20230108235900);
     ("isActive", VBool true); ("createdAt", VDate 20230104100000);
     ("updatedAt", VDate 20230104100000)];
    [("assignmentId", VNum 5); ("lessonId", VNum 5); ("courseId", VNum 3);
     ("title", VStr "JavaScript Functions"); ("description", VStr
     "Write JS functions to handle basic operations."); ("dueDate", VDate
     20230109235900); ("isActive", VBool true); ("createdAt", VDate
     20230105100000); ("updatedAt", VDate 20230105100000)];
    [("assignmentId", VNum 6); ("lessonId", VNum 6); ("courseId", VNum 3);
     ("title", VStr "DOM Manipulation Task"); ("description", VStr
     "Change HTML content using JS DOM methods."); ("dueDate", VDate
     20230110235900); ("isActive", VBool true); ("createdAt", VDate
     20230106100000); ("updatedAt", VDate 20230106100000)];
    [("assignmentId", VNum 7); ("lessonId", VNum 7); ("courseId", VNum 4);
     ("title", VStr "Basic SQL Queries"); ("description", VStr
     "Write SELECT queries to fetch data from tables."); ("dueDate", VDate
     20230111235900); ("isActive", VBool true); ("createdAt", VDate
     20230107100000); ("updatedAt", VDate 20230107100000)];
    [("assignmentId", VNum 8); ("lessonId", VNum 8); ("courseId", VNum 4);
     ("title", VStr "SQL Joins Assignment"); ("description", VStr
     "Use INNER, LEFT, and RIGHT joins on sample tables."); ("dueDate", VDate
     20230112235900); ("isActive", VBool true); ("createdAt", VDate
     20230108100000); ("updatedAt", VDate 20230108100000)];
    [("assignmentId", VNum 9); ("lessonId", VNum 9); ("courseId", VNum 5);
     ("title", VStr "Git Init and Commit"); ("description", VStr
     "Initialize a repo and make your first commits."); ("dueDate", VDate
     20230113235900); ("isActive", VBool true); ("createdAt", VDate
     20230109100000); ("updatedAt", VDate 20230109100000)];
    [("assignmentId", VNum 10); ("lessonId", VNum 10); ("courseId", VNum 5);
     ("title", VStr "Git Branching Exercise"); ("description", VStr
     "Create and merge branches in Git."); ("dueDate", VDate 20230114235900);
     ("isActive", VBool true); ("createdAt", VDate 20230110100000);
     ("updatedAt", VDate 20230110100000)];
    [("assignmentId", VNum 11); ("lessonId", VNum 11); ("courseId", VNum 6);
     ("title", VStr "Dockerfile Creation"); ("description", VStr
     "Create a Dockerfile and build an image."); ("dueDate", VDate
     20230115235900); ("isActive", VBool true); ("createdAt", VDate
     20230111100000); ("updatedAt", VDate 20230111100000)];
    [("assignmentId", VNum 12); ("lessonId", VNum 12); ("courseId", VNum 6);
     ("title", VStr "Docker Compose File"); ("description", VStr
     "Set up a multi-container application using Docker Compose.");
     ("dueDate", VDate 20230116235900); ("isActive", VBool true);
     ("createdAt", VDate 20230112100000); ("updatedAt", VDate 20230112100000)];
    [("assignmentId", VNum 13); ("lessonId", VNum 13); ("courseId", VNum 7);
     ("title", VStr "OOP Class Design"); ("description", VStr
     "Design classes using inheritance and encapsulation."); ("dueDate", VDate
     20230117235900); ("isActive", VBool true); ("createdAt", VDate
     20230113100000); ("updatedAt", VDate 20230113100000)];
    [("assignmentId", VNum 14); ("lessonId", VNum 14); ("courseId", VNum 7);
     ("title", VStr "Polymorphism Exercise"); ("description", VStr
     "Implement polymorphism in a small program."); ("dueDate", VDate
     20230118235900); ("isActive", VBool true); ("createdAt", VDate
     20230114100000); ("updatedAt", VDate 20230114100000)];
    [("assignmentId", VNum 15); ("lessonId", VNum 15); ("courseId", VNum 8);
     ("title", VStr "API REST Assignment"); ("description", VStr
     "Build a simple REST API with GET and POST endpoints."); ("dueDate",
     VDate 20230119235900); ("isActive", VBool true); ("createdAt", VDate
     20230115100000); ("updatedAt", VDate 20230115100000)]
  ].

Definition submissions_data : list doc :=
  [
    [("submissionId", VNum 1); ("enrollmentId", VNum 1); ("assignmentId", VNum
     1); ("submittedAt", VDate 20230105220000); ("feedback", VStr
     "Good work"); ("grade", VNum 95); ("createdAt", VDate 20230105221000);
     ("updatedAt", VDate 20230105221000)];
    [("submissionId", VNum 2); ("enrollmentId", VNum 2); ("assignmentId", VNum
     1); ("submittedAt", VDate 20230105213000); ("feedback", VStr
     "Well done"); ("grade", VNum 90); ("createdAt", VDate 20230105213500);
     ("updatedAt", VDate 20230105213500)];
    [("submissionId", VNum 3); ("enrollmentId", VNum 1); ("assignmentId", VNum
     2); ("submittedAt", VDate 20230106230000); ("feedback", VStr
     "Excellent"); ("grade", VNum 98); ("createdAt", VDate 20230106230500);
     ("updatedAt", VDate 20230106230500)];
    [("submissionId", VNum 4); ("enrollmentId", VNum 3); ("assignmentId", VNum
     3); ("submittedAt", VDate 20230107203000); ("feedback", VStr
     "Good start"); ("grade", VNum 88); ("createdAt", VDate 20230107203500);
     ("updatedAt", VDate 20230107203500)];
    [("submissionId", VNum 5); ("enrollmentId", VNum 2); ("assignmentId", VNum
     2); ("submittedAt", VDate 20230106224500); ("feedback", VStr
     "Nice work"); ("grade", VNum 92); ("createdAt", VDate 20230106225000);
     ("updatedAt", VDate 20230106225000)];
    [("submissionId", VNum 6); ("enrollmentId", VNum 4); ("assignmentId", VNum
     4); ("submittedAt", VDate 20230108190000); ("feedback", VStr
     "Check styling"); ("grade", VNum 85); ("createdAt", VDate
     20230108190500); ("updatedAt", VDate 20230108190500)];
    [("submissionId", VNum 7); ("enrollmentId", VNum 1); ("assignmentId", VNum
     3); ("submittedAt", VDate 20230107210000); ("feedback", VStr "Good");
     ("grade", VNum 90); ("createdAt", VDate 20230107210500); ("updatedAt",
     VDate 20230107210500)];
    [("submissionId", VNum 8); ("enrollmentId", VNum 5); ("assignmentId", VNum
     5); ("submittedAt", VDate 20230109221500); ("feedback", VStr
     "Well implemented"); ("grade", VNum 93); ("createdAt", VDate
     20230109222000); ("updatedAt", VDate 20230109222000)];
    [("submissionId", VNum 9); ("enrollmentId", VNum 3); ("assignmentId", VNum
     4); ("submittedAt", VDate 20230108213000); ("feedback", VStr "Good CSS");
     ("grade", VNum 89); ("createdAt", VDate 20230108213500); ("updatedAt",
     VDate 20230108213500)];
    [("submissionId", VNum 10); ("enrollmentId", VNum 6); ("assignmentId",
     VNum 6); ("submittedAt", VDate 20230110204500); ("feedback", VStr
     "Excellent"); ("grade", VNum 97); ("createdAt", VDate 20230110205000);
     ("updatedAt", VDate 20230110205000)];
    [("submissionId", VNum 11); ("enrollmentId", VNum 4); ("assignmentId",
     VNum 5); ("submittedAt", VDate 20230109210000); ("feedback", VStr
     "Nice logic"); ("grade", VNum 91); ("createdAt", VDate 20230109210500);
     ("updatedAt", VDate 20230109210500)];
    [("submissionId", VNum 12); ("enrollmentId", VNum 2); ("assignmentId",
     VNum 6); ("submittedAt", VDate 20230110220000); ("feedback", VStr
     "Well done"); ("grade", VNum 94); ("createdAt", VDate 20230110220500);
     ("updatedAt", VDate 20230110220500)];
    [("submissionId", VNum 13); ("enrollmentId", VNum 1); ("assignmentId",
     VNum 7); ("submittedAt", VDate 20230111200000); ("feedback", VStr
     "SQL queries fine"); ("grade", VNum 96); ("createdAt", VDate
     20230111200500); ("updatedAt", VDate 20230111200500)];
    [("submissionId", VNum 14); ("enrollmentId", VNum 5); ("assignmentId",
     VNum 7); ("submittedAt", VDate 20230111211500); ("feedback", VStr
     "Great work"); ("grade", VNum 95); ("createdAt", VDate 20230111212000);
     ("updatedAt", VDate 20230111212000)];
    [("submissionId", VNum 15); ("enrollmentId", VNum 6); ("assignmentId",
     VNum 8); ("submittedAt", VDate 20230112203000); ("feedback", VStr
     "Correct joins"); ("grade", VNum 92); ("createdAt", VDate
     20230112203500); ("updatedAt", VDate 20230112203500)];
    [("submissionId", VNum 16); ("enrollmentId", VNum 3); ("assignmentId",
     VNum 8); ("submittedAt", VDate 20230112195000); ("feedback", VStr
     "Well done"); ("grade", VNum 90); ("createdAt", VDate 20230112195500);
     ("updatedAt", VDate 20230112195500)];
    [("submissionId", VNum 17); ("enrollmentId", VNum 4); ("assignmentId",
     VNum 9); ("submittedAt", VDate 20230113220000); ("feedback", VStr
     "Good repo setup"); ("grade", VNum 94); ("createdAt", VDate
     20230113220500); ("updatedAt", VDate 20230113220500)];
    [("submissionId", VNum 18); ("enrollmentId", VNum 5); ("assignmentId",
     VNum 10); ("submittedAt", VDate 20230114203000); ("feedback", VStr
     "Branches correct"); ("grade", VNum 93); ("createdAt", VDate
     20230114203500); ("updatedAt", VDate 20230114203500)];
    [("submissionId", VNum 19); ("enrollmentId", VNum 1); ("assignmentId",
     VNum 11); ("submittedAt", VDate 20230115210000); ("feedback", VStr
     "Dockerfile ok"); ("grade", VNum 95); ("createdAt", VDate
     20230115210500); ("updatedAt", VDate 20230115210500)];
    [("submissionId", VNum 20); ("enrollmentId", VNum 6); ("assignmentId",
     VNum 12); ("submittedAt", VDate 20230116220000); ("feedback", VStr
     "Compose setup fine"); ("grade", VNum 96); ("createdAt", VDate
     20230116220500); ("updatedAt", VDate 20230116220500)]
  ].

(** A run of [create_documents] calls, each on the state the one before
    left. *)
Fixpoint insert_batches (py_str : value -> string)
         (batches : list (string * list doc * string)) (db : database)
  : list (run database (list string)) :=
  match batches with
  | [] => []
  | (name, documents, id_field) :: rest =>
      let r := create_documents py_str db name documents id_field in
      r :: insert_batches py_str rest (run_state r)
  end.

(** Part 2 of the script: the sample data goes in, one [create_documents]
    call per collection, in this order. *)
Definition sample_batches (now : Z) : list (string * list doc * string) :=
  [ (user_collection, users_data, "userId");
    (course_collection, courses_data, "courseId");
    (enrollment_collection, enrollments_data now, "enrollmentId");
    (lesson_collection, lessons_data, "lessonId");
    (assignment_collection, assignments_data, "assignmentId");
    (submission_collection, submissions_data, "submissionId") ].

Definition insert_sample_data (py_str : value -> string) (now : Z)
           (db : database) : list (run database (list string)) :=
  insert_batches py_str (sample_batches now) db.

(** The state a run of calls ends in. *)
Definition final_state {A : Type} (db : database) (runs : list (run database A))
  : database :=
  last (map (@run_state database A) runs) db.

(* ================================================================= *)
(** ** Notions the statements are written with *)

(** The documents of a batch as the store receives them. *)
Fixpoint with_ids (n : nat) (ds : list doc) : list doc :=
  match ds with
  | [] => []
  | d :: r => with_id n d :: with_ids (S n) r
  end.

(** What [update_many] leaves in the place of [d] when no write fails. *)
Definition updated (p : doc -> bool) (f : doc -> result doc) (d : doc) : doc :=
  if p d then
    match f d with
    | Ok d' => if doc_eqb d d' then d else d'
    | Raised _ => d
    end
  else d.

(** The number of places at which two states of a collection differ. *)
Fixpoint changed (old new : list doc) : nat :=
  match old, new with
  | d :: r, d' :: r' => (if doc_eqb d d' then 0 else 1) + changed r r'
  | _, _ => 0
  end.


Definition is_number_at (p : string) (d : doc) : bool :=
  match get_path p d with
  | Some (VNum _) => true
  | _ => false
  end.

(** A call of one of the helpers that write. *)
Inductive helper_call : Type :=
| CallCreateDocument (collection_name : string) (document : doc)
| CallCreateDocuments (collection_name : string) (documents : list doc)
                      (id_field : string)
| CallUpdateDocument (collection_name : string) (filter_query update_data : doc)
| CallDeleteDocument (now : Z) (collection_name : string) (document_query : doc).

Definition run_call (py_str : value -> string) (db : database) (c : helper_call)
  : database :=
  match c with
  | CallCreateDocument name d => run_state (create_document py_str db name d)
  | CallCreateDocuments name ds f => run_state (create_documents py_str db name ds f)
  | CallUpdateDocument name q u => run_state (update_document db name q u)
  | CallDeleteDocument now name q => run_state (delete_document now db name q)
  end.

Definition run_calls (py_str : value -> string) (db : database)
           (cs : list helper_call) : database :=
  fold_left (run_call py_str) cs db.

(** A unique index is in place and no two documents share its key. *)
Definition index_respected (db : database) (ix : string * list string) : Prop :=
  In (snd ix) (coll_unique (db_coll db (fst ix)))
  /\ has_duplicates (snd ix) (coll_docs (db_coll db (fst ix))) = false.

Definition unique_invariant (db : database) : Prop :=
  Forall (index_respected db) unique_indexes.

(* ================================================================= *)
(** ** Sample states *)

(** A directory sits where a schema file is expected. *)
Definition sample_fs : filesystem :=
  fun path =>
    if String.eqb path "user_collection_schema.json" then Directory
    else if String.eqb path "course_collection_schema.json" then File "{"
    else NoEntry.

(** A reading of [json.load] that knows the two shortest JSON texts. *)
Definition sample_json_loads (text : string) : option value :=
  if String.eqb text "{}" then Some (VDoc [])
  else if String.eqb text "null" then Some VNull
  else None.

(** A server that takes any schema object and checks nothing. *)
Definition sample_jsonSchema (schema : value) : option (doc -> bool) :=
  match schema with
  | VDoc _ => Some (fun _ => true)
  | _ => None
  end.

Definition sample_py_str (v : value) : string :=
  match v with
  | VStr s => s
  | _ => "ObjectId"
  end.

Definition empty_db : database := Database [] 0.

(** Three users. *)
Definition sample_users : list doc :=
  [ [("_id", VOid 0); ("userId", VNum 1); ("isActive", VBool true)];
    [("_id", VOid 1); ("userId", VNum 2); ("isActive", VBool true)];
    [("_id", VOid 2); ("userId", VNum 3); ("isActive", VBool false)] ].

Definition sample_db : database :=
  Database [("user", Collection sample_users (fun _ => true) [["userId"]])] 3.


(** The six collections, created with schemas that check nothing. *)
Definition fresh_db : database :=
  fold_left
    (fun db name =>
       run_state (create_collection_with_schema sample_jsonSchema db name
                                                (VDoc [])))
    [user_collection; course_collection; enrollment_collection;
     lesson_collection; assignment_collection; submission_collection]
    empty_db.

Definition indexed_db : database :=
  match create_unique_indexes fresh_db with
  | Ok db => db
  | Raised _ => fresh_db
  end.

(** The database after the seeding section run at the given time. *)
Definition seeded_db (now : Z) : database :=
  final_state indexed_db (insert_sample_data sample_py_str now indexed_db).

(** A second user 1, then an update that would give user 2 the id of
    user 3, then the soft delete of user 1. *)
Definition sample_calls : list helper_call :=
  [ CallCreateDocuments user_collection users_data "userId";
    CallCreateDocument user_collection [("userId", VNum 1)];
    CallUpdateDocument user_collection [("userId", VNum 2)]
                       [("$set", VDoc [("userId", VNum 3)])];
    CallDeleteDocument 20240101000000 user_collection [("userId", VNum 1)] ].

Definition only_fields (allowed : list string) (d : doc) : bool :=
  forallb (fun kv => existsb (String.eqb (fst kv)) allowed) d.

(** The submission collection under a schema that lists the fields of a
    submission and allows no other ([additionalProperties] false), holding
    the first two submissions of the sample data. *)
Definition strict_submission_db : database :=
  Database
    [("submission",
      Collection (with_ids 0 (firstn 2 submissions_data))
                 (only_fields ["_id"; "submissionId"; "enrollmentId";
                               "assignmentId"; "submittedAt"; "feedback";
                               "grade"; "createdAt"; "updatedAt"])
                 [["submissionId"]])]
    2.

(** The collection is there with no document and no unique index of its
    own yet. *)
Definition starts_empty (db : database) (name : string) : Prop :=
  coll_docs (db_coll db name) = [] /\ coll_unique (db_coll db name) = [].

(** The validator of the collection lets every document of the batch in,
    whatever [ObjectId] the client gives it. *)
Definition accepts_all (db : database) (name : string) (ds : list doc) : Prop :=
  forall n d, In d ds -> coll_validator (db_coll db name) (with_id n d) = true.

(** The batch can go into its collection whole: the collection is empty,
    its validator lets the documents in, the documents bring no [_id] of
    their own and no two of them share the key of a unique index. *)
Definition batch_fits (db : database) (b : string * list doc * string) : Prop :=
  let name := fst (fst b) in
  let ds := snd (fst b) in
  ds <> []
  /\ coll_docs (db_coll db name) = []
  /\ accepts_all db name ds
  /\ (forall d, In d ds -> doc_has "_id" d = false)
  /\ (forall ks n, In ks (coll_unique (db_coll db name)) ->
                   has_duplicates ks (with_ids n ds) = false).

(** What a helper returned, when it returned. *)
Definition returned {S A : Type} (r : run S A) : option A :=
  match run_value r with
  | Ok a => Some a
  | Raised _ => None
  end.


(** *** What the pipelines are meant to compute

    The notions below are written from the wording of the properties,
    with list functions only; they use no stage of the pipeline model,
    so that the theorems compare the two. *)





(* ================================================================= *)
(** ** More of the script *)

(** *** Schemas and collections

    [schema = load_json_file(path)] followed by
    [create_collection_with_schema(db, name, schema)].  An exception that
    leaves [load_json_file] ends the script before the collection is
    created. *)
Definition create_from_file (json_loads : string -> option value)
           (jsonSchema : value -> option (doc -> bool)) (fs : filesystem)
           (db : database) (collection_name file_path : string)
  : run database bool :=
  let loaded := load_json_file json_loads fs file_path in
  match run_value loaded with
  | Ok schema =>
      let r := create_collection_with_schema jsonSchema db collection_name
                                             schema in
      Run (run_state r) (run_printed loaded ++ run_printed r) (run_value r)
  | Raised e => Run db (run_printed loaded) (Raised e)
  end.

(** *** Task 3.1: a new student, with the id [get_next_id] gives *)

Definition next_id (db : database) (collection_name id_field : string) : value :=
  match run_value (get_next_id db collection_name id_field) with
  | Ok v => v
  | Raised _ => VNull
  end.

Definition new_user (now : Z) (db : database) : doc :=
  [("userId", next_id db user_collection "userId");
   ("firstName", VStr "antonio");
   ("lastName", VStr "furtado");
   ("email", VStr "antonio.student@example.com");
   ("role", VStr "student");
   ("joinedAt", VDate now)].

Definition add_new_user (py_str : value -> string) (now : Z) (db : database)
  : run database (option string) :=
  create_document py_str db user_collection (new_user now db).

(** *** Task 3.1: enrolling a student in a course *)

Definition new_enrollment (now : Z) (db : database) : doc :=
  [("enrollmentId", next_id db enrollment_collection "enrollmentId");
   ("courseId", VNum 21);
   ("studentId", VNum 31);
   ("isActive", VBool true);
   ("completionStatus", VStr "not_started");
   ("trackProgress", VNum 0);
   ("attendance",
    VList [VDoc [("lessonId", VNum 1);
                 ("hasFinished", VBool false);
                 ("attendedAt", VDate now)]]);
   ("completionDate", VNull);
   ("createdAt", VDate now)].

Definition add_new_enrollment (py_str : value -> string) (now : Z)
           (db : database) : run database (option string) :=
  create_document py_str db enrollment_collection (new_enrollment now db).

(** *** Task 3.2 and 4.1: the queries *)

Definition active_students_query : doc :=
  [("role", VStr "student"); ("isActive", VBool true)].

Definition price_range_query (lo hi : Q) : doc :=
  [("price", VDoc [("$gte", VNum lo); ("$lte", VNum hi)])].

Definition tags_query (search_tags : list value) : doc :=
  [("tags", VDoc [("$in", VList search_tags)])].

(** *** Task 3.3: the profile of a user *)

Definition profile_update (bio avatar skills : value) (now : Z) : doc :=
  [("$set", VDoc [("profile.bio", bio);
                  ("profile.avatar", avatar);
                  ("profile.skills", skills);
                  ("updatedAt", VDate now)])].

(** *** Task 3.3: adding tags to a course *)

Definition add_tags_update (new_tags : list value) (now : Z) : doc :=
  [("$addToSet", VDoc [("tags", VDoc [("$each", VList new_tags)])]);
   ("$set", VDoc [("updatedAt", VDate now)])].

(** *** Part 5: the indexes for lookups

    A unique index on the email of a user, then a text index and two
    compound or plain indexes that are not unique.  Whether the server
    builds an index that is not unique depends on what the database
    state of this development does not hold (the other indexes of the
    collection, what a text index reads in each document): it is left to
    the parameter [builds].  No call is inside a [try]: the first one
    that raises ends the script. *)
Definition create_plain_index (builds : string -> list string -> bool)
           (db : database) (name : string) (ks : list string)
  : result database :=
  if builds name ks then db_create_index db name ks false
  else Raised (Exn OperationFailure "the index could not be built").

Definition create_lookup_indexes (builds : string -> list string -> bool)
           (db : database) : result database :=
  db1 <- db_create_index db user_collection ["email"] true ;;
  db2 <- create_plain_index builds db1 course_collection
                            ["title"; "category"] ;;
  db3 <- create_plain_index builds db2 assignment_collection ["dueDate"] ;;
  create_plain_index builds db3 enrollment_collection
                     ["studentId"; "courseId"].

(* ================================================================= *)
(** ** More notions for statements *)

(** Every document of every collection passes the validator of its
    collection. *)
Definition all_valid (db : database) : Prop :=
  forall name d, In d (coll_docs (db_coll db name)) ->
                 coll_validator (db_coll db name) d = true.


(** A whole number below 2^53 in absolute value: what Python's [+ 1] is
    exact on whether the store hands it back as an [int] or as a [float],
    with a result the store can hold. *)
Definition is_small_int (q : Q) : bool :=
  (Qnum q mod QDen q =? 0)%Z && (Z.abs (Qnum q) <? 2 ^ 53 * QDen q)%Z.

Definition is_small_int_at (p : string) (d : doc) : bool :=
  match get_path p d with
  | Some (VNum q) => is_small_int q
  | _ => false
  end.




(** No key of the index reads the [_id] of a document. *)
Definition off_id (ks : list string) : Prop :=
  Forall (fun k => hd EmptyString (split_path k) <> "_id") ks.

(** *** More sample states *)


(** Two courses with their prices and tags. *)
Definition sample_courses : list doc :=
  [ [("_id", VOid 0); ("courseId", VNum 1); ("price", VNum 49.99);
     ("tags", VList [VStr "python"; VStr "basics"])];
    [("_id", VOid 1); ("courseId", VNum 2); ("price", VNum 99.99);
     ("tags", VList [VStr "react"])] ].

Definition course_db : database :=
  Database [("course", Collection sample_courses (fun _ => true) [])] 2.

(** Only the enrollment schema file is there. *)
Definition partial_fs : filesystem :=
  fun path =>
    if String.eqb path "enrollment_collection_schema.json" then File "{}"
    else NoEntry.

(** Two users under one [userId], and no index yet. *)
Definition clash_db : database :=
  Database
    [("user",
      Collection [ [("_id", VOid 0); ("userId", VNum 1)];
                   [("_id", VOid 1); ("userId", VNum 1)] ]
                 (fun _ => true) [])]
    2.

(** Two new users. *)
Definition two_users : list doc :=
  [ [("userId", VNum 10)]; [("userId", VNum 11)] ].

(** A server that builds every index that is not unique. *)
Definition builds_all (name : string) (ks : list string) : bool := true.

(** A server that cannot build the text index on the courses. *)
Definition no_text_index (name : string) (ks : list string) : bool :=
  negb (String.eqb name "course").

(* ================================================================= *)
(** * Properties of the model *)

(** ** Equality of values *)

Lemma value_ind_nested (P : value -> Prop) :
  P VNull ->
  (forall b, P (VBool b)) ->
  (forall q, P (VNum q)) ->
  (forall s, P (VStr s)) ->
  (forall t, P (VDate t)) ->
  (forall n, P (VOid n)) ->
  (forall l, Forall P l -> P (VList l)) ->
  (forall f, Forall (fun kv => P (snd kv)) f -> P (VDoc f)) ->
  forall v, P v.
Proof.
  intros HN HB HQ HS HD HO HL HF.
  fix IH 1.
  intros [ | b | q | s | t | n | l | f].
  - exact HN.
  - apply HB.
  - apply HQ.
  - apply HS.
  - apply HD.
  - apply HO.
  - apply HL. induction l as [|x l IHl]; constructor.
    + apply IH.
    + exact IHl.
  - apply HF. induction f as [|[k x] f IHf]; constructor.
    + apply IH.
    + exact IHf.
Qed.

Lemma value_eqb_refl (v : value) : value_eqb v v = true.
Proof.
  induction v as [ | b | q | s | t | n | l IHl | f IHf] using value_ind_nested;
    simpl.
  - reflexivity.
  - apply Bool.eqb_reflx.
  - apply Qeq_bool_refl.
  - apply String.eqb_refl.
  - apply Z.eqb_refl.
  - apply Nat.eqb_refl.
  - induction IHl as [|x l Hx _ IH]; simpl; [reflexivity|].
    now rewrite Hx, IH.
  - induction IHf as [|[k x] f Hx _ IH]; simpl in *; [reflexivity|].
    now rewrite String.eqb_refl, Hx, IH.
Qed.

Lemma value_eqb_sym (a b : value) : value_eqb a b = value_eqb b a.
Proof.
  revert b.
  induction a as [ | x | x | x | x | x | l IHl | f IHf] using value_ind_nested;
    intros [ | y | y | y | y | y | l' | f']; simpl; try reflexivity.
  - now destruct x, y.
  - apply Qeq_bool_comm.
  - apply String.eqb_sym.
  - apply Z.eqb_sym.
  - apply Nat.eqb_sym.
  - revert l'. induction IHl as [|x l Hx _ IH]; intros [|y l']; simpl;
      try reflexivity.
    now rewrite Hx, IH.
  - revert f'. induction IHf as [|[k x] f Hx _ IH]; intros [|[k' y] f'];
      simpl in *; try reflexivity.
    now rewrite String.eqb_sym, Hx, IH.
Qed.

Lemma value_eqb_trans (a b c : value) :
  value_eqb a b = true -> value_eqb b c = true -> value_eqb a c = true.
Proof.
  revert b c.
  induction a as [ | x | x | x | x | x | l IHl | f IHf] using value_ind_nested;
    intros [ | y | y | y | y | y | l' | f'] [ | z | z | z | z | z | l'' | f''];
    simpl; try discriminate; try reflexivity.
  - destruct x, y, z; simpl; congruence.
  - apply Qeq_bool_trans.
  - rewrite !String.eqb_eq. congruence.
  - rewrite !Z.eqb_eq. congruence.
  - rewrite !Nat.eqb_eq. congruence.
  - revert l' l''. induction IHl as [|x l Hx _ IH]; intros [|y l'] [|z l''];
      simpl; try discriminate; try reflexivity.
    rewrite !andb_true_iff. intros [H1 H2] [H3 H4]. split.
    + eapply Hx; eassumption.
    + eapply IH; eassumption.
  - revert f' f''. induction IHf as [|[k x] f Hx _ IH];
      intros [|[k' y] f'] [|[k'' z] f'']; simpl in *;
      try discriminate; try reflexivity.
    rewrite !andb_true_iff, !String.eqb_eq.
    intros [[H1 H2] H3] [[H4 H5] H6]. repeat split.
    + congruence.
    + eapply Hx; eassumption.
    + eapply IH; eassumption.
Qed.

Lemma doc_eqb_refl (d : doc) : doc_eqb d d = true.
Proof. apply value_eqb_refl. Qed.

Lemma value_eqb_bool (v : value) (b : bool) :
  value_eqb v (VBool b) = true -> v = VBool b.
Proof.
  destruct v; simpl; try discriminate.
  intros H. apply Bool.eqb_prop in H. now subst.
Qed.

Lemma key_eqb_sym (a b : list value) : key_eqb a b = key_eqb b a.
Proof.
  revert b. induction a as [|x a IH]; intros [|y b]; simpl; try reflexivity.
  now rewrite value_eqb_sym, IH.
Qed.

(** ** Association lists *)

Lemma assoc_get_set_same {A : Type} (k : string) (v : A) (l : list (string * A)) :
  assoc_get k (assoc_set k v l) = Some v.
Proof.
  induction l as [|[k' v'] l IH]; simpl.
  - now rewrite String.eqb_refl.
  - destruct (String.eqb k k') eqn:E; simpl.
    + now rewrite String.eqb_refl.
    + now rewrite E.
Qed.

Lemma assoc_get_set_other {A : Type} (k k' : string) (v : A)
      (l : list (string * A)) :
  k <> k' -> assoc_get k' (assoc_set k v l) = assoc_get k' l.
Proof.
  intros Hne.
  induction l as [|[k0 v0] l IH]; simpl.
  - destruct (String.eqb k' k) eqn:E; [|reflexivity].
    apply String.eqb_eq in E. congruence.
  - destruct (String.eqb k k0) eqn:E; simpl.
    + apply String.eqb_eq in E. subst k0.
      destruct (String.eqb k' k) eqn:E'; [|reflexivity].
      apply String.eqb_eq in E'. congruence.
    + now rewrite IH.
Qed.

Lemma assoc_set_set {A : Type} (k : string) (v w : A) (l : list (string * A)) :
  assoc_set k v (assoc_set k w l) = assoc_set k v l.
Proof.
  induction l as [|[k' v'] l IH]; simpl.
  - now rewrite String.eqb_refl.
  - destruct (String.eqb k k') eqn:E; simpl.
    + now rewrite String.eqb_refl.
    + now rewrite E, IH.
Qed.

Lemma assoc_set_unchanged {A : Type} (k : string) (v : A) (l : list (string * A)) :
  assoc_get k l = Some v -> assoc_set k v l = l.
Proof.
  induction l as [|[k' v'] l IH]; simpl; [discriminate|].
  destruct (String.eqb k k') eqn:E.
  - intros [= ->]. apply String.eqb_eq in E. now subst.
  - intros H. now rewrite IH.
Qed.

(** Equal documents have equal fields. *)
Lemma doc_eqb_get (a b : doc) (k : string) :
  doc_eqb a b = true ->
  match doc_get k a, doc_get k b with
  | Some x, Some y => value_eqb x y = true
  | None, None => True
  | _, _ => False
  end.
Proof.
  unfold doc_eqb. revert b.
  induction a as [|[k1 x] a IH]; intros [|[k2 y] b]; simpl;
    try discriminate; [trivial|].
  rewrite !andb_true_iff, String.eqb_eq. intros [[-> Hxy] Hab].
  destruct (String.eqb k k2); [assumption|].
  now apply IH.
Qed.

(** ** [try] / [except] *)

Lemma try_except_ok {S A : Type} (clause : except_clause) (body : run S A)
      (message : exn -> string) (sentinel a : A) :
  run_value body = Ok a -> try_except clause body message sentinel = body.
Proof. unfold try_except. now intros ->. Qed.


(** With [except Exception] the helper always returns. *)
Lemma try_except_returns {S A : Type} (body : run S A)
      (message : exn -> string) (sentinel : A) :
  exists a, run_value (try_except ExceptException body message sentinel) = Ok a.
Proof.
  unfold try_except. destruct (run_value body) as [a|e] eqn:E.
  - exists a. exact E.
  - exists sentinel. reflexivity.
Qed.


(** The seven helpers whose handler is [except Exception] let nothing
    out: each call returns a value. *)
Lemma helpers_with_except_Exception_return
      (py_str : value -> string) (jsonSchema : value -> option (doc -> bool))
      (now : Z) (db : database) (name id_field : string) (schema : value)
      (q u d : doc) (ds : list doc) :
  (exists v, run_value (get_next_id db name id_field) = Ok v)
  /\ (exists b, run_value (create_collection_with_schema jsonSchema db name schema) = Ok b)
  /\ (exists l, run_value (read_document db name q) = Ok l)
  /\ (exists o, run_value (create_document py_str db name d) = Ok o)
  /\ (exists l, run_value (create_documents py_str db name ds id_field) = Ok l)
  /\ (exists n, run_value (update_document db name q u) = Ok n)
  /\ (exists n, run_value (delete_document now db name q) = Ok n).
Proof.
  repeat split; apply try_except_returns.
Qed.

(** ** The database as a map of collections *)

Lemma set_docs_same (c : collection) : set_docs c (coll_docs c) = c.
Proof. now destruct c. Qed.

Lemma db_coll_put_same (db : database) (name : string) (c : collection) :
  db_coll (db_put db name c) name = c.
Proof. unfold db_coll, db_put. simpl. now rewrite assoc_get_set_same. Qed.

Lemma db_coll_put_other (db : database) (name other : string) (c : collection) :
  name <> other -> db_coll (db_put db name c) other = db_coll db other.
Proof.
  intros H. unfold db_coll, db_put. simpl. now rewrite assoc_get_set_other.
Qed.

Lemma db_coll_fresh (db : database) (n : nat) (name : string) :
  db_coll (db_fresh db n) name = db_coll db name.
Proof. reflexivity. Qed.

Lemma db_put_same (db : database) (name : string) :
  db_exists db name = true -> db_put db name (db_coll db name) = db.
Proof.
  unfold db_exists, db_put, db_coll. destruct db as [colls n]. simpl.
  destruct (assoc_get name colls) as [c|] eqn:E; [|discriminate].
  intros _. now rewrite assoc_set_unchanged.
Qed.

(** Writing back the state of a collection: the collection reads as what
    was written, the others as before. *)
Lemma db_coll_store_same (db : database) (name : string) (ds : list doc) :
  db_coll (db_store db name (set_docs (db_coll db name) ds)) name
  = set_docs (db_coll db name) ds.
Proof.
  unfold db_store, db_exists.
  destruct (assoc_get name (db_colls db)) as [c|] eqn:E.
  - apply db_coll_put_same.
  - assert (Hc : db_coll db name = empty_collection)
      by (unfold db_coll; now rewrite E).
    rewrite Hc. destruct ds as [|d ds]; simpl.
    + exact Hc.
    + apply db_coll_put_same.
Qed.

Lemma db_coll_store_other (db : database) (name other : string) (c : collection) :
  name <> other -> db_coll (db_store db name c) other = db_coll db other.
Proof.
  intros H. unfold db_store.
  destruct (db_exists db name).
  - now apply db_coll_put_other.
  - destruct (coll_docs c); [reflexivity|]. now apply db_coll_put_other.
Qed.

Lemma db_store_same (db : database) (name : string) :
  db_store db name (set_docs (db_coll db name) (coll_docs (db_coll db name))) = db.
Proof.
  rewrite set_docs_same. unfold db_store.
  destruct (db_exists db name) eqn:E.
  - now apply db_put_same.
  - unfold db_exists in E. unfold db_coll.
    destruct (assoc_get name (db_colls db)); [discriminate|reflexivity].
Qed.

(** ** [update_many] *)

(** Whether it ends well or not, the update leaves each document as it
    was or as the update makes it. *)
Lemma update_loop_shape (c : collection) (p : doc -> bool)
      (f : doc -> result doc) (rest before out : list doc)
      (r : result update_result) :
  update_loop c p f before rest = (out, r) ->
  Forall2 (fun d d' => d' = d \/ (p d = true /\ f d = Ok d')) rest out.
Proof.
  revert before out r.
  induction rest as [|d rest IH]; intros before out r; simpl.
  - intros [= <- _]. constructor.
  - assert (Hsame : Forall2 (fun d d' : doc => d' = d \/ p d = true /\ f d = Ok d')
                            (d :: rest) (d :: rest)).
    { clear. induction (d :: rest); constructor; auto. }
    destruct (p d) eqn:Hp.
    + destruct (f d) as [d'|e] eqn:Hf.
      * destruct (doc_eqb d d').
        -- destruct (update_loop c p f (before ++ [d]) rest) as [out' r'] eqn:E.
           intros [= <- _]. constructor; [now left|]. eapply IH; eassumption.
        -- destruct (check_write c d' (before ++ rest)).
           ++ destruct (update_loop c p f (before ++ [d']) rest)
                as [out' r'] eqn:E.
              intros [= <- _]. constructor; [now right|]. eapply IH; eassumption.
           ++ intros [= <- _]. exact Hsame.
      * intros [= <- _]. exact Hsame.
    + destruct (update_loop c p f (before ++ [d]) rest) as [out' r'] eqn:E.
      intros [= <- _]. constructor; [now left|]. eapply IH; eassumption.
Qed.

(** When it ends well every matching document was updated, and the counts
    are the number of matching documents and the number of places where
    the collection changed. *)
Lemma update_loop_ok (c : collection) (p : doc -> bool)
      (f : doc -> result doc) (rest before out : list doc)
      (res : update_result) :
  update_loop c p f before rest = (out, Ok res) ->
  out = map (updated p f) rest
  /\ (forall d, In d rest -> p d = true -> exists d', f d = Ok d')
  /\ modified_count res = changed rest out
  /\ matched_count res = List.length (filter p rest).
Proof.
  revert before out res.
  induction rest as [|d rest IH]; intros before out res; simpl.
  - intros [= <- <-]. repeat split. intros d [].
  - unfold updated at 1. destruct (p d) eqn:Hp.
    + destruct (f d) as [d'|e] eqn:Hf; [|discriminate].
      destruct (doc_eqb d d') eqn:Heq.
      * destruct (update_loop c p f (before ++ [d]) rest) as [out' [x|e]] eqn:E;
          simpl; [|discriminate].
        intros [= <- <-]. destruct (IH _ _ _ E) as (H1 & H2 & H3 & H4).
        simpl. rewrite doc_eqb_refl. repeat split; simpl; try congruence.
        intros d0 [<- | Hin] Hp0; [now exists d'|now apply H2].
      * destruct (check_write c d' (before ++ rest)); [|discriminate].
        destruct (update_loop c p f (before ++ [d']) rest) as [out' [x|e]] eqn:E;
          simpl; [|discriminate].
        intros [= <- <-]. destruct (IH _ _ _ E) as (H1 & H2 & H3 & H4).
        simpl. rewrite Heq. repeat split; simpl; try congruence.
        intros d0 [<- | Hin] Hp0; [now exists d'|now apply H2].
    + destruct (update_loop c p f (before ++ [d]) rest) as [out' [x|e]] eqn:E;
        simpl; [|discriminate].
      intros [= <- <-]. destruct (IH _ _ _ E) as (H1 & H2 & H3 & H4).
      rewrite doc_eqb_refl. repeat split; simpl; try congruence.
      intros d0 [<- | Hin] Hp0; [congruence|now apply H2].
Qed.

(** An update that changes no matching document writes nothing. *)
Lemma update_loop_noop (c : collection) (p : doc -> bool)
      (f : doc -> result doc) (rest before : list doc) :
  (forall d, In d rest -> p d = true ->
             exists d', f d = Ok d' /\ doc_eqb d d' = true) ->
  update_loop c p f before rest
  = (rest, Ok (UpdateResult (List.length (filter p rest)) 0)).
Proof.
  revert before.
  induction rest as [|d rest IH]; intros before H; simpl; [reflexivity|].
  destruct (p d) eqn:Hp.
  - destruct (H d (or_introl eq_refl) Hp) as [d' [Hf Heq]].
    rewrite Hf, Heq, IH; [reflexivity|].
    intros d0 Hin. apply H. now right.
  - rewrite IH; [reflexivity|].
    intros d0 Hin. apply H. now right.
Qed.

(** ** The update of [delete_document] *)

Lemma soft_delete_compiles (now : Z) :
  compile_update [("$set", VDoc [("isActive", VBool false);
                                 ("updatedAt", VDate now)])]
  = Ok [USet "isActive" (VBool false); USet "updatedAt" (VDate now)].
Proof. reflexivity. Qed.

Lemma soft_delete_applies (now : Z) (d : doc) :
  apply_update [USet "isActive" (VBool false); USet "updatedAt" (VDate now)] d
  = Ok (doc_set "updatedAt" (VDate now) (doc_set "isActive" (VBool false) d)).
Proof.
  unfold apply_update, apply_ops, apply_op, set_path.
  change (split_path "isActive") with ["isActive"].
  change (split_path "updatedAt") with ["updatedAt"].
  simpl. unfold field_or_null, get_path.
  change (split_path "_id") with ["_id"]. simpl.
  rewrite !assoc_get_set_other by discriminate.
  destruct (assoc_get "_id" d); now rewrite value_eqb_refl.
Qed.

Lemma db_store_coll (db : database) (name : string) :
  db_store db name (db_coll db name) = db.
Proof.
  rewrite <- (set_docs_same (db_coll db name)) at 1. apply db_store_same.
Qed.

(** The two ways [update_many] can go: the update or the filter is refused
    and nothing is touched, or the documents are walked through. *)
Lemma update_many_cases (c c' : collection) (q u : doc)
      (r : result update_result) :
  update_many c q u = (c', r) ->
  (exists e, r = Raised e /\ c' = c
             /\ (compile_update u = Raised e
                 \/ compile_filter q = Raised e))
  \/ (exists ops cf ds,
         compile_update u = Ok ops /\ compile_filter q = Ok cf
         /\ update_loop c (matches cf) (apply_update ops) [] (coll_docs c)
            = (ds, r)
         /\ c' = set_docs c ds).
Proof.
  unfold update_many.
  destruct (compile_update u) as [ops|e] eqn:Hu.
  - destruct (compile_filter q) as [cf|e] eqn:Hq.
    + destruct (update_loop c (matches cf) (apply_update ops) [] (coll_docs c))
        as [ds r'] eqn:E.
      intros [= <- <-]. right. exists ops, cf, ds. auto.
    + intros [= <- <-]. left. exists e. auto.
  - intros [= <- <-]. left. exists e. auto.
Qed.

Lemma update_document_unfold (db : database) (name : string) (q u : doc) :
  update_document db name q u
  = match update_many (db_coll db name) q u with
    | (c', Ok res) => Run (db_store db name c') [] (Ok (modified_count res))
    | (c', Raised e) =>
        Run (db_store db name c')
            [("Error updating document: " ++ exn_str e)%string] (Ok 0)
    end.
Proof.
  unfold update_document, try_except.
  destruct (update_many (db_coll db name) q u) as [c' [res|e]]; reflexivity.
Qed.

Lemma delete_document_unfold (now : Z) (db : database) (name : string) (q : doc) :
  delete_document now db name q
  = match update_many (db_coll db name) q
            [("$set", VDoc [("isActive", VBool false);
                            ("updatedAt", VDate now)])] with
    | (c', Ok res) => Run (db_store db name c') [] (Ok (modified_count res))
    | (c', Raised e) =>
        Run (db_store db name c')
            [("Error performing soft delete: " ++ exn_str e)%string] (Ok 0)
    end.
Proof.
  unfold delete_document, try_except.
  destruct (update_many (db_coll db name) q _) as [c' [res|e]]; reflexivity.
Qed.

(** What [delete_document] does to the collection it is called on. *)
Lemma delete_document_cases (now : Z) (db : database) (name : string) (q : doc) :
  let r := delete_document now db name q in
  let c := db_coll db name in
  let f := apply_update [USet "isActive" (VBool false);
                         USet "updatedAt" (VDate now)] in
  (exists e, compile_filter q = Raised e /\ run_state r = db
             /\ run_value r = Ok 0 /\ run_printed r <> [])
  \/ (exists cf ds res,
         compile_filter q = Ok cf
         /\ update_loop c (matches cf) f [] (coll_docs c) = (ds, res)
         /\ run_state r = db_store db name (set_docs c ds)
         /\ match res with
            | Ok x => run_value r = Ok (modified_count x) /\ run_printed r = []
            | Raised _ => run_value r = Ok 0 /\ run_printed r <> []
            end).
Proof.
  cbv zeta. rewrite delete_document_unfold.
  destruct (update_many (db_coll db name) q _) as [c' res] eqn:E.
  apply update_many_cases in E.
  rewrite soft_delete_compiles in E.
  destruct E as [(e & -> & -> & [H|H]) | (ops & cf & ds & [= <-] & Hq & Hl & ->)].
  - discriminate.
  - left. exists e. simpl. rewrite db_store_coll. repeat split; auto.
    discriminate.
  - right. exists cf, ds, res.
    destruct res as [x|e]; simpl; repeat split; auto; discriminate.
Qed.

(** ** Unique indexes *)

Lemma collides_app (ks : list string) (d : doc) (a b : list doc) :
  collides ks d (a ++ b) = collides ks d a || collides ks d b.
Proof. unfold collides. apply existsb_app. Qed.

(** Putting [x] somewhere into a list adds the duplicates [x] makes. *)
Lemma has_duplicates_insert (ks : list string) (x : doc) (a b : list doc) :
  has_duplicates ks (a ++ x :: b)
  = has_duplicates ks (a ++ b) || collides ks x (a ++ b).
Proof.
  induction a as [|y a IH]; simpl.
  - apply orb_comm.
  - rewrite IH, !collides_app. simpl.
    rewrite (key_eqb_sym (index_key ks x) (index_key ks y)).
    btauto.
Qed.

Lemma has_duplicates_remove (ks : list string) (x : doc) (a b : list doc) :
  has_duplicates ks (a ++ x :: b) = false -> has_duplicates ks (a ++ b) = false.
Proof.
  rewrite has_duplicates_insert. now intros [H _]%orb_false_iff.
Qed.

(** No duplicates: no two documents of the list share the key. *)
Lemma has_duplicates_false_iff (ks : list string) (ds : list doc) :
  has_duplicates ks ds = false <->
  ForallOrdPairs
    (fun a b => key_eqb (index_key ks a) (index_key ks b) = false) ds.
Proof.
  induction ds as [|d ds IH]; simpl.
  - split; [constructor|reflexivity].
  - rewrite orb_false_iff, IH. unfold collides. split.
    + intros [H1 H2]. constructor; [|exact H2].
      apply Forall_forall. intros o Ho.
      destruct (key_eqb (index_key ks d) (index_key ks o)) eqn:E; [|reflexivity].
      assert (Hex : existsb (fun o => key_eqb (index_key ks d) (index_key ks o)) ds
                    = true)
        by (apply existsb_exists; eauto).
      congruence.
    + intros H. inversion H as [|? ? Hd Hds]; subst. split; [|exact Hds].
      destruct (existsb _ ds) eqn:E; [|reflexivity].
      apply existsb_exists in E. destruct E as [o [Ho E]].
      rewrite Forall_forall in Hd. rewrite (Hd o Ho) in E. discriminate.
Qed.

Lemma check_write_ok (c : collection) (d : doc) (others : list doc) (ks : list string) :
  check_write c d others = Ok tt ->
  coll_validator c d = true
  /\ (In ks (all_unique c) -> collides ks d others = false).
Proof.
  unfold check_write.
  destruct (coll_validator c d); cbv [negb]; [|discriminate].
  destruct (existsb (fun ks0 => collides ks0 d others) (all_unique c)) eqn:E;
    [discriminate|].
  intros _. split; [reflexivity|]. intros Hin.
  destruct (collides ks d others) eqn:Hc; [|reflexivity].
  assert (H : existsb (fun ks => collides ks d others) (all_unique c) = true)
    by (apply existsb_exists; eauto).
  congruence.
Qed.

Lemma check_write_collision (c : collection) (d : doc) (others : list doc)
      (ks : list string) :
  In ks (all_unique c) -> collides ks d others = true ->
  exists e, check_write c d others = Raised e.
Proof.
  intros Hin Hc. unfold check_write.
  destruct (coll_validator c d); cbv [negb]; [|eauto].
  assert (H : existsb (fun ks => collides ks d others) (all_unique c) = true)
    by (apply existsb_exists; eauto).
  rewrite H. eauto.
Qed.

(** *** Inserts *)

Lemma insert_one_cases (c c' : collection) (n : nat) (d : doc) (r : result value) :
  insert_one c n d = (c', r) ->
  (c' = set_docs c (coll_docs c ++ [with_id n d])
   /\ check_write c (with_id n d) (coll_docs c) = Ok tt
   /\ r = Ok (field_or_null "_id" (with_id n d)))
  \/ (c' = c /\ exists e, r = Raised e
                          /\ check_write c (with_id n d) (coll_docs c) = Raised e).
Proof.
  unfold insert_one.
  destruct (check_write c (with_id n d) (coll_docs c)) as [[]|e] eqn:E.
  - intros [= <- <-]. now left.
  - intros [= <- <-]. right. split; [reflexivity|]. now exists e.
Qed.

Lemma insert_one_respects (c c' : collection) (n : nat) (d : doc)
      (r : result value) (ks : list string) :
  insert_one c n d = (c', r) ->
  c' = set_docs c (coll_docs c')
  /\ (In ks (all_unique c) -> has_duplicates ks (coll_docs c) = false ->
      has_duplicates ks (coll_docs c') = false).
Proof.
  intros H. apply insert_one_cases in H.
  destruct H as [(-> & Hc & _) | (-> & _)].
  - split; [reflexivity|]. simpl. intros Hin Hd.
    rewrite has_duplicates_insert, app_nil_r, Hd. simpl.
    now apply (check_write_ok _ _ _ ks Hc).
  - split; [now rewrite set_docs_same|auto].
Qed.

Lemma insert_loop_respects (ds : list doc) (c c' : collection) (n : nat)
      (r : result (list value)) (ks : list string) :
  insert_loop c n ds = (c', r) ->
  c' = set_docs c (coll_docs c')
  /\ (In ks (all_unique c) -> has_duplicates ks (coll_docs c) = false ->
      has_duplicates ks (coll_docs c') = false).
Proof.
  revert c c' n r.
  induction ds as [|d ds IH]; intros c c' n r; simpl.
  - intros [= <- <-]. split; [now rewrite set_docs_same|auto].
  - destruct (insert_one c n d) as [c1 [i|e]] eqn:E1.
    + destruct (insert_loop c1 (S n) ds) as [c2 r2] eqn:E2.
      intros [= <- <-].
      destruct (insert_one_respects _ _ _ ks E1) as [H1 H1'].
      destruct (IH _ _ _ _ E2) as [H2 H2'].
      split.
      * rewrite H2, H1. reflexivity.
      * intros Hin Hd. apply H2'; [rewrite H1; exact Hin|]. now apply H1'.
    + intros [= <- <-]. now apply (insert_one_respects _ _ _ ks E1).
Qed.

Lemma insert_many_respects (ds : list doc) (c c' : collection) (n : nat)
      (r : result (list value)) (ks : list string) :
  insert_many c n ds = (c', r) ->
  c' = set_docs c (coll_docs c')
  /\ (In ks (all_unique c) -> has_duplicates ks (coll_docs c) = false ->
      has_duplicates ks (coll_docs c') = false).
Proof.
  unfold insert_many. destruct ds as [|d ds].
  - intros [= <- <-]. split; [now rewrite set_docs_same|auto].
  - apply insert_loop_respects.
Qed.

(** A batch that goes in whole leaves the collection with the batch
    appended. *)
Lemma insert_loop_ok (ds : list doc) (c c' : collection) (n : nat)
      (ids : list value) :
  insert_loop c n ds = (c', Ok ids) ->
  coll_docs c' = coll_docs c ++ with_ids n ds
  /\ List.length ids = List.length ds.
Proof.
  revert c c' n ids.
  induction ds as [|d ds IH]; intros c c' n ids; simpl.
  - intros [= <- <-]. now rewrite app_nil_r.
  - destruct (insert_one c n d) as [c1 [i|e]] eqn:E1; [|discriminate].
    destruct (insert_loop c1 (S n) ds) as [c2 [ids2|e]] eqn:E2;
      simpl; [|discriminate].
    intros [= <- <-].
    apply insert_one_cases in E1.
    destruct E1 as [(-> & _ & _) | (_ & e & [=] & _)].
    destruct (IH _ _ _ _ E2) as [H1 H2].
    rewrite H1. simpl. rewrite <- app_assoc. simpl. now rewrite H2.
Qed.

(** *** Updates *)

Lemma update_loop_respects (c : collection) (p : doc -> bool)
      (f : doc -> result doc) (ks : list string) (rest before out : list doc)
      (r : result update_result) :
  In ks (all_unique c) ->
  update_loop c p f before rest = (out, r) ->
  has_duplicates ks (before ++ rest) = false ->
  has_duplicates ks (before ++ out) = false.
Proof.
  intros Hin. revert before out r.
  induction rest as [|d rest IH]; intros before out r; simpl.
  - now intros [= <- _].
  - destruct (p d).
    + destruct (f d) as [d'|e]; [|now intros [= <- _]].
      destruct (doc_eqb d d').
      * destruct (update_loop c p f (before ++ [d]) rest) as [out' r'] eqn:E.
        intros [= <- _] Hd.
        specialize (IH _ _ _ E). rewrite <- !app_assoc in IH. now apply IH.
      * destruct (check_write c d' (before ++ rest)) as [[]|e] eqn:Hc;
          [|now intros [= <- _]].
        destruct (update_loop c p f (before ++ [d']) rest) as [out' r'] eqn:E.
        intros [= <- _] Hd.
        specialize (IH _ _ _ E). rewrite <- !app_assoc in IH. apply IH. simpl.
        rewrite has_duplicates_insert.
        rewrite (has_duplicates_remove _ _ _ _ Hd). simpl.
        now apply (check_write_ok _ _ _ ks Hc).
    + destruct (update_loop c p f (before ++ [d]) rest) as [out' r'] eqn:E.
      intros [= <- _] Hd.
      specialize (IH _ _ _ E). rewrite <- !app_assoc in IH. now apply IH.
Qed.

Lemma update_many_respects (c c' : collection) (q u : doc)
      (r : result update_result) (ks : list string) :
  update_many c q u = (c', r) ->
  c' = set_docs c (coll_docs c')
  /\ (In ks (all_unique c) -> has_duplicates ks (coll_docs c) = false ->
      has_duplicates ks (coll_docs c') = false).
Proof.
  intros H. apply update_many_cases in H.
  destruct H as [(e & _ & -> & _) | (ops & cf & ds & _ & _ & Hl & ->)].
  - split; [now rewrite set_docs_same|auto].
  - split; [reflexivity|]. intros Hin Hd.
    change (has_duplicates ks ([] ++ ds) = false).
    eapply update_loop_respects; eassumption.
Qed.

(** *** From collections to the database *)

Lemma store_respects (db : database) (name : string) (c' : collection)
      (ix : string * list string) :
  c' = set_docs (db_coll db name) (coll_docs c') ->
  (In (snd ix) (all_unique (db_coll db name)) ->
   has_duplicates (snd ix) (coll_docs (db_coll db name)) = false ->
   has_duplicates (snd ix) (coll_docs c') = false) ->
  index_respected db ix -> index_respected (db_store db name c') ix.
Proof.
  destruct ix as [n ks]. unfold index_respected. simpl.
  intros Hc Hp [Hin Hd].
  destruct (string_dec name n) as [->|Hne].
  - rewrite Hc, db_coll_store_same. simpl. split; [exact Hin|].
    apply Hp; [now right|exact Hd].
  - rewrite db_coll_store_other by exact Hne. now split.
Qed.

Lemma create_document_unfold (py_str : value -> string) (db : database)
      (name : string) (d : doc) :
  create_document py_str db name d
  = match insert_one (db_coll db name) (db_next_oid db) d with
    | (c', Ok i) =>
        Run (db_fresh (db_store db name c') 1) [] (Ok (Some (py_str i)))
    | (c', Raised e) =>
        Run (db_fresh (db_store db name c') 1)
            [("Error inserting document: " ++ exn_str e)%string] (Ok None)
    end.
Proof.
  unfold create_document, try_except.
  destruct (insert_one (db_coll db name) (db_next_oid db) d) as [c' [i|e]];
    reflexivity.
Qed.

Lemma create_documents_unfold (py_str : value -> string) (db : database)
      (name : string) (ds : list doc) (id_field : string) :
  create_documents py_str db name ds id_field
  = match insert_many (db_coll db name) (db_next_oid db) ds with
    | (c', Ok ids) =>
        Run (db_fresh (db_store db name c') (List.length ds)) []
            (Ok (map py_str ids))
    | (c', Raised e) =>
        Run (db_fresh (db_store db name c') (List.length ds))
            [("Error inserting documents: " ++ exn_str e)%string] (Ok [])
    end.
Proof.
  unfold create_documents, try_except.
  destruct (insert_many (db_coll db name) (db_next_oid db) ds) as [c' [i|e]];
    reflexivity.
Qed.

Lemma fresh_respects (db : database) (n : nat) (ix : string * list string) :
  index_respected db ix -> index_respected (db_fresh db n) ix.
Proof. exact (fun H => H). Qed.

(** Every call of a writing helper keeps every unique index respected. *)
Lemma run_call_respects (py_str : value -> string) (db : database)
      (call : helper_call) (ix : string * list string) :
  index_respected db ix -> index_respected (run_call py_str db call) ix.
Proof.
  intros H. destruct call as [name d | name ds f | name q u | now name q]; simpl.
  - rewrite create_document_unfold.
    destruct (insert_one (db_coll db name) (db_next_oid db) d) as [c' r] eqn:E.
    destruct (@insert_one_respects _ _ _ _ _ (snd ix) E) as [H1 H2].
    assert (index_respected (db_fresh (db_store db name c') 1) ix)
      by (apply fresh_respects, store_respects; assumption).
    now destruct r.
  - rewrite create_documents_unfold.
    destruct (insert_many (db_coll db name) (db_next_oid db) ds) as [c' r] eqn:E.
    destruct (@insert_many_respects _ _ _ _ _ (snd ix) E) as [H1 H2].
    assert (index_respected (db_fresh (db_store db name c') (List.length ds)) ix)
      by (apply fresh_respects, store_respects; assumption).
    now destruct r.
  - rewrite update_document_unfold.
    destruct (update_many (db_coll db name) q u) as [c' r] eqn:E.
    destruct (@update_many_respects _ _ _ _ _ (snd ix) E) as [H1 H2].
    assert (index_respected (db_store db name c') ix)
      by (apply store_respects; assumption).
    now destruct r.
  - rewrite delete_document_unfold.
    destruct (update_many (db_coll db name) q _) as [c' r] eqn:E.
    destruct (@update_many_respects _ _ _ _ _ (snd ix) E) as [H1 H2].
    assert (index_respected (db_store db name c') ix)
      by (apply store_respects; assumption).
    now destruct r.
Qed.

Lemma run_calls_respects (py_str : value -> string) (calls : list helper_call)
      (db : database) (ix : string * list string) :
  index_respected db ix -> index_respected (run_calls py_str db calls) ix.
Proof.
  revert db. induction calls as [|call calls IH]; intros db H; simpl.
  - exact H.
  - apply IH. now apply run_call_respects.
Qed.

(** *** Creating the indexes *)

Lemma key_list_eqb_eq (a b : list string) : key_list_eqb a b = true -> a = b.
Proof.
  revert b. induction a as [|x a IH]; intros [|y b]; simpl; try discriminate.
  - reflexivity.
  - rewrite andb_true_iff, String.eqb_eq. intros [-> H]. f_equal. now apply IH.
Qed.

Lemma create_index_unique (c c' : collection) (ks : list string) :
  create_index c ks true = Ok c' ->
  coll_docs c' = coll_docs c
  /\ In ks (coll_unique c')
  /\ has_duplicates ks (coll_docs c) = false
  /\ (forall ks', In ks' (coll_unique c) -> In ks' (coll_unique c')).
Proof.
  unfold create_index.
  destruct (has_duplicates ks (coll_docs c)); [discriminate|].
  destruct (existsb (key_list_eqb ks) (coll_unique c)) eqn:E.
  - intros [= <-]. repeat split; auto.
    apply existsb_exists in E. destruct E as [ks' [Hin Heq]].
    apply key_list_eqb_eq in Heq. now subst.
  - intros [= <-]. simpl. repeat split.
    + apply in_or_app. right. now left.
    + intros ks' Hin. apply in_or_app. now left.
Qed.

Lemma db_create_index_respects (db db' : database) (name : string)
      (ks : list string) :
  db_create_index db name ks true = Ok db' ->
  index_respected db' (name, ks)
  /\ (forall ix, index_respected db ix -> index_respected db' ix).
Proof.
  unfold db_create_index.
  destruct (create_index (db_coll db name) ks true) as [c'|e] eqn:E;
    simpl; [|discriminate].
  intros [= <-].
  destruct (create_index_unique _ _ E) as (Hdocs & Hin & Hd & Hmono).
  split.
  - unfold index_respected. simpl. rewrite db_coll_put_same, Hdocs. now split.
  - intros [n ks'] [H1 H2]. unfold index_respected. simpl in *.
    destruct (string_dec name n) as [->|Hne].
    + rewrite db_coll_put_same, Hdocs. split; [now apply Hmono|exact H2].
    + rewrite db_coll_put_other by exact Hne. now split.
Qed.

Lemma create_indexes_respects (ixs : list (string * list string))
      (db db' : database) :
  create_indexes ixs db = Ok db' ->
  Forall (index_respected db') ixs
  /\ (forall ix, index_respected db ix -> index_respected db' ix).
Proof.
  revert db. induction ixs as [|[name ks] ixs IH]; intros db; simpl.
  - intros [= <-]. split; [constructor|auto].
  - destruct (db_create_index db name ks true) as [db1|e] eqn:E;
      simpl; [|discriminate].
    intros H. destruct (db_create_index_respects _ _ _ E) as [H1 H2].
    destruct (IH _ H) as [H3 H4].
    split; [constructor|]; auto.
Qed.

(** *** Writes that would break an index *)

Lemma create_document_duplicate (py_str : value -> string) (db : database)
      (name : string) (ks : list string) (d : doc) :
  index_respected db (name, ks) ->
  has_duplicates ks (coll_docs (db_coll db name)
                     ++ [with_id (db_next_oid db) d]) = true ->
  let r := create_document py_str db name d in
  run_value r = Ok None /\ run_printed r <> []
  /\ db_coll (run_state r) name = db_coll db name.
Proof.
  intros [Hin Hd] Hdup. simpl in Hin, Hd. cbv zeta.
  rewrite has_duplicates_insert, app_nil_r, Hd in Hdup. simpl in Hdup.
  destruct (@check_write_collision (db_coll db name) _ _ ks (or_intror Hin) Hdup)
    as [e He].
  rewrite create_document_unfold. unfold insert_one. rewrite He. simpl.
  rewrite db_store_coll. repeat split. discriminate.
Qed.

Lemma create_documents_duplicate (py_str : value -> string) (db : database)
      (name : string) (ks : list string) (ds : list doc) (id_field : string) :
  index_respected db (name, ks) ->
  has_duplicates ks (coll_docs (db_coll db name)
                     ++ with_ids (db_next_oid db) ds) = true ->
  let r := create_documents py_str db name ds id_field in
  run_value r = Ok [] /\ run_printed r <> [].
Proof.
  intros [Hin Hd] Hdup. simpl in Hin, Hd. cbv zeta.
  rewrite create_documents_unfold.
  destruct (insert_many (db_coll db name) (db_next_oid db) ds)
    as [c' [ids|e]] eqn:E; simpl.
  - exfalso.
    destruct (@insert_many_respects _ _ _ _ _ ks E) as [_ H].
    specialize (H (or_intror Hin) Hd).
    unfold insert_many in E. destruct ds as [|d ds]; [discriminate|].
    apply insert_loop_ok in E. destruct E as [E _].
    rewrite E in H. congruence.
  - split; [reflexivity|discriminate].
Qed.

Lemma update_document_duplicate (db : database) (name : string)
      (ks : list string) (q u : doc) (cf : list (string * list cond))
      (ops : list update_op) :
  index_respected db (name, ks) ->
  compile_filter q = Ok cf -> compile_update u = Ok ops ->
  has_duplicates ks (map (updated (matches cf) (apply_update ops))
                         (coll_docs (db_coll db name))) = true ->
  let r := update_document db name q u in
  run_value r = Ok 0 /\ run_printed r <> [].
Proof.
  intros [Hin Hd] Hq Hu Hdup. simpl in Hin, Hd. cbv zeta.
  rewrite update_document_unfold.
  destruct (update_many (db_coll db name) q u) as [c' [res|e]] eqn:E; simpl.
  - exfalso.
    destruct (@update_many_respects _ _ _ _ _ ks E) as [_ H].
    specialize (H (or_intror Hin) Hd).
    apply update_many_cases in E.
    destruct E as [(e & [=] & _) | (ops' & cf' & ds & Hu' & Hq' & Hl & ->)].
    rewrite Hu in Hu'. rewrite Hq in Hq'.
    injection Hu' as <-. injection Hq' as <-.
    apply update_loop_ok in Hl. destruct Hl as [-> _].
    simpl in H. congruence.
  - split; [reflexivity|discriminate].
Qed.

(** ** Inserting a batch that fits *)

Lemma in_with_ids (ds : list doc) (n : nat) (d' : doc) :
  In d' (with_ids n ds) -> exists m d, In d ds /\ d' = with_id m d.
Proof.
  revert n. induction ds as [|d ds IH]; intros n; simpl; [intros []|].
  intros [<- | H].
  - exists n, d. auto.
  - destruct (IH _ H) as (m & d0 & H1 & H2). exists m, d0. auto.
Qed.

Lemma with_ids_length (ds : list doc) (n : nat) :
  List.length (with_ids n ds) = List.length ds.
Proof.
  revert n. induction ds as [|d ds IH]; intros n; simpl; [reflexivity|].
  now rewrite IH.
Qed.

(** Fresh [ObjectId]s never collide with one another. *)
Lemma with_ids_fresh (ds : list doc) (n m : nat) (d : doc) :
  (forall d, In d ds -> doc_has "_id" d = false) ->
  (m < n)%nat ->
  collides ["_id"] (("_id", VOid m) :: d) (with_ids n ds) = false.
Proof.
  intros Hno. revert n.
  induction ds as [|d0 ds IH]; intros n Hlt; simpl; [reflexivity|].
  unfold collides in *. simpl.
  rewrite IH by (try lia; intros; apply Hno; now right).
  unfold with_id. rewrite (Hno d0) by now left.
  unfold index_key, field_or_null, get_path.
  change (split_path "_id") with ["_id"]. simpl.
  assert (Hne : Nat.eqb m n = false) by (apply Nat.eqb_neq; lia).
  now rewrite Hne.
Qed.

Lemma with_ids_distinct (ds : list doc) (n : nat) :
  (forall d, In d ds -> doc_has "_id" d = false) ->
  has_duplicates ["_id"] (with_ids n ds) = false.
Proof.
  revert n. induction ds as [|d ds IH]; intros n Hno; simpl; [reflexivity|].
  rewrite IH by (intros; apply Hno; now right).
  unfold with_id at 1. rewrite (Hno d) by now left.
  rewrite with_ids_fresh; auto.
  intros; apply Hno; now right.
Qed.

Lemma insert_loop_all (ds : list doc) (c : collection) (n : nat) :
  (forall d', In d' (with_ids n ds) -> coll_validator c d' = true) ->
  (forall ks, In ks (all_unique c) ->
              has_duplicates ks (coll_docs c ++ with_ids n ds) = false) ->
  insert_loop c n ds
  = (set_docs c (coll_docs c ++ with_ids n ds),
     Ok (map (field_or_null "_id") (with_ids n ds))).
Proof.
  revert c n. induction ds as [|d ds IH]; intros c n Hval Hdup; simpl.
  - now rewrite app_nil_r, set_docs_same.
  - unfold insert_one.
    assert (Hc : check_write c (with_id n d) (coll_docs c) = Ok tt).
    { unfold check_write. rewrite Hval by now left. cbv [negb].
      destruct (existsb (fun ks => collides ks (with_id n d) (coll_docs c))
                        (all_unique c)) eqn:E; [|reflexivity].
      apply existsb_exists in E. destruct E as [ks [Hin Hcol]].
      specialize (Hdup ks Hin). simpl in Hdup.
      rewrite has_duplicates_insert, collides_app, Hcol in Hdup.
      simpl in Hdup. rewrite orb_true_r in Hdup. discriminate. }
    rewrite Hc.
    rewrite (IH (set_docs c (coll_docs c ++ [with_id n d])) (S n)).
    + simpl. now rewrite <- app_assoc.
    + intros d' Hin. apply Hval. now right.
    + intros ks Hin. simpl. rewrite <- app_assoc. simpl. now apply Hdup.
Qed.

Lemma db_store_nonempty (db : database) (name : string) (c : collection) :
  coll_docs c <> [] -> db_store db name c = db_put db name c.
Proof.
  intros H. unfold db_store. destruct (db_exists db name); [reflexivity|].
  destruct (coll_docs c); [contradiction|reflexivity].
Qed.

(** One seeding call on a collection that is empty, whose validator lets
    the documents in and whose unique indexes the documents respect:
    everything goes in, nothing is printed, the other collections are not
    touched. *)
Lemma create_documents_whole (py_str : value -> string) (db : database)
      (name : string) (ds : list doc) (id_field : string) :
  ds <> [] ->
  coll_docs (db_coll db name) = [] ->
  accepts_all db name ds ->
  (forall d, In d ds -> doc_has "_id" d = false) ->
  (forall ks n, In ks (coll_unique (db_coll db name)) ->
                has_duplicates ks (with_ids n ds) = false) ->
  let r := create_documents py_str db name ds id_field in
  run_printed r = []
  /\ (exists ids, run_value r = Ok ids /\ List.length ids = List.length ds)
  /\ coll_docs (db_coll (run_state r) name) = with_ids (db_next_oid db) ds
  /\ db_next_oid (run_state r) = (db_next_oid db + List.length ds)%nat
  /\ (forall other, other <> name ->
                    db_coll (run_state r) other = db_coll db other).
Proof.
  intros Hne Hempty Hacc Hno Hks. cbv zeta.
  rewrite create_documents_unfold. unfold insert_many.
  destruct ds as [|d0 ds0] eqn:Eds; [contradiction|]. rewrite <- Eds in *.
  assert (Hnil : with_ids (db_next_oid db) ds <> [])
    by (rewrite Eds; discriminate).
  rewrite insert_loop_all.
  - rewrite Hempty. simpl app. cbn iota beta.
    rewrite db_store_nonempty by exact Hnil.
    cbn [run_state run_value run_printed]. repeat split.
    + eexists. split; [reflexivity|]. now rewrite !length_map, with_ids_length.
    + now rewrite db_coll_fresh, db_coll_put_same.
    + intros other Ho. rewrite db_coll_fresh. apply db_coll_put_other. congruence.
  - intros d' Hin. apply in_with_ids in Hin.
    destruct Hin as (m & d & Hin & ->). now apply Hacc.
  - intros ks [<- | Hin]; rewrite Hempty; simpl.
    + now apply with_ids_distinct.
    + now apply Hks.
Qed.

(** Creating indexes on collections that hold no document goes through
    and touches neither documents nor validators. *)
Lemma create_indexes_on_empty (ixs : list (string * list string)) (db : database) :
  (forall ix, In ix ixs -> coll_docs (db_coll db (fst ix)) = []) ->
  exists db',
    create_indexes ixs db = Ok db'
    /\ db_next_oid db' = db_next_oid db
    /\ forall name,
        coll_docs (db_coll db' name) = coll_docs (db_coll db name)
        /\ coll_validator (db_coll db' name) = coll_validator (db_coll db name)
        /\ forall ks, In ks (coll_unique (db_coll db' name)) ->
                      In ks (coll_unique (db_coll db name)) \/ In (name, ks) ixs.
Proof.
  revert db. induction ixs as [|[n ks] ixs IH]; intros db Hempty; simpl.
  - exists db. repeat split; auto.
  - unfold db_create_index, create_index.
    pose proof (Hempty (n, ks) (or_introl eq_refl)) as Hn0. simpl in Hn0.
    rewrite Hn0. simpl.
    set (c1 := if existsb (key_list_eqb ks) (coll_unique (db_coll db n))
               then db_coll db n
               else Collection [] (coll_validator (db_coll db n))
                               (coll_unique (db_coll db n) ++ [ks])).
    assert (Hc1 : (if existsb (key_list_eqb ks) (coll_unique (db_coll db n))
                   then Ok (db_coll db n)
                   else Ok (Collection [] (coll_validator (db_coll db n))
                                       (coll_unique (db_coll db n) ++ [ks])))
                  = Ok c1)
      by (unfold c1; now destruct (existsb _ _)).
    rewrite Hc1. simpl.
    assert (Hdocs : coll_docs c1 = []).
    { unfold c1. destruct (existsb _ _); [|reflexivity].
      apply (Hempty (n, ks)). now left. }
    assert (Hval : coll_validator c1 = coll_validator (db_coll db n))
      by (unfold c1; now destruct (existsb _ _)).
    assert (Huni : forall ks', In ks' (coll_unique c1) ->
                               In ks' (coll_unique (db_coll db n)) \/ ks' = ks).
    { unfold c1. destruct (existsb _ _); simpl; [auto|].
      intros ks' H. apply in_app_or in H. destruct H as [H|[<-|[]]]; auto. }
    assert (Hcoll : forall name,
               coll_docs (db_coll (db_put db n c1) name)
               = coll_docs (db_coll db name)).
    { intros name. destruct (string_dec n name) as [<-|Hn].
      - rewrite db_coll_put_same, Hdocs. symmetry. apply (Hempty (n, ks)).
        now left.
      - now rewrite db_coll_put_other. }
    destruct (IH (db_put db n c1)) as (db' & Hdb' & Hoid & Hall).
    { intros ix Hin. rewrite Hcoll. apply Hempty. now right. }
    exists db'. split; [exact Hdb'|]. split; [exact Hoid|].
    intros name. destruct (Hall name) as (H1 & H2 & H3).
    rewrite H1, H2, Hcoll. split; [reflexivity|]. split.
    + destruct (string_dec n name) as [<-|Hn].
      * now rewrite db_coll_put_same.
      * now rewrite db_coll_put_other.
    + intros ks' Hin. destruct (H3 ks' Hin) as [H|H]; [|now right; right].
      destruct (string_dec n name) as [<-|Hn].
      * rewrite db_coll_put_same in H. destruct (Huni _ H) as [H'| ->].
        -- now left.
        -- right. now left.
      * rewrite db_coll_put_other in H by exact Hn. now left.
Qed.

(** ** A run of seeding calls *)

Lemma final_state_cons {A : Type} (db : database) (r : run database A)
      (runs : list (run database A)) :
  final_state db (r :: runs) = final_state (run_state r) runs.
Proof.
  unfold final_state. simpl. destruct (map _ runs) eqn:E; [reflexivity|].
  clear E. revert d. induction l as [|x l IH]; intros d; simpl; [reflexivity|].
  destruct l; [reflexivity|]. apply (IH x).
Qed.

Lemma batch_fits_other (db db' : database) (b : string * list doc * string) :
  db_coll db' (fst (fst b)) = db_coll db (fst (fst b)) ->
  batch_fits db b -> batch_fits db' b.
Proof.
  unfold batch_fits, accepts_all. cbv zeta. intros ->. auto.
Qed.

Lemma create_documents_other (py_str : value -> string) (db : database)
      (name other : string) (ds : list doc) (id_field : string) :
  other <> name ->
  db_coll (run_state (create_documents py_str db name ds id_field)) other
  = db_coll db other.
Proof.
  intros Hne. rewrite create_documents_unfold.
  destruct (insert_many (db_coll db name) (db_next_oid db) ds) as [c' [ids|e]];
    simpl; rewrite db_coll_fresh; apply db_coll_store_other; congruence.
Qed.

Lemma insert_batches_other (py_str : value -> string)
      (batches : list (string * list doc * string)) (db : database)
      (other : string) :
  ~ In other (map (fun b => fst (fst b)) batches) ->
  db_coll (final_state db (insert_batches py_str batches db)) other
  = db_coll db other.
Proof.
  revert db. induction batches as [|[[name ds] f] rest IH]; intros db Hn; simpl.
  - reflexivity.
  - rewrite final_state_cons. simpl in Hn.
    rewrite IH by tauto. apply create_documents_other.
    intros ->. apply Hn. now left.
Qed.

(** Batches that fit, for collections that are all different, go in whole
    one after the other. *)
Lemma insert_batches_whole (py_str : value -> string)
      (batches : list (string * list doc * string)) (db : database) :
  NoDup (map (fun b => fst (fst b)) batches) ->
  Forall (batch_fits db) batches ->
  let runs := insert_batches py_str batches db in
  Forall (fun r => run_printed r = []) runs
  /\ map (fun r => option_map (@List.length string) (returned r)) runs
     = map (fun b => Some (List.length (snd (fst b)))) batches
  /\ Forall (fun b => exists n,
                 coll_docs (db_coll (final_state db runs) (fst (fst b)))
                 = with_ids n (snd (fst b)))
            batches.
Proof.
  cbv zeta. revert db.
  induction batches as [|[[name ds] f] rest IH]; intros db Hnd Hfit; simpl.
  - repeat constructor.
  - inversion Hnd as [|? ? Hnotin Hnd']; subst.
    inversion Hfit as [|? ? Hb Hrest]; subst.
    destruct Hb as (Hne & Hempty & Hacc & Hno & Hks). simpl in *.
    destruct (@create_documents_whole py_str db name ds f
                Hne Hempty Hacc Hno Hks)
      as (Hp & (ids & Hv & Hlen) & Hdocs & Hoid & Hother).
    set (r := create_documents py_str db name ds f) in *.
    assert (Hfit' : Forall (batch_fits (run_state r)) rest).
    { rewrite Forall_forall in *. intros b Hin.
      apply batch_fits_other with (db := db); [|now apply Hrest].
      apply Hother. intros Heq. apply Hnotin. rewrite <- Heq.
      now apply in_map with (f := fun b => fst (fst b)). }
    destruct (IH (run_state r) Hnd' Hfit') as (IH1 & IH2 & IH3).
    rewrite final_state_cons.
    split; [now constructor|]. split.
    + unfold returned at 1. rewrite Hv. simpl. now rewrite Hlen, IH2.
    + constructor; [|exact IH3]. simpl.
      exists (db_next_oid db).
      now rewrite insert_batches_other.
Qed.

(** ** The sample data *)

(** The sample documents bring no [_id] and, in each collection, no two of
    them share the key of one of the unique indexes of the script. *)
Lemma sample_batch_fits (now : Z) (db : database)
      (b : string * list doc * string) :
  In b (sample_batches now) ->
  coll_docs (db_coll db (fst (fst b))) = [] ->
  accepts_all db (fst (fst b)) (snd (fst b)) ->
  (forall ks, In ks (coll_unique (db_coll db (fst (fst b)))) ->
              In (fst (fst b), ks) unique_indexes) ->
  batch_fits db b.
Proof.
  intros Hin Hempty Hacc Hix. unfold batch_fits. cbv zeta.
  split; [|split; [exact Hempty|split; [exact Hacc|split]]].
  - simpl in Hin.
    repeat (destruct Hin as [<-|Hin]; [discriminate|]). destruct Hin.
  - intros d Hd.
    assert (Hall : forallb (fun d => negb (doc_has "_id" d)) (snd (fst b)) = true).
    { clear -Hin. simpl in Hin.
      repeat (destruct Hin as [<-|Hin]; [vm_compute; reflexivity|]).
      destruct Hin. }
    rewrite forallb_forall in Hall. specialize (Hall d Hd).
    now destruct (doc_has "_id" d).
  - intros ks n Hks. specialize (Hix ks Hks). clear -Hin Hix.
    simpl in Hin.
    repeat (destruct Hin as [<-|Hin];
            [simpl in Hix;
             repeat (destruct Hix as [Hix|Hix];
                     [try discriminate Hix; injection Hix as <-;
                      vm_compute; reflexivity|]);
             destruct Hix|]).
    destruct Hin.
Qed.

(** ** Sorting *)

Lemma insert_sorted_perm {A : Type} (before : A -> A -> bool) (x : A) (l : list A) :
  Permutation (insert_sorted before x l) (x :: l).
Proof.
  induction l as [|y l IH]; simpl; [reflexivity|].
  destruct (before x y); [reflexivity|].
  rewrite IH. apply perm_swap.
Qed.

Lemma stable_sort_perm {A : Type} (before : A -> A -> bool) (l : list A) :
  Permutation (stable_sort before l) l.
Proof.
  induction l as [|x l IH]; simpl; [reflexivity|].
  rewrite insert_sorted_perm. now constructor.
Qed.

Section Sorting.

Variable A : Type.
Variable before : A -> A -> bool.
Hypothesis before_total : forall a b, before a b = false -> before b a = true.

Lemma insert_sorted_hd (x a : A) (l : list A) :
  before a x = true ->
  HdRel (fun a b => before a b = true) a l ->
  HdRel (fun a b => before a b = true) a (insert_sorted before x l).
Proof.
  intros Hax Hl. destruct l as [|y l]; simpl.
  - now constructor.
  - destruct (before x y); constructor; [exact Hax|].
    now inversion Hl.
Qed.

Lemma insert_sorted_sorted (x : A) (l : list A) :
  Sorted (fun a b => before a b = true) l ->
  Sorted (fun a b => before a b = true) (insert_sorted before x l).
Proof.
  induction l as [|y l IH]; simpl; intros Hs.
  - repeat constructor.
  - destruct (before x y) eqn:E.
    + constructor; [exact Hs|]. now constructor.
    + inversion Hs as [|? ? Hs' Hhd]; subst.
      constructor; [now apply IH|].
      apply insert_sorted_hd; [now apply before_total|exact Hhd].
Qed.

Lemma stable_sort_sorted (l : list A) :
  Sorted (fun a b => before a b = true) (stable_sort before l).
Proof.
  induction l as [|x l IH]; simpl; [constructor|].
  now apply insert_sorted_sorted.
Qed.

End Sorting.




(** ** Grouping *)











(** ** [$lookup] followed by [$unwind] *)








(* ================================================================= *)
(** * The script on the sample data *)

(** The calls of the script, run on the database the seeding section
    leaves, give what the data says they should. *)

Example next_user_id :
  run_value (get_next_id (seeded_db 20240101000000) user_collection "userId")
  = Ok (VNum 33).
Proof. vm_compute. reflexivity. Qed.

Example courses_of_instructor_17 :
  option_map (map (doc_get "courseId"))
             (returned (read_document (seeded_db 20240101000000)
                                      course_collection
                                      [("instructorId", VNum 17)]))
  = Some [Some (VNum 1); Some (VNum 5); Some (VNum 9); Some (VNum 13)].
Proof. vm_compute. reflexivity. Qed.

Example courses_titled_aws :
  option_map (map (doc_get "courseId"))
             (returned (read_document (seeded_db 20240101000000)
                                      course_collection
                                      [("title", VDoc [("$regex", VStr "aWs");
                                                       ("$options", VStr "i")])]))
  = Some [Some (VNum 15)].
Proof. vm_compute. reflexivity. Qed.

Example courses_tagged_python :
  option_map (map (doc_get "courseId"))
             (returned (read_document (seeded_db 20240101000000)
                                      course_collection
                                      [("tags", VDoc [("$in",
                                          VList [VStr "python";
                                                 VStr "programming"])])]))
  = Some [Some (VNum 1); Some (VNum 2); Some (VNum 4)].
Proof. vm_compute. reflexivity. Qed.

Example new_profile_of_user_1 :
  let r := update_document (seeded_db 20240101000000) user_collection
             [("userId", VNum 1)]
             [("$set", VDoc [("profile.bio", VStr "Learning Data Engineering");
                             ("profile.skills",
                              VList [VStr "SQL"; VStr "Python"]);
                             ("updatedAt", VDate 20240101000000)])] in
  run_value r = Ok 1
  /\ option_map (get_path "profile.bio")
                (hd_error (coll_docs (db_coll (run_state r) user_collection)))
     = Some (Some (VStr "Learning Data Engineering")).
Proof. vm_compute. split; reflexivity. Qed.

Example tag_added_to_course_1 :
  let r := update_document (seeded_db 20240101000000) course_collection
             [("courseId", VNum 1)]
             [("$addToSet", VDoc [("tags", VDoc [("$each",
                                                  VList [VStr "backend"])])]);
              ("$set", VDoc [("updatedAt", VDate 20240101000000)])] in
  run_value r = Ok 1
  /\ option_map (doc_get "tags")
                (hd_error (coll_docs (db_coll (run_state r) course_collection)))
     = Some (Some (VList [VStr "python"; VStr "programming"; VStr "basics";
                          VStr "backend"])).
Proof. vm_compute. split; reflexivity. Qed.

Example enrollments_per_course :
  map (doc_get "totalEnrollments")
      (aggregate (seeded_db 20240101000000) enrollment_collection
                 enrollment_count_pipeline)
  = repeat (Some (VNum 2)) 16.
Proof. vm_compute. reflexivity. Qed.

Example best_rated_categories :
  map (doc_get "_id")
      (firstn 3 (aggregate (seeded_db 20240101000000) course_collection
                           course_rating_pipeline))
  = [Some (VStr "Programming"); Some (VStr "Data Science");
     Some (VStr "Backend Development")].
Proof. vm_compute. reflexivity. Qed.

Example best_students :
  map (doc_get "_id")
      (aggregate (seeded_db 20240101000000) enrollment_collection
                 student_performance_pipeline)
  = [Some (VNum 6); Some (VNum 1); Some (VNum 5); Some (VNum 2);
     Some (VNum 4); Some (VNum 3)].
Proof. vm_compute. reflexivity. Qed.

(* ================================================================= *)
(** * The claims *)

(** C1.  Every helper is meant to catch what its body raises, print a
    message and return its sentinel.  [load_json_file] does so for a missing
    file only: when the path is a directory, when the file may not be read,
    or when its text is not JSON, the exception leaves the function and
    nothing is printed. *)
Theorem load_json_file_exception_escapes
        (json_loads : string -> option value) (fs : filesystem)
        (file_path : string) :
  fs file_path = Directory
  \/ fs file_path = Unreadable
  \/ (exists text, fs file_path = File text /\ json_loads text = None) ->
  exists e,
    run_value (load_json_file json_loads fs file_path) = Raised e
    /\ exn_cls e <> FileNotFoundError
    /\ run_printed (load_json_file json_loads fs file_path) = [].
Proof.
  unfold load_json_file, try_except, open_read.
  intros [H | [H | [text [H Hj]]]]; rewrite H; simpl; [| |rewrite Hj; simpl];
    eexists; (split; [reflexivity|]); split; simpl; (discriminate || reflexivity).
Qed.


(** C10.  [create_collection_with_schema] returns [True] exactly when the
    collection did not exist and is now there, empty, with the validator
    of the schema; when it returns [False] the database is as it was, and
    that is what happens whenever the collection exists already. *)
Theorem create_collection_with_schema_spec
        (jsonSchema : value -> option (doc -> bool)) (db : database)
        (collection_name : string) (schema : value) :
  let r := create_collection_with_schema jsonSchema db collection_name schema in
  (run_value r = Ok true <->
   db_exists db collection_name = false
   /\ exists v, jsonSchema schema = Some v
                /\ run_state r = db_put db collection_name (Collection [] v []))
  /\ (run_value r = Ok true \/ run_value r = Ok false)
  /\ (run_value r = Ok false -> run_state r = db)
  /\ (db_exists db collection_name = true ->
      run_value r = Ok false /\ run_state r = db
      /\ db_coll (run_state r) collection_name = db_coll db collection_name).
Proof.
  cbv zeta. unfold create_collection_with_schema, create_collection, try_except.
  destruct (db_exists db collection_name) eqn:Hex; simpl.
  - repeat split; try (intros; congruence); try discriminate.
    + intros [H _]. discriminate.
    + now right.
  - destruct (jsonSchema schema) as [v|] eqn:Hs; simpl.
    + repeat split; try (intros; congruence); try discriminate.
      * exists v. now split.
      * now left.
    + repeat split; try (intros; congruence); try discriminate.
      * intros [_ [v [H _]]]. discriminate.
      * now right.
Qed.

(** C2 (as amended).  [delete_document] never removes a document.  When
    the update raises nothing, every document the query matches has
    [isActive] false afterwards and the value returned is the number of
    documents that changed; when the update raises, an error is printed
    and 0 is returned. *)
Theorem delete_document_soft_delete
        (now : Z) (db : database) (collection_name : string)
        (document_query : doc) :
  let r := delete_document now db collection_name document_query in
  let old := coll_docs (db_coll db collection_name) in
  let new := coll_docs (db_coll (run_state r) collection_name) in
  map (doc_get "_id") new = map (doc_get "_id") old
  /\ (run_printed r = [] ->
      (forall cf, compile_filter document_query = Ok cf ->
                  Forall2 (fun d d' => matches cf d = true ->
                                       doc_get "isActive" d' = Some (VBool false))
                          old new)
      /\ run_value r = Ok (changed old new))
  /\ (run_printed r <> [] -> run_value r = Ok 0).
Proof.
  cbv zeta.
  destruct (delete_document_cases now db collection_name document_query)
    as [(e & Hq & Hs & Hv & Hp) | (cf & ds & res & Hq & Hl & Hs & Hres)].
  - rewrite Hs. split; [reflexivity|]. split; [intros Hn; contradiction|auto].
  - rewrite Hs, db_coll_store_same. simpl.
    pose proof (update_loop_shape _ _ _ _ _ Hl) as Hshape.
    split; [|split].
    + clear -Hshape. induction Hshape as [|d d' l l' H _ IH]; simpl;
        [reflexivity|].
      f_equal; [|exact IH].
      destruct H as [-> | [_ H]]; [reflexivity|].
      rewrite soft_delete_applies in H. injection H as <-.
      now rewrite !assoc_get_set_other by discriminate.
    + intros Hn. destruct res as [x|e]; [|destruct Hres; contradiction].
      destruct Hres as [Hv _].
      destruct (update_loop_ok _ _ _ _ _ Hl) as (Hout & _ & Hm & _).
      split; [|now rewrite Hv, Hm].
      intros cf' Hq'. rewrite Hq in Hq'. injection Hq' as <-.
      rewrite Hout. clear.
      induction (coll_docs (db_coll db collection_name)) as [|d l IH];
        simpl; constructor; [|exact IH].
      intros Hm. unfold updated. rewrite Hm, soft_delete_applies.
      set (d' := doc_set "updatedAt" _ _).
      assert (Hd' : doc_get "isActive" d' = Some (VBool false)).
      { unfold d'. rewrite assoc_get_set_other by discriminate.
        apply assoc_get_set_same. }
      destruct (doc_eqb d d') eqn:Heq; [|exact Hd'].
      pose proof (doc_eqb_get d d' "isActive" Heq) as Hg.
      rewrite Hd' in Hg.
      destruct (doc_get "isActive" d) as [v|]; [|contradiction].
      f_equal. now apply value_eqb_bool.
    + intros Hp. destruct res as [x|e]; [destruct Hres; contradiction|].
      apply Hres.
Qed.

(** C7.  [delete_document] touches nothing but the [isActive] and
    [updatedAt] fields of documents the query matches: every other field
    of every document, every document the query does not match, the
    validator and the indexes of the collection, and every other
    collection are as before. *)
Theorem delete_document_frame
        (now : Z) (db : database) (collection_name : string)
        (document_query : doc) :
  let r := delete_document now db collection_name document_query in
  let c := db_coll db collection_name in
  let c' := db_coll (run_state r) collection_name in
  (forall other, other <> collection_name ->
                 db_coll (run_state r) other = db_coll db other)
  /\ coll_validator c' = coll_validator c
  /\ coll_unique c' = coll_unique c
  /\ Forall2 (fun d d' =>
                (forall k, k <> "isActive" -> k <> "updatedAt" ->
                           doc_get k d' = doc_get k d)
                /\ (forall cf, compile_filter document_query = Ok cf ->
                               matches cf d = false -> d' = d))
             (coll_docs c) (coll_docs c')
  /\ (forall e, compile_filter document_query = Raised e -> run_state r = db).
Proof.
  cbv zeta.
  destruct (delete_document_cases now db collection_name document_query)
    as [(e & Hq & Hs & Hv & Hp) | (cf & ds & res & Hq & Hl & Hs & Hres)].
  - rewrite Hs. repeat split; auto.
    induction (coll_docs (db_coll db collection_name)); constructor; auto.
  - rewrite Hs, db_coll_store_same. simpl.
    repeat split.
    + intros other Hne. apply db_coll_store_other. congruence.
    + pose proof (update_loop_shape _ _ _ _ _ Hl) as Hshape.
      clear -Hshape Hq.
      induction Hshape as [|d d' l l' H _ IH]; constructor; [|exact IH].
      destruct H as [-> | [Hm H]].
      * split; auto.
      * rewrite soft_delete_applies in H. injection H as <-. split.
        -- intros k H1 H2. now rewrite !assoc_get_set_other by congruence.
        -- intros cf' Hq'. rewrite Hq in Hq'. injection Hq' as <-. congruence.
    + intros e He. congruence.
Qed.

(** C9.  [update_document] returns the modified count of [update_many].
    When the update leaves every matching document as it is, it returns 0
    although documents matched; it returns 0 as well when no document
    matches and when [update_many] raises. *)
Theorem update_document_returns_modified_count
        (db : database) (collection_name : string)
        (filter_query update_data : doc) :
  let r := update_document db collection_name filter_query update_data in
  let c := db_coll db collection_name in
  (forall c' res, update_many c filter_query update_data = (c', Ok res) ->
                  run_value r = Ok (modified_count res))
  /\ (forall cf ops,
         compile_filter filter_query = Ok cf ->
         compile_update update_data = Ok ops ->
         (forall d, In d (coll_docs c) -> matches cf d = true ->
                    exists d', apply_update ops d = Ok d' /\ doc_eqb d d' = true) ->
         run_value r = Ok 0 /\ run_printed r = [] /\ run_state r = db
         /\ exists res, update_many c filter_query update_data = (c, Ok res)
                        /\ matched_count res
                           = List.length (filter (matches cf) (coll_docs c))
                        /\ modified_count res = 0)
  /\ (forall cf ops,
         compile_filter filter_query = Ok cf ->
         compile_update update_data = Ok ops ->
         (forall d, In d (coll_docs c) -> matches cf d = false) ->
         run_value r = Ok 0)
  /\ (forall c' e, update_many c filter_query update_data = (c', Raised e) ->
                   run_value r = Ok 0).
Proof.
  cbv zeta. rewrite update_document_unfold.
  assert (Hnoop : forall cf ops,
             compile_filter filter_query = Ok cf ->
             compile_update update_data = Ok ops ->
             (forall d, In d (coll_docs (db_coll db collection_name)) ->
                        matches cf d = true ->
                        exists d', apply_update ops d = Ok d'
                                   /\ doc_eqb d d' = true) ->
             update_many (db_coll db collection_name) filter_query update_data
             = (db_coll db collection_name,
                Ok (UpdateResult
                      (List.length (filter (matches cf)
                                      (coll_docs (db_coll db collection_name))))
                      0))).
  { intros cf ops Hq Hu H. unfold update_many. rewrite Hu, Hq.
    rewrite (update_loop_noop _ _ _ _ _ H). now rewrite set_docs_same. }
  repeat split.
  - intros c' res H. now rewrite H.
  - rewrite (Hnoop cf ops H H0 H1). reflexivity.
  - rewrite (Hnoop cf ops H H0 H1). reflexivity.
  - rewrite (Hnoop cf ops H H0 H1). simpl. apply db_store_coll.
  - eexists. split; [now apply (Hnoop cf ops)|]. split; reflexivity.
  - intros cf ops Hq Hu H. rewrite (Hnoop cf ops Hq Hu); [reflexivity|].
    intros d Hin Hm. rewrite (H d Hin) in Hm. discriminate.
  - intros c' e H. now rewrite H.
Qed.

(** C2 (as stated) fails.  Under a validator that allows the fields of a
    submission and no other, the update of [delete_document] is refused:
    the call prints the error and returns 0, and the submission the query
    matches is still there without [isActive] set to false. *)
Lemma delete_document_refused_by_validator :
  let r := delete_document 20240101000000 strict_submission_db "submission"
                           [("submissionId", VNum 1)] in
  run_value r = Ok 0
  /\ run_printed r = ["Error performing soft delete: Document failed validation"]
  /\ exists cf d,
      compile_filter [("submissionId", VNum 1)] = Ok cf
      /\ In d (coll_docs (db_coll (run_state r) "submission"))
      /\ matches cf d = true
      /\ doc_get "isActive" d <> Some (VBool false).
Proof.
  cbv zeta. split; [vm_compute; reflexivity|]. split; [vm_compute; reflexivity|].
  eexists. eexists. split; [reflexivity|].
  split; [vm_compute; left; reflexivity|].
  split; [vm_compute; reflexivity|].
  vm_compute. discriminate.
Qed.

(** C4.  Once the index creation section has run, each of the six unique
    indexes is in place and respected, and stays so whatever writing
    helpers are called afterwards: no two users share a [userId], no two
    enrollments an [enrollmentId] or a pair of [courseId] and [studentId],
    no two lessons, assignments or submissions their id.  A
    [create_document], [create_documents] or [update_document] whose effect
    would put two documents under one key fails: it prints the error and
    returns its sentinel. *)
Theorem unique_indexes_are_invariant
        (py_str : value -> string) (db0 db1 : database)
        (calls : list helper_call) :
  create_unique_indexes db0 = Ok db1 ->
  let db := run_calls py_str db1 calls in
  unique_invariant db
  /\ forall name ks, In (name, ks) unique_indexes ->
       let docs := coll_docs (db_coll db name) in
       ForallOrdPairs
         (fun a b => key_eqb (index_key ks a) (index_key ks b) = false) docs
       /\ (forall d,
              has_duplicates ks (docs ++ [with_id (db_next_oid db) d]) = true ->
              let r := create_document py_str db name d in
              run_value r = Ok None /\ run_printed r <> []
              /\ db_coll (run_state r) name = db_coll db name)
       /\ (forall ds id_field,
              has_duplicates ks (docs ++ with_ids (db_next_oid db) ds) = true ->
              let r := create_documents py_str db name ds id_field in
              run_value r = Ok [] /\ run_printed r <> [])
       /\ (forall q u cf ops,
              compile_filter q = Ok cf -> compile_update u = Ok ops ->
              has_duplicates ks (map (updated (matches cf) (apply_update ops))
                                     docs) = true ->
              let r := update_document db name q u in
              run_value r = Ok 0 /\ run_printed r <> []).
Proof.
  intros H0. cbv zeta.
  assert (Hinv : unique_invariant (run_calls py_str db1 calls)).
  { unfold unique_invariant.
    apply create_indexes_respects in H0. destruct H0 as [H0 _].
    eapply Forall_impl; [|exact H0].
    intros ix. apply run_calls_respects. }
  split; [exact Hinv|].
  intros name ks Hin.
  unfold unique_invariant in Hinv. rewrite Forall_forall in Hinv.
  pose proof (Hinv _ Hin) as Hix.
  split; [apply has_duplicates_false_iff; apply Hix|].
  split; [|split].
  - intros d. now apply create_document_duplicate.
  - intros ds id_field. now apply create_documents_duplicate.
  - intros q u cf ops. now apply update_document_duplicate.
Qed.

(** C6.  The sample data agrees with the unique indexes: the 32 users have
    32 different [userId]s, the 32 enrollments 32 different
    [enrollmentId]s and 32 different pairs of [courseId] and [studentId],
    and lessons, assignments and submissions have different ids.  So when
    the six collections start empty, under validators that let the sample
    documents in, the index creation section goes through and every
    seeding call inserts all of its documents and prints nothing. *)
Theorem sample_data_goes_in_whole
        (py_str : value -> string) (now : Z) (db0 : database) :
  (List.length users_data = 32
   /\ has_duplicates ["userId"] users_data = false)
  /\ (List.length (enrollments_data now) = 32
      /\ has_duplicates ["enrollmentId"] (enrollments_data now) = false
      /\ has_duplicates ["courseId"; "studentId"] (enrollments_data now) = false)
  /\ has_duplicates ["lessonId"] lessons_data = false
  /\ has_duplicates ["assignmentId"] assignments_data = false
  /\ has_duplicates ["submissionId"] submissions_data = false
  /\ (Forall (fun b => starts_empty db0 (fst (fst b))
                       /\ accepts_all db0 (fst (fst b)) (snd (fst b)))
             (sample_batches now) ->
      exists db1,
        create_unique_indexes db0 = Ok db1
        /\ let runs := insert_sample_data py_str now db1 in
           Forall (fun r => run_printed r = []) runs
           /\ map (fun r => option_map (@List.length string) (returned r)) runs
              = [Some 32; Some 16; Some 32; Some 40; Some 15; Some 20]
           /\ Forall (fun b => exists n,
                          coll_docs (db_coll (final_state db1 runs)
                                             (fst (fst b)))
                          = with_ids n (snd (fst b)))
                     (sample_batches now)).
Proof.
  split; [split; vm_compute; reflexivity|].
  split; [repeat split; vm_compute; reflexivity|].
  do 3 (split; [vm_compute; reflexivity|]).
  intros H0. rewrite Forall_forall in H0.
  destruct (create_indexes_on_empty unique_indexes db0)
    as (db1 & Hdb1 & Hoid & Hall).
  { intros ix Hin.
    assert (Hb : exists b, In b (sample_batches now) /\ fst (fst b) = fst ix).
    { simpl in Hin.
      destruct Hin as [<-|[<-|[<-|[<-|[<-|[<-|[]]]]]]];
        [ exists (user_collection, users_data, "userId")
        | exists (enrollment_collection, enrollments_data now, "enrollmentId")
        | exists (enrollment_collection, enrollments_data now, "enrollmentId")
        | exists (lesson_collection, lessons_data, "lessonId")
        | exists (assignment_collection, assignments_data, "assignmentId")
        | exists (submission_collection, submissions_data, "submissionId") ];
        (split; [simpl; tauto|reflexivity]). }
    destruct Hb as (b & Hb & <-). apply (H0 b Hb). }
  exists db1. split; [exact Hdb1|]. cbv zeta. unfold insert_sample_data.
  assert (Hfit : Forall (batch_fits db1) (sample_batches now)).
  { apply Forall_forall. intros b Hb.
    destruct (H0 b Hb) as [[He Hu] Hacc].
    destruct (Hall (fst (fst b))) as (H1 & H2 & H3).
    apply (@sample_batch_fits now); [exact Hb| | |].
    - now rewrite H1.
    - unfold accepts_all in *. now rewrite H2.
    - intros ks Hks. destruct (H3 ks Hks) as [H|H]; [|exact H].
      rewrite Hu in H. destruct H. }
  assert (Hnd : NoDup (map (fun b => fst (fst b)) (sample_batches now))).
  { simpl. repeat constructor; simpl; intuition discriminate. }
  destruct (@insert_batches_whole py_str _ _ Hnd Hfit) as (H1 & H2 & H3).
  split; [exact H1|]. split; [|exact H3].
  rewrite H2. vm_compute. reflexivity.
Qed.



(* ================================================================= *)
(** * The statements at work on sample states *)

(** [load_json_file] on a path that is a directory, and on a file that
    holds an opening brace and nothing else. *)
Lemma load_json_file_exception_escapes_witness :
  (sample_fs "user_collection_schema.json" = Directory
   /\ exists e,
       run_value (load_json_file sample_json_loads sample_fs
                                 "user_collection_schema.json") = Raised e
       /\ exn_cls e <> FileNotFoundError
       /\ run_printed (load_json_file sample_json_loads sample_fs
                                      "user_collection_schema.json") = [])
  /\ (sample_fs "course_collection_schema.json" = File "{"
      /\ sample_json_loads "{" = None
      /\ exists e,
          run_value (load_json_file sample_json_loads sample_fs
                                    "course_collection_schema.json") = Raised e
          /\ exn_cls e <> FileNotFoundError
          /\ run_printed (load_json_file sample_json_loads sample_fs
                                         "course_collection_schema.json") = []).
Proof.
  split.
  - split; [reflexivity|].
    apply (load_json_file_exception_escapes sample_json_loads sample_fs
             "user_collection_schema.json").
    left. reflexivity.
  - split; [reflexivity|]. split; [reflexivity|].
    apply (load_json_file_exception_escapes sample_json_loads sample_fs
             "course_collection_schema.json").
    right. right. exists "{". split; reflexivity.
Defined.


(** Creating the user collection twice. *)
Lemma create_collection_with_schema_spec_witness :
  let r1 := create_collection_with_schema sample_jsonSchema empty_db "user"
                                          (VDoc []) in
  let r2 := create_collection_with_schema sample_jsonSchema (run_state r1)
                                          "user" (VDoc []) in
  let r3 := create_collection_with_schema sample_jsonSchema empty_db "user"
                                          VNull in
  run_value r1 = Ok true
  /\ db_exists (run_state r1) "user" = true
  /\ run_value r2 = Ok false /\ run_state r2 = run_state r1
  /\ run_value r3 = Ok false /\ run_state r3 = empty_db.
Proof.
  cbv zeta.
  destruct (create_collection_with_schema_spec sample_jsonSchema empty_db
              "user" (VDoc [])) as (H1 & _).
  destruct (create_collection_with_schema_spec sample_jsonSchema
              (run_state (create_collection_with_schema sample_jsonSchema
                            empty_db "user" (VDoc [])))
              "user" (VDoc [])) as (_ & _ & _ & H2).
  destruct (create_collection_with_schema_spec sample_jsonSchema empty_db
              "user" VNull) as (_ & _ & H3 & _).
  split; [|split; [|split; [|split; [|split]]]].
  - apply H1. split; [reflexivity|].
    exists (fun _ => true). split; reflexivity.
  - reflexivity.
  - apply H2. reflexivity.
  - apply H2. reflexivity.
  - reflexivity.
  - apply H3. reflexivity.
Defined.

(** Setting [isActive] to what it is already: one user matches and 0 is
    returned, as for a query that matches nobody and for an update the
    server refuses. *)
Lemma update_document_returns_modified_count_witness :
  let noop := update_document sample_db "user" [("userId", VNum 1)]
                              [("$set", VDoc [("isActive", VBool true)])] in
  let nobody := update_document sample_db "user" [("userId", VNum 9)]
                                [("$set", VDoc [("isActive", VBool true)])] in
  let refused := update_document sample_db "user" [("userId", VNum 1)]
                                 [("$set", VDoc [("userId", VNum 2)])] in
  (run_value noop = Ok 0 /\ run_printed noop = [] /\ run_state noop = sample_db
   /\ exists res,
       update_many (db_coll sample_db "user") [("userId", VNum 1)]
                   [("$set", VDoc [("isActive", VBool true)])]
       = (db_coll sample_db "user", Ok res)
       /\ matched_count res = 1 /\ modified_count res = 0)
  /\ run_value nobody = Ok 0
  /\ run_value refused = Ok 0.
Proof.
  cbv zeta.
  destruct (update_document_returns_modified_count sample_db "user"
              [("userId", VNum 1)] [("$set", VDoc [("isActive", VBool true)])])
    as (_ & H2 & _).
  destruct (update_document_returns_modified_count sample_db "user"
              [("userId", VNum 9)] [("$set", VDoc [("isActive", VBool true)])])
    as (_ & _ & H3 & _).
  destruct (update_document_returns_modified_count sample_db "user"
              [("userId", VNum 1)] [("$set", VDoc [("userId", VNum 2)])])
    as (_ & _ & _ & H4).
  split; [|split].
  - apply (H2 [("userId", [CEq (VNum 1)])] [USet "isActive" (VBool true)]);
      try reflexivity.
    intros d [<-|[<-|[<-|[]]]] Hm; try discriminate Hm.
    eexists. split; reflexivity.
  - apply (H3 [("userId", [CEq (VNum 9)])] [USet "isActive" (VBool true)]);
      try reflexivity.
    intros d [<-|[<-|[<-|[]]]]; reflexivity.
  - apply (H4 (db_coll sample_db "user")
              (Exn DuplicateKeyError "E11000 duplicate key error collection")).
    reflexivity.
Defined.

(** The soft delete of user 1, and a soft delete the server refuses. *)
Lemma delete_document_soft_delete_witness :
  let r := delete_document 20240101000000 sample_db "user"
                           [("userId", VNum 1)] in
  let refused := delete_document 20240101000000 strict_submission_db
                                 "submission" [("submissionId", VNum 1)] in
  run_printed r = []
  /\ run_value r = Ok 1
  /\ map (doc_get "isActive") (coll_docs (db_coll (run_state r) "user"))
     = [Some (VBool false); Some (VBool true); Some (VBool false)]
  /\ map (doc_get "_id") (coll_docs (db_coll (run_state r) "user"))
     = map (doc_get "_id") (coll_docs (db_coll sample_db "user"))
  /\ run_printed refused <> [] /\ run_value refused = Ok 0.
Proof.
  cbv zeta.
  destruct (delete_document_soft_delete 20240101000000 sample_db "user"
              [("userId", VNum 1)]) as (H1 & H2 & _).
  destruct (delete_document_soft_delete 20240101000000 strict_submission_db
              "submission" [("submissionId", VNum 1)]) as (_ & _ & H3).
  assert (Hp : run_printed (delete_document 20240101000000 sample_db "user"
                                            [("userId", VNum 1)]) = [])
    by reflexivity.
  assert (Hq : run_printed (delete_document 20240101000000 strict_submission_db
                                            "submission"
                                            [("submissionId", VNum 1)]) <> [])
    by (vm_compute; discriminate).
  split; [exact Hp|]. split; [exact (proj2 (H2 Hp))|].
  split; [reflexivity|]. split; [exact H1|]. split; [exact Hq|exact (H3 Hq)].
Defined.

(** The soft delete of user 1 leaves the ids and the other users alone. *)
Lemma delete_document_frame_witness :
  let r := delete_document 20240101000000 sample_db "user"
                           [("userId", VNum 1)] in
  map (doc_get "userId") (coll_docs (db_coll (run_state r) "user"))
  = map (doc_get "userId") (coll_docs (db_coll sample_db "user"))
  /\ coll_unique (db_coll (run_state r) "user") = [["userId"]]
  /\ db_coll (run_state r) "course" = db_coll sample_db "course".
Proof.
  cbv zeta.
  destruct (delete_document_frame 20240101000000 sample_db "user"
              [("userId", VNum 1)]) as (H1 & _ & H3 & H4 & _).
  split; [|split].
  - induction H4 as [|d d' l l' [Hk _] _ IH]; simpl; [reflexivity|].
    rewrite IH. f_equal. apply Hk; discriminate.
  - exact H3.
  - apply H1. discriminate.
Defined.

(** The indexes on the fresh collections, then the users go in, a second
    user 1 is refused, an update that would make two users 3 is refused,
    and user 1 is soft deleted. *)
Lemma unique_indexes_are_invariant_witness :
  create_unique_indexes fresh_db = Ok indexed_db
  /\ let db := run_calls sample_py_str indexed_db sample_calls in
     unique_invariant db
     /\ List.length (coll_docs (db_coll db user_collection)) = 32
     /\ (let r := create_document sample_py_str db user_collection
                                  [("userId", VNum 1)] in
         run_value r = Ok None /\ run_printed r <> [])
     /\ (let r := update_document db user_collection [("userId", VNum 2)]
                                  [("$set", VDoc [("userId", VNum 3)])] in
         run_value r = Ok 0 /\ run_printed r <> []).
Proof.
  assert (H : create_unique_indexes fresh_db = Ok indexed_db)
    by (vm_compute; reflexivity).
  split; [exact H|]. cbv zeta.
  destruct (unique_indexes_are_invariant sample_py_str fresh_db sample_calls H)
    as [Hinv Hfail].
  destruct (Hfail user_collection ["userId"] (or_introl eq_refl))
    as (_ & Hone & _ & Hupd).
  split; [exact Hinv|]. split; [vm_compute; reflexivity|]. split.
  - destruct (Hone [("userId", VNum 1)]) as (H1 & H2 & _);
      [vm_compute; reflexivity|]. now split.
  - apply (Hupd [("userId", VNum 2)] [("$set", VDoc [("userId", VNum 3)])]
                [("userId", [CEq (VNum 2)])] [USet "userId" (VNum 3)]);
      vm_compute; reflexivity.
Defined.

(** The seeding section on the fresh collections. *)
Lemma sample_data_goes_in_whole_witness :
  Forall (fun b => starts_empty fresh_db (fst (fst b))
                   /\ accepts_all fresh_db (fst (fst b)) (snd (fst b)))
         (sample_batches 20240101000000)
  /\ exists db1,
      create_unique_indexes fresh_db = Ok db1
      /\ Forall (fun r => run_printed r = [])
                (insert_sample_data sample_py_str 20240101000000 db1)
      /\ map (fun r => option_map (@List.length string) (returned r))
             (insert_sample_data sample_py_str 20240101000000 db1)
         = [Some 32; Some 16; Some 32; Some 40; Some 15; Some 20].
Proof.
  assert (H : Forall (fun b => starts_empty fresh_db (fst (fst b))
                               /\ accepts_all fresh_db (fst (fst b))
                                              (snd (fst b)))
                     (sample_batches 20240101000000)).
  { unfold sample_batches.
    repeat (apply Forall_cons || apply Forall_nil);
      (split; [split; reflexivity | intros n d _; reflexivity]). }
  split; [exact H|].
  destruct (sample_data_goes_in_whole sample_py_str 20240101000000 fresh_db)
    as (_ & _ & _ & _ & _ & Hall).
  destruct (Hall H) as (db1 & H1 & H2 & H3 & _).
  exists db1. auto.
Defined.



(* ================================================================= *)
(** * More of the code *)

(** ** Filters of the simplest kind *)

Lemma existsb_in {A : Type} (f : A -> bool) (l : list A) (x : A) :
  In x l -> f x = true -> existsb f l = true.
Proof. intros Hin Hf. apply existsb_exists. eauto. Qed.

Lemma existsb_none {A : Type} (f : A -> bool) (l : list A) :
  (forall x, In x l -> f x = false) -> existsb f l = false.
Proof.
  intros H. destruct (existsb f l) eqn:E; [|reflexivity].
  apply existsb_exists in E. destruct E as (x & Hx & Hf).
  rewrite (H x Hx) in Hf. discriminate.
Qed.

Lemma split_path_nonempty (p : string) : split_path p <> [].
Proof.
  unfold split_path. generalize EmptyString.
  induction p as [|c p IH]; intros acc; simpl; [discriminate|].
  destruct (Ascii.eqb c "."%char); [discriminate|apply IH].
Qed.

(** A field of the top level reads the same under a fresh [_id]. *)
Lemma field_under_id (k : string) (v : value) (d : doc) :
  hd EmptyString (split_path k) <> "_id" ->
  field_or_null k (("_id", v) :: d) = field_or_null k d.
Proof.
  unfold field_or_null, get_path. intros H.
  pose proof (split_path_nonempty k) as Hne.
  destruct (split_path k) as [|k0 ks]; [contradiction|].
  simpl in *. destruct (String.eqb k0 "_id") eqn:E; [|reflexivity].
  apply String.eqb_eq in E. contradiction.
Qed.

Lemma index_key_with_id (ks : list string) (n : nat) (d : doc) :
  off_id ks -> index_key ks (with_id n d) = index_key ks d.
Proof.
  unfold with_id. destruct (doc_has "_id" d); [reflexivity|].
  unfold index_key. intros H.
  apply map_ext_in. intros k Hk. apply field_under_id.
  unfold off_id in H. rewrite Forall_forall in H. now apply H.
Qed.

Lemma key_eqb_refl' (k : list value) : key_eqb k k = true.
Proof.
  induction k as [|x k IH]; simpl; [reflexivity|].
  now rewrite value_eqb_refl, IH.
Qed.

(** ** [create_document] *)

Lemma id_filter_finds (n : nat) (d : doc) :
  doc_has "_id" d = false ->
  exists cf, compile_filter [("_id", VOid n)] = Ok cf
             /\ matches cf (with_id n d) = true.
Proof.
  intros H. eexists. split; [reflexivity|].
  unfold with_id. rewrite H. simpl.
  unfold get_path. change (split_path "_id") with ["_id"]. simpl.
  now rewrite Nat.eqb_refl.
Qed.

(** X1.  A document without [_id] that [create_document] accepts is stored
    at the end of its collection under a fresh [ObjectId], whose string is
    what the call returns, and reading the collection by that [_id] finds
    it.  A document that is refused leaves the collection as it was and
    the call returns [None].  No other collection is touched. *)
Theorem create_document_then_read
        (py_str : value -> string) (db : database) (collection_name : string)
        (document : doc) :
  doc_has "_id" document = false ->
  let r := create_document py_str db collection_name document in
  let stored := with_id (db_next_oid db) document in
  (run_printed r = [] ->
   run_value r = Ok (Some (py_str (VOid (db_next_oid db))))
   /\ coll_docs (db_coll (run_state r) collection_name)
      = coll_docs (db_coll db collection_name) ++ [stored]
   /\ exists found,
       run_value (read_document (run_state r) collection_name
                                [("_id", VOid (db_next_oid db))]) = Ok found
       /\ In stored found)
  /\ (run_printed r <> [] ->
      run_value r = Ok None
      /\ db_coll (run_state r) collection_name = db_coll db collection_name)
  /\ (forall other, other <> collection_name ->
                    db_coll (run_state r) other = db_coll db other).
Proof.
  intros Hid. cbv zeta. rewrite create_document_unfold.
  destruct (insert_one (db_coll db collection_name) (db_next_oid db) document)
    as [c' res] eqn:E.
  pose proof E as E'. apply insert_one_cases in E'.
  destruct E' as [(-> & _ & ->) | (-> & e & -> & _)].
  - simpl. split; [|split].
    + intros _.
      assert (Hsid : field_or_null "_id" (with_id (db_next_oid db) document)
                     = VOid (db_next_oid db))
        by (unfold with_id; rewrite Hid; reflexivity).
      rewrite Hsid. split; [reflexivity|].
      rewrite db_coll_fresh, db_coll_store_same. simpl. split; [reflexivity|].
      destruct (id_filter_finds (db_next_oid db) document Hid) as (cf & Hcf & Hm).
      unfold read_document, try_except, find. rewrite Hcf. simpl.
      eexists. split; [reflexivity|].
      apply filter_In. split; [|exact Hm].
      apply in_or_app. right. now left.
    + intros H. contradiction.
    + intros other Ho. rewrite db_coll_fresh. apply db_coll_store_other.
      congruence.
  - simpl. split; [|split].
    + intros H. discriminate.
    + intros _. split; [reflexivity|].
      now rewrite db_coll_fresh, db_store_coll.
    + intros other Ho. rewrite db_coll_fresh. apply db_coll_store_other.
      congruence.
Qed.

(** ** [create_documents] *)

Lemma with_ids_firstn (ds : list doc) (n k : nat) :
  with_ids n (firstn k ds) = firstn k (with_ids n ds).
Proof.
  revert n k. induction ds as [|d ds IH]; intros n [|k]; simpl; try reflexivity.
  now rewrite IH.
Qed.

(** An ordered batch stores the documents before the first one that is
    refused, and nothing after. *)
Lemma insert_loop_prefix (ds : list doc) (c c' : collection) (n : nat)
      (r : result (list value)) :
  insert_loop c n ds = (c', r) ->
  exists k,
    coll_docs c' = coll_docs c ++ with_ids n (firstn k ds)
    /\ match r with
       | Ok ids => k = List.length ds /\ List.length ids = List.length ds
       | Raised _ => (k < List.length ds)%nat
       end.
Proof.
  revert c c' n r. induction ds as [|d ds IH]; intros c c' n r; simpl.
  - intros [= <- <-]. exists 0%nat. simpl. now rewrite app_nil_r.
  - destruct (insert_one c n d) as [c1 [i|e]] eqn:E1.
    + destruct (insert_loop c1 (S n) ds) as [c2 r2] eqn:E2.
      intros [= <- <-].
      apply insert_one_cases in E1.
      destruct E1 as [(-> & _ & _) | (_ & e & [=] & _)].
      destruct (IH _ _ _ _ E2) as (k & Hk & Hr).
      exists (S k). simpl in *. rewrite Hk, <- app_assoc. split; [reflexivity|].
      destruct r2 as [ids|e]; simpl.
      * destruct Hr as [-> Hl]. now rewrite Hl.
      * lia.
    + intros [= <- <-]. exists 0%nat.
      apply insert_one_cases in E1.
      destruct E1 as [(_ & _ & [=]) | (-> & _)].
      simpl. rewrite app_nil_r. split; [reflexivity|lia].
Qed.

(** What a batch that went through leaves behind. *)
Lemma create_documents_ok (py_str : value -> string) (db : database)
      (name : string) (ds : list doc) (id_field : string) :
  let r := create_documents py_str db name ds id_field in
  run_printed r = [] ->
  ds <> []
  /\ coll_docs (db_coll (run_state r) name)
     = coll_docs (db_coll db name) ++ with_ids (db_next_oid db) ds
  /\ coll_unique (db_coll (run_state r) name) = coll_unique (db_coll db name).
Proof.
  cbv zeta. rewrite create_documents_unfold. unfold insert_many.
  destruct ds as [|d ds0] eqn:Eds; [discriminate|]. rewrite <- Eds.
  destruct (insert_loop (db_coll db name) (db_next_oid db) ds)
    as [c' res] eqn:E.
  destruct (@insert_loop_respects _ _ _ _ _ [] E) as [Hc' _].
  destruct (insert_loop_prefix _ _ _ E) as (k & Hk & Hr).
  destruct res as [ids|e]; simpl; [|discriminate].
  intros _. destruct Hr as [-> _]. rewrite firstn_all in Hk.
  split; [rewrite Eds; discriminate|].
  rewrite db_coll_fresh, Hc', db_coll_store_same. simpl. now split.
Qed.




(** X3.  Sending a batch a second time into a collection with a unique
    index that does not read [_id] stores nothing: the first document
    already meets itself under the index, the error is printed and the
    empty list returned. *)
Theorem create_documents_again_is_refused
        (py_str : value -> string) (db : database) (collection_name : string)
        (documents : list doc) (id_field : string) (ks : list string) :
  In ks (coll_unique (db_coll db collection_name)) ->
  off_id ks ->
  let r1 := create_documents py_str db collection_name documents id_field in
  run_printed r1 = [] ->
  let r2 := create_documents py_str (run_state r1) collection_name documents
                             id_field in
  run_value r2 = Ok [] /\ run_printed r2 <> []
  /\ db_coll (run_state r2) collection_name
     = db_coll (run_state r1) collection_name.
Proof.
  intros Hks Hoff. cbv zeta. intros Hp.
  destruct (create_documents_ok py_str db collection_name documents id_field Hp)
    as (Hne & Hdocs & Huniq).
  set (db1 := run_state (create_documents py_str db collection_name
                                          documents id_field)) in *.
  rewrite create_documents_unfold. unfold insert_many.
  destruct documents as [|d ds]; [contradiction|].
  simpl insert_loop. unfold insert_one.
  assert (Hraise : exists e,
             check_write (db_coll db1 collection_name)
                         (with_id (db_next_oid db1) d)
                         (coll_docs (db_coll db1 collection_name)) = Raised e).
  { apply check_write_collision with (ks := ks).
    - right. now rewrite Huniq.
    - rewrite Hdocs. simpl. rewrite collides_app. apply orb_true_iff. right.
      unfold collides. simpl.
      rewrite !index_key_with_id by exact Hoff.
      now rewrite key_eqb_refl'. }
  destruct Hraise as [e He]. rewrite He. simpl.
  split; [reflexivity|]. split; [discriminate|].
  now rewrite db_coll_fresh, db_store_coll.
Qed.

(** ** [get_next_id] *)

Lemma bson_compare_antisym (a b : value) :
  bson_compare b a = CompOpp (bson_compare a b).
Proof.
  destruct a, b; try reflexivity; unfold bson_compare; simpl.
  - now destruct b0, b.
  - symmetry. apply Qcompare_antisym.
  - apply String.compare_antisym.
  - apply Z.compare_antisym.
  - apply Nat.compare_antisym.
Qed.

Lemma goes_before_total (dir : direction) (a b : value) :
  goes_before dir a b = false -> goes_before dir b a = true.
Proof.
  unfold goes_before, is_le, is_ge, is_gt, is_lt.
  rewrite (bson_compare_antisym a b).
  destruct dir; destruct (bson_compare a b); simpl; congruence.
Qed.

Lemma get_path_plain (p : string) (d : doc) :
  split_path p = [p] -> get_path p d = doc_get p d.
Proof.
  unfold get_path. intros ->. simpl. now destruct (doc_get p d).
Qed.

Lemma number_at (p : string) (d : doc) :
  is_number_at p d = true -> exists q, get_path p d = Some (VNum q).
Proof.
  unfold is_number_at. destruct (get_path p d) as [[]|]; try discriminate. eauto.
Qed.

(** In a list sorted in descending order of a field that is a number in
    every document, the first document carries the greatest number. *)
Lemma sorted_numbers_head (f : string) (l : list doc) (d0 : doc) (m : Q) :
  Sorted (fun a b => goes_before Descending (field_or_null f a)
                                            (field_or_null f b) = true)
         (d0 :: l) ->
  field_or_null f d0 = VNum m ->
  (forall d, In d l -> exists q, field_or_null f d = VNum q) ->
  forall d q, In d l -> field_or_null f d = VNum q -> (q <= m)%Q.
Proof.
  revert d0 m. induction l as [|d1 l IH]; intros d0 m Hs H0 Hnum d q Hin Hq.
  - destruct Hin.
  - inversion Hs as [|? ? Hs' Hhd]; subst. inversion Hhd as [|? ? H01]; subst.
    destruct (Hnum d1 (or_introl eq_refl)) as [q1 Hq1].
    assert (Hle : (q1 <= m)%Q).
    { rewrite H0, Hq1 in H01. unfold goes_before, is_ge, is_lt in H01.
      unfold bson_compare in H01. simpl in H01.
      apply Qle_alt. rewrite <- Qcompare_antisym.
      now destruct (m ?= q1)%Q. }
    destruct Hin as [<- | Hin].
    + rewrite Hq1 in Hq. injection Hq as <-. exact Hle.
    + apply Qle_trans with (y := q1); [|exact Hle].
      apply (IH d1 q1 Hs' Hq1) with (d := d); auto.
      intros d' Hd'. apply Hnum. now right.
Qed.

(** The document [get_next_id] finds first carries the greatest id. *)
Lemma greatest_id_first (db : database) (collection_name id_field : string) :
  let docs := coll_docs (db_coll db collection_name) in
  split_path id_field = [id_field] ->
  docs <> [] ->
  forallb (is_number_at id_field) docs = true ->
  exists m,
    get_next_id_try db collection_name id_field = Ok (VNum (m + 1))
    /\ (exists d, In d docs /\ doc_get id_field d = Some (VNum m))
    /\ (forall d, In d docs ->
          exists q, doc_get id_field d = Some (VNum q)
                    /\ field_or_null id_field d = VNum q /\ (q <= m)%Q).
Proof.
  cbv zeta. intros Hplain Hne Hnum. rewrite forallb_forall in Hnum.
  set (docs := coll_docs (db_coll db collection_name)) in *.
  set (before := fun a b : doc =>
                   goes_before Descending (field_or_null id_field a)
                                          (field_or_null id_field b)).
  pose proof (stable_sort_perm before docs) as Hperm.
  pose proof (stable_sort_sorted before
                (fun a b => goes_before_total Descending _ _) docs) as Hsorted.
  assert (Hfield : forall d, In d docs ->
                     exists q, doc_get id_field d = Some (VNum q)
                               /\ field_or_null id_field d = VNum q).
  { intros d Hd. destruct (number_at _ _ (Hnum d Hd)) as [q Hq].
    exists q. unfold field_or_null. rewrite Hq.
    rewrite get_path_plain in Hq by exact Hplain. now split. }
  destruct (stable_sort before docs) as [|d0 rest] eqn:Esort.
  { apply Permutation_nil in Hperm. contradiction. }
  assert (Hd0 : In d0 docs)
    by (apply (Permutation_in _ Hperm); now left).
  destruct (Hfield d0 Hd0) as (m & Hget0 & Hf0).
  exists m. split; [|split; [now exists d0|]].
  - unfold get_next_id_try, find_one_sorted, sort_by. fold docs. fold before.
    rewrite Esort. simpl.
    assert (Ht : py_truthy d0 = true) by (destruct d0; [discriminate|reflexivity]).
    unfold doc_has, py_getitem. rewrite Ht, Hget0. reflexivity.
  - intros d Hd. destruct (Hfield d Hd) as (q & Hg & Hf). exists q.
    split; [exact Hg|]. split; [exact Hf|].
    apply Permutation_sym in Hperm. apply (Permutation_in _ Hperm) in Hd.
    destruct Hd as [<- | Hd].
    + rewrite Hf0 in Hf. injection Hf as <-. apply Qle_refl.
    + apply (@sorted_numbers_head id_field rest d0 m Hsorted Hf0) with (d := d);
        auto.
      intros d' Hd'. destruct (Hfield d') as (q' & _ & Hq').
      * apply (Permutation_in _ (Permutation_sym Hperm)). now right.
      * now exists q'.
Qed.

(** A document whose id is above every id of a list meets none of its
    documents under the index on the id. *)
Lemma above_all_no_collision (id_field : string) (docs : list doc) (m : Q)
      (d' : doc) :
  (forall d, In d docs ->
     exists q, field_or_null id_field d = VNum q /\ (q <= m)%Q) ->
  field_or_null id_field d' = VNum (m + 1) ->
  collides [id_field] d' docs = false.
Proof.
  intros Hmax Hd'. unfold collides. apply existsb_none. intros d Hd.
  destruct (Hmax d Hd) as (q & Hf & Hle).
  unfold index_key. simpl. rewrite Hd', Hf. simpl. rewrite andb_true_r.
  destruct (Qeq_bool (m + 1) q) eqn:E; [|reflexivity].
  apply Qeq_bool_eq in E. rewrite <- E in Hle.
  exfalso. apply (Qlt_irrefl m). apply Qlt_le_trans with (y := (m + 1)%Q).
  - rewrite <- (Qplus_0_r m) at 1. apply Qplus_lt_r. reflexivity.
  - exact Hle.
Qed.

Lemma small_int_is_number (p : string) (d : doc) :
  is_small_int_at p d = true -> is_number_at p d = true.
Proof.
  unfold is_small_int_at, is_number_at.
  destruct (get_path p d) as [[]|]; try discriminate. reflexivity.
Qed.

Lemma small_ints_are_numbers (p : string) (ds : list doc) :
  forallb (is_small_int_at p) ds = true -> forallb (is_number_at p) ds = true.
Proof.
  rewrite !forallb_forall. intros H d Hd. apply small_int_is_number. now apply H.
Qed.

(** X4.  On a collection that is not empty and in which the id field, a
    plain field name, is in every document a whole number below 2^53 in
    absolute value (where Python's [+ 1] is exact on an [int] and on a
    [float] alike), [get_next_id] returns the greatest id plus one: a
    number above every id in the collection, so that a document carrying
    it meets no other under a unique index on that field. *)
Theorem get_next_id_is_fresh (db : database) (collection_name id_field : string) :
  let docs := coll_docs (db_coll db collection_name) in
  split_path id_field = [id_field] ->
  docs <> [] ->
  forallb (is_small_int_at id_field) docs = true ->
  exists m,
    run_value (get_next_id db collection_name id_field) = Ok (VNum (m + 1))
    /\ run_printed (get_next_id db collection_name id_field) = []
    /\ (exists d, In d docs /\ doc_get id_field d = Some (VNum m))
    /\ (forall d, In d docs ->
          exists q, doc_get id_field d = Some (VNum q) /\ (q <= m)%Q)
    /\ (forall d', field_or_null id_field d' = VNum (m + 1) ->
                   collides [id_field] d' docs = false).
Proof.
  cbv zeta. intros Hplain Hne Hsmall.
  pose proof (small_ints_are_numbers _ _ Hsmall) as Hnum.
  destruct (@greatest_id_first db collection_name id_field Hplain Hne Hnum)
    as (m & Htry & Hex & Hmax).
  exists m.
  unfold get_next_id. rewrite (try_except_ok _ _ _ _ (a := VNum (m + 1)))
    by exact Htry.
  simpl. split; [exact Htry|]. split; [reflexivity|].
  split; [exact Hex|]. split.
  - intros d Hd. destruct (Hmax d Hd) as (q & Hg & _ & Hle). now exists q.
  - intros d' Hd'. apply above_all_no_collision with (m := m); [|exact Hd'].
    intros d Hd. destruct (Hmax d Hd) as (q & _ & Hf & Hle). now exists q.
Qed.

(** ** [update_document] *)

Lemma apply_update_keeps_id (ops : list update_op) (d d' : doc) :
  apply_update ops d = Ok d' ->
  value_eqb (field_or_null "_id" d) (field_or_null "_id" d') = true.
Proof.
  unfold apply_update. destruct (apply_ops ops d) as [x|e]; simpl; [|discriminate].
  destruct (value_eqb (field_or_null "_id" d) (field_or_null "_id" x)) eqn:E;
    [|discriminate].
  now intros [= <-].
Qed.

(** X5.  Whatever the filter and the update, and whether the update ends
    well or not, [update_document] keeps the number of documents, the
    [_id] of each, every document the filter does not match, the validator
    and the indexes of the collection, and every other collection. *)
Theorem update_document_frame
        (db : database) (collection_name : string)
        (filter_query update_data : doc) :
  let r := update_document db collection_name filter_query update_data in
  let c := db_coll db collection_name in
  let c' := db_coll (run_state r) collection_name in
  (forall other, other <> collection_name ->
                 db_coll (run_state r) other = db_coll db other)
  /\ coll_validator c' = coll_validator c
  /\ coll_unique c' = coll_unique c
  /\ List.length (coll_docs c') = List.length (coll_docs c)
  /\ Forall2 (fun d d' =>
                value_eqb (field_or_null "_id" d) (field_or_null "_id" d') = true
                /\ (forall cf, compile_filter filter_query = Ok cf ->
                               matches cf d = false -> d' = d))
             (coll_docs c) (coll_docs c').
Proof.
  cbv zeta. rewrite update_document_unfold.
  destruct (update_many (db_coll db collection_name) filter_query update_data)
    as [c' res] eqn:E.
  assert (Hstate : run_state
                     (match res with
                      | Ok x => Run (db_store db collection_name c') []
                                    (Ok (modified_count x))
                      | Raised e =>
                          Run (db_store db collection_name c')
                              [("Error updating document: " ++ exn_str e)%string]
                              (Ok 0)
                      end) = db_store db collection_name c')
    by now destruct res.
  rewrite Hstate. clear Hstate.
  assert (Hshape : Forall2
                     (fun d d' =>
                        value_eqb (field_or_null "_id" d)
                                  (field_or_null "_id" d') = true
                        /\ (forall cf, compile_filter filter_query = Ok cf ->
                                       matches cf d = false -> d' = d))
                     (coll_docs (db_coll db collection_name)) (coll_docs c')
                   /\ c' = set_docs (db_coll db collection_name) (coll_docs c')).
  { apply update_many_cases in E.
    destruct E as [(e & _ & -> & _) | (ops & cf & ds & Hu & Hq & Hl & ->)].
    - split; [|now rewrite set_docs_same].
      induction (coll_docs (db_coll db collection_name)); constructor; auto.
      split; [apply value_eqb_refl|auto].
    - split; [|reflexivity]. simpl.
      apply update_loop_shape in Hl.
      induction Hl as [|d d' l l' H _ IH]; constructor; [|exact IH].
      destruct H as [-> | [Hm Hf]].
      + split; [apply value_eqb_refl|auto].
      + split; [now apply apply_update_keeps_id with (ops := ops)|].
        intros cf' Hq'. rewrite Hq in Hq'. injection Hq' as <-. congruence. }
  destruct Hshape as [Hshape Hc'].
  rewrite Hc', db_coll_store_same. simpl.
  split; [|split; [reflexivity|split; [reflexivity|split]]].
  - intros other Ho. apply db_coll_store_other. congruence.
  - symmetry. eapply Forall2_length. exact Hshape.
  - exact Hshape.
Qed.

Lemma changed_at_most_matched (p : doc -> bool) (f : doc -> result doc)
      (l : list doc) :
  (changed l (map (updated p f) l) <= List.length (filter p l))%nat.
Proof.
  induction l as [|d l IH]; simpl; [lia|].
  unfold updated at 1. destruct (p d); simpl.
  - destruct (f d) as [d'|e].
    + destruct (doc_eqb d d') eqn:E.
      * rewrite doc_eqb_refl. lia.
      * rewrite E. lia.
    + rewrite doc_eqb_refl. lia.
  - rewrite doc_eqb_refl. lia.
Qed.

(** X6.  When [update_document] prints nothing, the filter and the update
    were well formed, every matching document took the update (or was left
    alone because the update would not change it), and the number
    returned is the number of documents that changed, which is never more
    than the number of documents the filter matches. *)
Theorem update_document_success
        (db : database) (collection_name : string)
        (filter_query update_data : doc) :
  let r := update_document db collection_name filter_query update_data in
  let old := coll_docs (db_coll db collection_name) in
  let new := coll_docs (db_coll (run_state r) collection_name) in
  run_printed r = [] ->
  exists cf ops,
    compile_filter filter_query = Ok cf
    /\ compile_update update_data = Ok ops
    /\ new = map (updated (matches cf) (apply_update ops)) old
    /\ (forall d, In d old -> matches cf d = true ->
                  exists d', apply_update ops d = Ok d')
    /\ run_value r = Ok (changed old new)
    /\ (changed old new <= List.length (filter (matches cf) old))%nat.
Proof.
  cbv zeta. rewrite update_document_unfold.
  destruct (update_many (db_coll db collection_name) filter_query update_data)
    as [c' [res|e]] eqn:E; simpl; [|discriminate].
  intros _. apply update_many_cases in E.
  destruct E as [(e & [=] & _) | (ops & cf & ds & Hu & Hq & Hl & ->)].
  exists cf, ops. rewrite db_coll_store_same. simpl.
  destruct (update_loop_ok _ _ _ _ _ Hl) as (Hout & Hall & Hm & _).
  split; [exact Hq|]. split; [exact Hu|]. split; [exact Hout|].
  split; [exact Hall|]. split; [now rewrite Hm|].
  rewrite Hout. apply changed_at_most_matched.
Qed.

(** ** Validation *)

Lemma insert_loop_valid (ds : list doc) (c c' : collection) (n : nat)
      (r : result (list value)) :
  insert_loop c n ds = (c', r) ->
  Forall (fun d => coll_validator c d = true) (coll_docs c) ->
  Forall (fun d => coll_validator c d = true) (coll_docs c').
Proof.
  revert c c' n r. induction ds as [|d ds IH]; intros c c' n r; simpl.
  - now intros [= <- _].
  - destruct (insert_one c n d) as [c1 [i|e]] eqn:E1.
    + destruct (insert_loop c1 (S n) ds) as [c2 r2] eqn:E2.
      intros [= <- _] Hv.
      apply insert_one_cases in E1.
      destruct E1 as [(-> & Hc & _) | (_ & e & [=] & _)].
      apply (IH _ _ _ _ E2). simpl.
      apply Forall_app. split; [exact Hv|]. constructor; [|constructor].
      now apply (check_write_ok _ _ _ [] Hc).
    + intros [= <- _] Hv.
      apply insert_one_cases in E1.
      destruct E1 as [(_ & _ & [=]) | (-> & _)]. exact Hv.
Qed.

Lemma update_loop_valid (c : collection) (p : doc -> bool)
      (f : doc -> result doc) (rest before out : list doc)
      (r : result update_result) :
  update_loop c p f before rest = (out, r) ->
  Forall (fun d => coll_validator c d = true) rest ->
  Forall (fun d => coll_validator c d = true) out.
Proof.
  revert before out r. induction rest as [|d rest IH]; intros before out r; simpl.
  - now intros [= <- _].
  - intros H Hv. inversion Hv as [|? ? Hd Hrest]; subst. revert H.
    destruct (p d).
    + destruct (f d) as [d'|e]; [|now intros [= <- _]].
      destruct (doc_eqb d d').
      * destruct (update_loop c p f (before ++ [d]) rest) as [out' r'] eqn:E.
        intros [= <- _]. constructor; [exact Hd|]. eapply IH; eassumption.
      * destruct (check_write c d' (before ++ rest)) as [[]|e] eqn:Hc;
          [|now intros [= <- _]].
        destruct (update_loop c p f (before ++ [d']) rest) as [out' r'] eqn:E.
        intros [= <- _]. constructor; [|eapply IH; eassumption].
        now apply (check_write_ok _ _ _ [] Hc).
    + destruct (update_loop c p f (before ++ [d]) rest) as [out' r'] eqn:E.
      intros [= <- _]. constructor; [exact Hd|]. eapply IH; eassumption.
Qed.

Lemma store_valid (db : database) (name : string) (ds : list doc) :
  all_valid db ->
  Forall (fun d => coll_validator (db_coll db name) d = true) ds ->
  all_valid (db_store db name (set_docs (db_coll db name) ds)).
Proof.
  intros Hv Hds other d.
  destruct (string_dec name other) as [<-|Hne].
  - rewrite db_coll_store_same. simpl. rewrite Forall_forall in Hds. apply Hds.
  - rewrite db_coll_store_other by exact Hne. apply Hv.
Qed.

(** X7.  The writing helpers never store a document that fails validation:
    if every document of the database passes the validator of its
    collection, the same holds after any sequence of [create_document],
    [create_documents], [update_document] and [delete_document] calls,
    whether they succeed or not. *)
Theorem helpers_store_only_valid_documents
        (py_str : value -> string) (db : database) (calls : list helper_call) :
  all_valid db -> all_valid (run_calls py_str db calls).
Proof.
  revert db. induction calls as [|call calls IH]; intros db Hv; [exact Hv|].
  simpl. apply IH. clear IH.
  assert (Hall : forall name,
             Forall (fun d => coll_validator (db_coll db name) d = true)
                    (coll_docs (db_coll db name)))
    by (intros name; apply Forall_forall; intros d; apply Hv).
  assert (Hupd : forall name q u c' res,
             update_many (db_coll db name) q u = (c', res) ->
             all_valid (db_store db name c')).
  { intros name q u c' res E. apply update_many_cases in E.
    destruct E as [(e & _ & -> & _) | (ops & cf & ds & _ & _ & Hl & ->)].
    - now rewrite db_store_coll.
    - apply store_valid; [exact Hv|].
      eapply update_loop_valid; [exact Hl|apply Hall]. }
  destruct call as [name d | name ds f | name q u | now name q]; simpl.
  - rewrite create_document_unfold.
    destruct (insert_one (db_coll db name) (db_next_oid db) d) as [c' res] eqn:E.
    assert (H : all_valid (db_store db name c')).
    { apply insert_one_cases in E.
      destruct E as [(-> & Hc & _) | (-> & _)].
      - apply store_valid; [exact Hv|]. apply Forall_app. split; [apply Hall|].
        constructor; [|constructor]. now apply (check_write_ok _ _ _ [] Hc).
      - now rewrite db_store_coll. }
    now destruct res.
  - rewrite create_documents_unfold.
    destruct (insert_many (db_coll db name) (db_next_oid db) ds) as [c' res] eqn:E.
    assert (H : all_valid (db_store db name c')).
    { destruct (@insert_many_respects _ _ _ _ _ [] E) as [Hc' _].
      rewrite Hc'. apply store_valid; [exact Hv|].
      unfold insert_many in E. destruct ds as [|d0 ds0].
      - injection E as <- _. apply Hall.
      - eapply insert_loop_valid; [exact E|apply Hall]. }
    now destruct res.
  - rewrite update_document_unfold.
    destruct (update_many (db_coll db name) q u) as [c' res] eqn:E.
    pose proof (Hupd _ _ _ _ _ E). now destruct res.
  - rewrite delete_document_unfold.
    destruct (update_many (db_coll db name) q _) as [c' res] eqn:E.
    pose proof (Hupd _ _ _ _ _ E). now destruct res.
Qed.

(** ** [delete_document] once more *)

Lemma value_eqb_date (v : value) (t : Z) :
  value_eqb v (VDate t) = true -> v = VDate t.
Proof.
  destruct v; simpl; try discriminate. intros H. apply Z.eqb_eq in H. now subst.
Qed.

Lemma soft_deleted_again (now : Z) (d : doc) :
  let soft := fun d => doc_set "updatedAt" (VDate now)
                               (doc_set "isActive" (VBool false) d) in
  soft (soft d) = soft d.
Proof.
  cbv beta zeta.
  rewrite (@assoc_set_unchanged value "isActive" (VBool false)
             (doc_set "updatedAt" (VDate now)
                      (doc_set "isActive" (VBool false) d))).
  - apply assoc_set_set.
  - rewrite assoc_get_set_other by discriminate. apply assoc_get_set_same.
Qed.

Lemma soft_deleted_inactive (now : Z) (d : doc) :
  let d' := doc_set "updatedAt" (VDate now)
                    (doc_set "isActive" (VBool false) d) in
  doc_get "isActive" (if doc_eqb d d' then d else d') = Some (VBool false).
Proof.
  cbv zeta.
  set (d' := doc_set "updatedAt" _ _).
  assert (Hd' : doc_get "isActive" d' = Some (VBool false)).
  { unfold d'. rewrite assoc_get_set_other by discriminate.
    apply assoc_get_set_same. }
  destruct (doc_eqb d d') eqn:Heq; [|exact Hd'].
  pose proof (doc_eqb_get d d' "isActive" Heq) as Hg. rewrite Hd' in Hg.
  destruct (doc_get "isActive" d) as [v|]; [|contradiction].
  f_equal. now apply value_eqb_bool.
Qed.

Lemma changed_all_matched (p : doc -> bool) (f : doc -> result doc)
      (l : list doc) :
  (forall d, In d l -> p d = true ->
             exists d', f d = Ok d' /\ doc_eqb d d' = false) ->
  changed l (map (updated p f) l) = List.length (filter p l).
Proof.
  induction l as [|d l IH]; intros H; simpl; [reflexivity|].
  rewrite IH by (intros d0 Hd0; apply H; now right).
  unfold updated at 1. destruct (p d) eqn:Hp; simpl.
  - destruct (H d (or_introl eq_refl) Hp) as (d' & -> & Hne).
    now rewrite Hne, Hne.
  - now rewrite doc_eqb_refl.
Qed.

(** X8.  A soft delete that goes through counts every document the query
    matches whose [updatedAt] is not already the time of the call, the
    documents that were inactive before included: with a clock that has
    moved, the number returned is the number of matching documents, not
    the number of documents that became inactive. *)
Theorem delete_document_counts_matches
        (now : Z) (db : database) (collection_name : string)
        (document_query : doc) (cf : list (string * list cond)) :
  let r := delete_document now db collection_name document_query in
  let old := coll_docs (db_coll db collection_name) in
  compile_filter document_query = Ok cf ->
  run_printed r = [] ->
  (forall d, In d old -> matches cf d = true ->
             doc_get "updatedAt" d <> Some (VDate now)) ->
  run_value r = Ok (List.length (filter (matches cf) old)).
Proof.
  cbv zeta. intros Hq Hp Hclock.
  destruct (delete_document_cases now db collection_name document_query)
    as [(e & Hq' & _) | (cf' & ds & res & Hq' & Hl & Hs & Hres)];
    [congruence|].
  rewrite Hq in Hq'. injection Hq' as <-.
  destruct res as [x|e]; [|destruct Hres; contradiction].
  destruct Hres as [-> _].
  destruct (update_loop_ok _ _ _ _ _ Hl) as (-> & _ & -> & _).
  f_equal. apply changed_all_matched.
  intros d Hd Hm. rewrite soft_delete_applies. eexists. split; [reflexivity|].
  set (d' := doc_set "updatedAt" _ _).
  destruct (doc_eqb d d') eqn:Heq; [|reflexivity].
  exfalso. apply (Hclock d Hd Hm).
  pose proof (doc_eqb_get d d' "updatedAt" Heq) as Hg.
  unfold d' in Hg. rewrite assoc_get_set_same in Hg.
  destruct (doc_get "updatedAt" d) as [v|]; [|contradiction].
  f_equal. now apply value_eqb_date.
Qed.

(** X9.  A soft delete repeated at the same reading of the clock, after
    one that went through, changes nothing and returns 0. *)
Theorem delete_document_twice
        (now : Z) (db : database) (collection_name : string)
        (document_query : doc) :
  let r1 := delete_document now db collection_name document_query in
  run_printed r1 = [] ->
  let r2 := delete_document now (run_state r1) collection_name document_query in
  run_value r2 = Ok 0 /\ run_printed r2 = [] /\ run_state r2 = run_state r1.
Proof.
  cbv zeta. intros Hp.
  destruct (delete_document_cases now db collection_name document_query)
    as [(e & _ & _ & _ & Hne) | (cf & ds & res & Hq & Hl & Hs & Hres)];
    [contradiction|].
  destruct res as [x|e]; [|destruct Hres; contradiction].
  destruct (update_loop_ok _ _ _ _ _ Hl) as (Hout & _).
  set (db1 := run_state (delete_document now db collection_name document_query))
    in *.
  assert (Hdocs : coll_docs (db_coll db1 collection_name) = ds)
    by (rewrite Hs, db_coll_store_same; reflexivity).
  rewrite delete_document_unfold. unfold update_many.
  rewrite soft_delete_compiles, Hq.
  rewrite update_loop_noop.
  - rewrite set_docs_same. simpl. rewrite db_store_coll. auto.
  - rewrite Hdocs, Hout. intros d Hd Hm.
    rewrite soft_delete_applies. eexists. split; [reflexivity|].
    apply in_map_iff in Hd. destruct Hd as (d0 & <- & _).
    unfold updated in *. destruct (matches cf d0) eqn:E; [|congruence].
    rewrite soft_delete_applies in *.
    set (d' := doc_set "updatedAt" (VDate now)
                       (doc_set "isActive" (VBool false) d0)) in *.
    destruct (doc_eqb d0 d') eqn:Heq; [exact Heq|].
    unfold d'. pose proof (soft_deleted_again now d0) as Hagain.
    cbv beta zeta in Hagain. rewrite Hagain. apply doc_eqb_refl.
Qed.

(** X10.  After a soft delete that went through, a read that asks for
    [isActive] true returns none of the documents the delete matched:
    whatever it returns was in the collection before, untouched, and did
    not match the query of the delete. *)
Theorem soft_deleted_are_not_read_as_active
        (now : Z) (db : database) (collection_name : string)
        (document_query filter_query : doc)
        (cf cf' : list (string * list cond)) :
  let r := delete_document now db collection_name document_query in
  compile_filter document_query = Ok cf ->
  compile_filter filter_query = Ok cf' ->
  In ("isActive", [CEq (VBool true)]) cf' ->
  run_printed r = [] ->
  exists found,
    run_value (read_document (run_state r) collection_name filter_query)
    = Ok found
    /\ forall d, In d found ->
                 In d (coll_docs (db_coll db collection_name))
                 /\ matches cf d = false.
Proof.
  cbv zeta. intros Hq Hq' Hin Hp.
  destruct (delete_document_cases now db collection_name document_query)
    as [(e & He & _) | (cf0 & ds & res & Hq0 & Hl & Hs & Hres)];
    [congruence|].
  rewrite Hq in Hq0. injection Hq0 as <-.
  destruct res as [x|e]; [|destruct Hres; contradiction].
  destruct (update_loop_ok _ _ _ _ _ Hl) as (Hout & _).
  unfold read_document, try_except, find. rewrite Hq'. simpl.
  eexists. split; [reflexivity|].
  intros d Hd. rewrite Hs, db_coll_store_same in Hd. simpl in Hd.
  apply filter_In in Hd. destruct Hd as [Hd Hm].
  rewrite Hout in Hd. apply in_map_iff in Hd. destruct Hd as (d0 & <- & Hd0).
  unfold updated in *. destruct (matches cf d0) eqn:E; [|now split].
  exfalso. rewrite soft_delete_applies in Hm.
  pose proof (soft_deleted_inactive now d0) as Hia. cbv zeta in Hia.
  unfold matches in Hm. rewrite forallb_forall in Hm.
  specialize (Hm _ Hin). cbn [fst snd forallb] in Hm.
  rewrite (@get_path_plain "isActive" _ eq_refl) in Hm.
  assert (Hm' : holds (CEq (VBool true)) (Some (VBool false)) && true = true)
    by (rewrite <- Hia; exact Hm).
  discriminate.
Qed.

(** ** A schema file that is not there *)

(** X11.  When the schema file is missing, [load_json_file] prints its
    message and hands [None] on; the server refuses the null schema, so
    [create_collection_with_schema] prints the error, returns [False] and
    creates nothing, and the script goes on.  The first [create_index] on
    the name then creates the collection without any validator: every
    document passes. *)
Theorem missing_schema_file_disables_validation
        (json_loads : string -> option value)
        (jsonSchema : value -> option (doc -> bool)) (fs : filesystem)
        (db : database) (collection_name file_path : string)
        (ks : list string) :
  fs file_path = NoEntry ->
  jsonSchema VNull = None ->
  db_exists db collection_name = false ->
  let r := create_from_file json_loads jsonSchema fs db collection_name
                            file_path in
  run_value r = Ok false
  /\ run_printed r
     = ["File not found";
        ("Error creating collection '" ++ collection_name
         ++ "': $jsonSchema must be an object")%string]
  /\ run_state r = db
  /\ exists db',
      db_create_index (run_state r) collection_name ks true = Ok db'
      /\ db_exists db' collection_name = true
      /\ coll_unique (db_coll db' collection_name) = [ks]
      /\ forall d, coll_validator (db_coll db' collection_name) d = true.
Proof.
  intros Hfs Hschema Hex. cbv zeta.
  unfold create_from_file, load_json_file, try_except, open_read.
  rewrite Hfs. simpl.
  unfold create_collection_with_schema, try_except, create_collection.
  rewrite Hex, Hschema. simpl.
  split; [reflexivity|]. split; [reflexivity|]. split; [reflexivity|].
  unfold db_create_index, create_index.
  assert (Hc : db_coll db collection_name = empty_collection).
  { unfold db_coll. unfold db_exists in Hex.
    now destruct (assoc_get collection_name (db_colls db)). }
  rewrite Hc. simpl. eexists. split; [reflexivity|].
  rewrite db_coll_put_same. simpl. split; [|now split].
  unfold db_exists, db_put. simpl. now rewrite assoc_get_set_same.
Qed.

(** ** The enrollment count pipeline *)







(** ** The index creation section *)

Lemma key_list_eqb_refl (ks : list string) : key_list_eqb ks ks = true.
Proof.
  induction ks as [|k ks IH]; simpl; [reflexivity|].
  now rewrite String.eqb_refl, IH.
Qed.

Lemma db_exists_put (db : database) (name other : string) (c : collection) :
  db_exists (db_put db name c) other
  = if String.eqb name other then true else db_exists db other.
Proof.
  unfold db_exists, db_put. simpl.
  destruct (String.eqb name other) eqn:E.
  - apply String.eqb_eq in E. subst. now rewrite assoc_get_set_same.
  - apply String.eqb_neq in E. now rewrite assoc_get_set_other.
Qed.

(** A unique index is built exactly when no two documents share its key,
    and building it touches no document and no validator. *)
Lemma db_create_index_unique (db : database) (name : string) (ks : list string) :
  (has_duplicates ks (coll_docs (db_coll db name)) = true
   /\ exists e, db_create_index db name ks true = Raised e)
  \/ (has_duplicates ks (coll_docs (db_coll db name)) = false
      /\ exists db',
          db_create_index db name ks true = Ok db'
          /\ db_next_oid db' = db_next_oid db
          /\ (forall other,
                 coll_docs (db_coll db' other) = coll_docs (db_coll db other)
                 /\ coll_validator (db_coll db' other)
                    = coll_validator (db_coll db other))).
Proof.
  unfold db_create_index, create_index.
  destruct (has_duplicates ks (coll_docs (db_coll db name))) eqn:E.
  - left. split; [reflexivity|]. eexists. reflexivity.
  - right. split; [reflexivity|].
    destruct (existsb (key_list_eqb ks) (coll_unique (db_coll db name)));
      simpl; eexists; (split; [reflexivity|]); (split; [reflexivity|]);
      intros other; (destruct (string_dec name other) as [<-|Hne];
                     [rewrite db_coll_put_same
                     |rewrite db_coll_put_other by exact Hne]); now split.
Qed.

Lemma create_indexes_iff (ixs : list (string * list string)) (db : database) :
  ((exists db', create_indexes ixs db = Ok db')
   <-> (forall ix, In ix ixs ->
          has_duplicates (snd ix) (coll_docs (db_coll db (fst ix))) = false))
  /\ (forall db', create_indexes ixs db = Ok db' ->
        db_next_oid db' = db_next_oid db
        /\ forall name,
            coll_docs (db_coll db' name) = coll_docs (db_coll db name)
            /\ coll_validator (db_coll db' name)
               = coll_validator (db_coll db name)).
Proof.
  revert db. induction ixs as [|[name ks] ixs IH]; intros db.
  - simpl. split; [split|].
    + intros _ ix [].
    + intros _. now exists db.
    + intros db' [= <-]. now split.
  - simpl create_indexes.
    destruct (db_create_index_unique db name ks)
      as [(Hdup & e & He) | (Hdup & db1 & H1 & Hoid & Hsame)].
    + rewrite He. simpl. split; [split|].
      * intros (db' & [=]).
      * intros H. specialize (H (name, ks) (or_introl eq_refl)). simpl in H.
        congruence.
      * intros db' [=].
    + rewrite H1. simpl. destruct (IH db1) as [Hiff Hkeep].
      split; [split|].
      * intros Hex ix [<- | Hin]; [exact Hdup|].
        rewrite <- (proj1 (Hsame (fst ix))). now apply (proj1 Hiff Hex).
      * intros H. apply (proj2 Hiff). intros ix Hin.
        rewrite (proj1 (Hsame (fst ix))). apply H. now right.
      * intros db' Hdb'. destruct (Hkeep db' Hdb') as [Hoid' Hsame'].
        split; [congruence|].
        intros other. destruct (Hsame' other) as [-> ->]. apply Hsame.
Qed.

Lemma shared_key_is_duplicate (ks : list string) (a b c : list doc)
      (d1 d2 : doc) :
  key_eqb (index_key ks d1) (index_key ks d2) = true ->
  has_duplicates ks (a ++ d1 :: b ++ d2 :: c) = true.
Proof.
  intros H. rewrite has_duplicates_insert. apply orb_true_iff. right.
  unfold collides. apply existsb_in with (x := d2); [|exact H].
  apply in_or_app. right. apply in_or_app. right. now left.
Qed.

(** X13.  The index creation section raises, outside any [try], whenever
    two documents already stored share the key of one of the six unique
    indexes, a missing field counting as null.  When it ends well, no two
    documents shared such a key, and every document, every validator and
    the [ObjectId] counter are as they were. *)
Theorem index_section_raises_on_shared_key (db : database) :
  (forall name ks a b c d1 d2,
      In (name, ks) unique_indexes ->
      coll_docs (db_coll db name) = a ++ d1 :: b ++ d2 :: c ->
      key_eqb (index_key ks d1) (index_key ks d2) = true ->
      exists e, create_unique_indexes db = Raised e)
  /\ (forall db', create_unique_indexes db = Ok db' ->
        (forall name ks, In (name, ks) unique_indexes ->
           ForallOrdPairs
             (fun x y => key_eqb (index_key ks x) (index_key ks y) = false)
             (coll_docs (db_coll db name)))
        /\ db_next_oid db' = db_next_oid db
        /\ forall name,
            coll_docs (db_coll db' name) = coll_docs (db_coll db name)
            /\ coll_validator (db_coll db' name)
               = coll_validator (db_coll db name)).
Proof.
  unfold create_unique_indexes.
  destruct (create_indexes_iff unique_indexes db) as [Hiff Hkeep].
  split.
  - intros name ks a b c d1 d2 Hin Hdocs Hkey.
    destruct (create_indexes unique_indexes db) as [db'|e] eqn:E;
      [|now exists e].
    exfalso.
    assert (Hno : has_duplicates ks (coll_docs (db_coll db name)) = false)
      by (apply (proj1 Hiff (ex_intro _ db' eq_refl) (name, ks) Hin)).
    rewrite Hdocs, shared_key_is_duplicate in Hno by exact Hkey.
    discriminate Hno.
  - intros db' Hdb'. split; [|now apply Hkeep].
    intros name ks Hin. apply has_duplicates_false_iff.
    apply (proj1 Hiff (ex_intro _ db' Hdb') (name, ks) Hin).
Qed.

Lemma create_indexes_exist (ixs : list (string * list string))
      (db db' : database) :
  create_indexes ixs db = Ok db' ->
  (forall name, db_exists db name = true -> db_exists db' name = true)
  /\ (forall ix, In ix ixs -> db_exists db' (fst ix) = true).
Proof.
  revert db. induction ixs as [|[name ks] ixs IH]; intros db; simpl.
  - intros [= <-]. split; [auto|intros ix []].
  - unfold db_create_index at 1.
    destruct (create_index (db_coll db name) ks true) as [c|e]; simpl;
      [|discriminate].
    intros H. destruct (IH _ H) as [Hkeep Hin].
    assert (Hput : forall other, (other = name \/ db_exists db other = true) ->
                                 db_exists (db_put db name c) other = true).
    { intros other Ho. rewrite db_exists_put.
      destruct (String.eqb name other) eqn:E; [reflexivity|].
      apply String.eqb_neq in E. destruct Ho as [-> | Ho]; [congruence|exact Ho]. }
    split.
    + intros other Ho. apply Hkeep, Hput. now right.
    + intros ix [<- | Hix]; [|now apply Hin].
      apply Hkeep, Hput. now left.
Qed.

(** Indexes that are in place and respected are left as they are. *)
Lemma create_indexes_in_place (ixs : list (string * list string))
      (db : database) :
  (forall ix, In ix ixs ->
     index_respected db ix /\ db_exists db (fst ix) = true) ->
  create_indexes ixs db = Ok db.
Proof.
  induction ixs as [|[name ks] ixs IH]; intros H; simpl; [reflexivity|].
  destruct (H (name, ks) (or_introl eq_refl)) as [[Hin Hdup] Hex].
  simpl in Hin, Hdup, Hex.
  unfold db_create_index, create_index. rewrite Hdup.
  rewrite (existsb_in (key_list_eqb ks) _ ks Hin (key_list_eqb_refl ks)).
  simpl. rewrite db_put_same by exact Hex.
  apply IH. intros ix Hix. apply H. now right.
Qed.

Lemma db_exists_store (db : database) (name other : string) (c : collection) :
  db_exists db other = true -> db_exists (db_store db name c) other = true.
Proof.
  intros H. unfold db_store.
  assert (Hput : db_exists (db_put db name c) other = true)
    by (rewrite db_exists_put, H; now destruct (String.eqb name other)).
  destruct (db_exists db name); [exact Hput|].
  destruct (coll_docs c); [exact H|exact Hput].
Qed.

(** No helper drops a collection. *)
Lemma run_call_exists (py_str : value -> string) (db : database)
      (call : helper_call) (name : string) :
  db_exists db name = true -> db_exists (run_call py_str db call) name = true.
Proof.
  intros H.
  destruct call as [n d | n ds f | n q u | now n q]; simpl.
  - rewrite create_document_unfold.
    destruct (insert_one (db_coll db n) (db_next_oid db) d) as [c' [i|e]];
      simpl; now apply (db_exists_store db n name c').
  - rewrite create_documents_unfold.
    destruct (insert_many (db_coll db n) (db_next_oid db) ds) as [c' [i|e]];
      simpl; now apply (db_exists_store db n name c').
  - rewrite update_document_unfold.
    destruct (update_many (db_coll db n) q u) as [c' [r|e]];
      simpl; now apply db_exists_store.
  - rewrite delete_document_unfold.
    destruct (update_many (db_coll db n) q _) as [c' [r|e]];
      simpl; now apply db_exists_store.
Qed.

Lemma run_calls_exist (py_str : value -> string) (calls : list helper_call)
      (db : database) (name : string) :
  db_exists db name = true -> db_exists (run_calls py_str db calls) name = true.
Proof.
  revert db. induction calls as [|c calls IH]; intros db H; [exact H|].
  simpl. apply IH. now apply run_call_exists.
Qed.

(** X14.  Running the index creation section again, on the database as
    any sequence of helper calls has left it, raises nothing and changes
    nothing: the six indexes are still in place and still respected. *)
Theorem index_section_again_changes_nothing
        (py_str : value -> string) (db0 db1 : database)
        (calls : list helper_call) :
  create_unique_indexes db0 = Ok db1 ->
  create_unique_indexes (run_calls py_str db1 calls)
  = Ok (run_calls py_str db1 calls).
Proof.
  unfold create_unique_indexes. intros H.
  destruct (create_indexes_respects _ _ H) as [Hresp _].
  destruct (create_indexes_exist _ _ H) as [_ Hex].
  rewrite Forall_forall in Hresp.
  apply create_indexes_in_place. intros ix Hix. split.
  - apply run_calls_respects. now apply Hresp.
  - apply run_calls_exist. now apply Hex.
Qed.

(** ** The queries of the script *)

Lemma number_in_range (lo hi q : Q) :
  is_ge (q ?= lo)%Q && is_le (q ?= hi)%Q = true <-> (lo <= q)%Q /\ (q <= hi)%Q.
Proof.
  rewrite andb_true_iff. unfold is_ge, is_le, is_lt, is_gt.
  rewrite (Qle_alt q hi).
  assert (Hge : (lo <= q)%Q <-> (q ?= lo)%Q <> Lt) by apply Qge_alt.
  rewrite Hge.
  destruct (q ?= lo)%Q, (q ?= hi)%Q; simpl; intuition congruence.
Qed.

(** X15.  The price range read returns, in the order of the collection,
    courses of the collection only; a course whose price is a number is
    returned exactly when the price lies between the two bounds, both
    included; a course without a price, or whose price is neither a number
    nor an array, is never returned. *)
Theorem price_range_is_inclusive (db : database) (lo hi : Q) :
  let courses := coll_docs (db_coll db course_collection) in
  let r := read_document db course_collection (price_range_query lo hi) in
  exists keep,
    run_value r = Ok (filter keep courses)
    /\ run_printed r = []
    /\ run_state r = db
    /\ (forall d q, doc_get "price" d = Some (VNum q) ->
          (keep d = true <-> (lo <= q)%Q /\ (q <= hi)%Q))
    /\ (forall d, doc_get "price" d = None -> keep d = false)
    /\ (forall d v, doc_get "price" d = Some v -> keep d = true ->
          (exists q, v = VNum q) \/ (exists xs, v = VList xs)).
Proof.
  cbv zeta. unfold read_document, try_except, find, price_range_query.
  simpl compile_filter. cbn [bind run_value run_printed run_state].
  eexists. split; [reflexivity|]. split; [reflexivity|]. split; [reflexivity|].
  unfold matches. cbn [forallb fst snd].
  split; [|split].
  - intros d q Hq. rewrite (@get_path_plain "price" d eq_refl), Hq.
    unfold holds, scalar_cond. cbn [bson_rank Nat.eqb andb orb].
    unfold bson_compare. cbn [bson_rank Nat.compare].
    rewrite !orb_false_r, !andb_true_r. apply number_in_range.
  - intros d Hd. rewrite (@get_path_plain "price" d eq_refl), Hd. reflexivity.
  - intros d v Hv. rewrite (@get_path_plain "price" d eq_refl), Hv.
    destruct v; simpl; try discriminate; eauto.
Qed.

(** X16.  The read by tags returns, in the order of the collection, the
    courses whose [tags] array has an element equal to one of the tags
    searched for (or is itself equal to one of them); a course without
    [tags] is returned only when null is among the values searched for. *)
Theorem tags_query_finds_any_tag (db : database) (search_tags : list value) :
  let courses := coll_docs (db_coll db course_collection) in
  let r := read_document db course_collection (tags_query search_tags) in
  exists keep,
    run_value r = Ok (filter keep courses)
    /\ run_printed r = []
    /\ run_state r = db
    /\ (forall d ts, doc_get "tags" d = Some (VList ts) ->
          (keep d = true <->
           exists t s, In t (VList ts :: ts) /\ In s search_tags
                       /\ value_eqb t s = true))
    /\ (forall d, doc_get "tags" d = None ->
          (keep d = true <->
           exists s, In s search_tags /\ value_eqb VNull s = true)).
Proof.
  cbv zeta. unfold read_document, try_except, find, tags_query.
  simpl compile_filter. cbn [bind run_value run_printed run_state].
  eexists. split; [reflexivity|]. split; [reflexivity|]. split; [reflexivity|].
  unfold matches. cbn [forallb fst snd].
  split.
  - intros d ts Hts. rewrite (@get_path_plain "tags" d eq_refl), Hts.
    unfold holds, scalar_cond. rewrite !andb_true_r, orb_true_iff.
    rewrite !existsb_exists. split.
    + intros [(s & Hs & He) | (t & Ht & He)].
      * exists (VList ts), s. repeat split; auto. now left.
      * apply existsb_exists in He. destruct He as (s & Hs & He).
        exists t, s. repeat split; auto. now right.
    + intros (t & s & [<- | Ht] & Hs & He).
      * left. now exists s.
      * right. exists t. split; [exact Ht|].
        apply existsb_exists. now exists s.
  - intros d Hd. rewrite (@get_path_plain "tags" d eq_refl), Hd.
    unfold holds. rewrite !andb_true_r. apply existsb_exists.
Qed.

(** ** Adding tags to a course *)

Lemma existsb_app_l {A : Type} (f : A -> bool) (l l' : list A) :
  existsb f l = true -> existsb f (l ++ l') = true.
Proof. intros H. rewrite existsb_app, H. reflexivity. Qed.

(** What [$addToSet] with [$each] appends. *)
Lemma add_all_spec (vs xs : list value) :
  exists added,
    add_all xs vs = xs ++ added
    /\ (forall v, In v vs -> existsb (value_eqb v) (xs ++ added) = true)
    /\ (forall v, In v added ->
          In v vs /\ existsb (value_eqb v) xs = false)
    /\ NoDupA (fun a b => value_eqb a b = true) added.
Proof.
  unfold add_all. revert xs.
  induction vs as [|v vs IH]; intros xs; simpl.
  - exists []. rewrite app_nil_r. split; [reflexivity|].
    split; [intros v []|]. split; [intros v []|constructor].
  - destruct (existsb (value_eqb v) xs) eqn:E.
    + destruct (IH xs) as (added & Heq & Hall & Hnew & Hnd).
      exists added. split; [exact Heq|]. split; [|split; [|exact Hnd]].
      * intros w [<- | Hw]; [now apply existsb_app_l|now apply Hall].
      * intros w Hw. destruct (Hnew w Hw). split; [now right|assumption].
    + destruct (IH (xs ++ [v])) as (added & Heq & Hall & Hnew & Hnd).
      exists (v :: added). rewrite Heq, <- app_assoc. simpl.
      split; [reflexivity|]. split; [|split].
      * intros w [<- | Hw].
        -- rewrite existsb_app. simpl. rewrite value_eqb_refl.
           now rewrite orb_true_r.
        -- specialize (Hall w Hw). now rewrite <- app_assoc in Hall.
      * intros w [<- | Hw]; [split; [now left|exact E]|].
        destruct (Hnew w Hw) as [Hin Hno]. split; [now right|].
        rewrite existsb_app in Hno. now apply orb_false_iff in Hno.
      * constructor; [|exact Hnd].
        intros Hin. apply InA_alt in Hin. destruct Hin as (a & Hva & Ha).
        destruct (Hnew a Ha) as [_ Hno].
        rewrite existsb_app in Hno. apply orb_false_iff in Hno.
        destruct Hno as [_ Hno]. simpl in Hno. rewrite orb_false_r in Hno.
        rewrite value_eqb_sym in Hno. congruence.
Qed.

Lemma add_all_present (vs xs : list value) :
  (forall v, In v vs -> existsb (value_eqb v) xs = true) ->
  add_all xs vs = xs.
Proof.
  unfold add_all. revert xs. induction vs as [|v vs IH]; intros xs H; simpl;
    [reflexivity|].
  rewrite (H v (or_introl eq_refl)). apply IH. intros w Hw. apply H. now right.
Qed.

Lemma set_path_plain (p : string) (v : value) (d : doc) :
  split_path p = [p] -> set_path p v d = Ok (doc_set p v d).
Proof. unfold set_path. intros ->. reflexivity. Qed.

(** X17.  The update that adds tags to a course: on a document whose
    [tags] is an array, the tags already there stay in place, those of
    the new tags that are not there yet are appended, each once; nothing
    else but [updatedAt] changes, and applying the same update again at
    the same time changes nothing.  On a document whose [tags] is neither
    missing nor an array the update is an error. *)
Theorem add_tags_adds_each_tag_once
        (new_tags : list value) (now : Z) (d : doc) :
  exists ops,
    compile_update (add_tags_update new_tags now) = Ok ops
    /\ (forall ts, doc_get "tags" d = Some (VList ts) ->
          exists added,
            let d' := doc_set "updatedAt" (VDate now)
                              (doc_set "tags" (VList (ts ++ added)) d) in
            apply_update ops d = Ok d'
            /\ apply_update ops d' = Ok d'
            /\ (forall v, In v new_tags ->
                  existsb (value_eqb v) (ts ++ added) = true)
            /\ (forall v, In v added ->
                  In v new_tags /\ existsb (value_eqb v) ts = false)
            /\ NoDupA (fun a b => value_eqb a b = true) added)
    /\ (forall v, doc_get "tags" d = Some v ->
          (forall ts, v <> VList ts) ->
          exists e, apply_update ops d = Raised e).
Proof.
  exists [UAddToSet "tags" new_tags; USet "updatedAt" (VDate now)].
  split; [reflexivity|]. split.
  - intros ts Hts.
    destruct (add_all_spec new_tags ts) as (added & Heq & Hall & Hnew & Hnd).
    exists added. cbv zeta.
    set (d1 := doc_set "tags" (VList (ts ++ added)) d).
    set (d2 := doc_set "updatedAt" (VDate now) d1).
    assert (Hid : forall x : doc,
               field_or_null "_id"
                 (doc_set "updatedAt" (VDate now)
                    (doc_set "tags" (VList (ts ++ added)) x))
               = field_or_null "_id" x).
    { intros x. unfold field_or_null.
      rewrite !(@get_path_plain "_id" _ eq_refl).
      now rewrite !assoc_get_set_other by discriminate. }
    assert (Hstep : forall x : doc,
               doc_get "tags" x = Some (VList ts) ->
               apply_update
                 [UAddToSet "tags" new_tags; USet "updatedAt" (VDate now)] x
               = Ok (doc_set "updatedAt" (VDate now)
                       (doc_set "tags" (VList (ts ++ added)) x))).
    { intros x Hx. unfold apply_update, apply_ops, apply_op, add_to_set.
      rewrite (@get_path_plain "tags" x eq_refl), Hx, Heq.
      rewrite set_path_plain by reflexivity. cbn [bind].
      rewrite set_path_plain by reflexivity. cbn [bind].
      rewrite Hid, value_eqb_refl. reflexivity. }
    split; [now apply Hstep|].
    split; [|split; [exact Hall|split; [exact Hnew|exact Hnd]]].
    assert (Htags2 : doc_get "tags" d2 = Some (VList (ts ++ added))).
    { unfold d2, d1. rewrite assoc_get_set_other by discriminate.
      apply assoc_get_set_same. }
    unfold apply_update, apply_ops, apply_op, add_to_set.
    rewrite (@get_path_plain "tags" d2 eq_refl), Htags2.
    rewrite (add_all_present new_tags (ts ++ added) Hall).
    rewrite set_path_plain by reflexivity. cbn [bind].
      rewrite set_path_plain by reflexivity. cbn [bind].
    rewrite (@assoc_set_unchanged value "tags" (VList (ts ++ added)) d2 Htags2).
    assert (Hup : doc_set "updatedAt" (VDate now) d2 = d2)
      by (unfold d2; apply assoc_set_set).
    rewrite Hup, value_eqb_refl. reflexivity.
  - intros v Hv Hnot.
    unfold apply_update, apply_ops, apply_op, add_to_set.
    rewrite (@get_path_plain "tags" d eq_refl), Hv.
    destruct v; try (eexists; reflexivity).
    exfalso. now apply (Hnot l).
Qed.

(** ** The indexes for lookups *)

(** An index that is not unique is always built and changes nothing a
    helper or a query reads. *)
Lemma db_create_index_plain (db : database) (name : string) (ks : list string) :
  exists db',
    db_create_index db name ks false = Ok db'
    /\ db_next_oid db' = db_next_oid db
    /\ forall other, db_coll db' other = db_coll db other.
Proof.
  unfold db_create_index, create_index. simpl. eexists.
  split; [reflexivity|]. split; [reflexivity|].
  intros other. destruct (string_dec name other) as [<-|Hne].
  - apply db_coll_put_same.
  - now apply db_coll_put_other.
Qed.

Lemma index_respected_same (db db' : database) (ix : string * list string) :
  (forall name, db_coll db' name = db_coll db name) ->
  index_respected db ix -> index_respected db' ix.
Proof. unfold index_respected. intros H. now rewrite H. Qed.

(** X18.  The section that builds the indexes for lookups raises on its
    first call, the unique index on [email], whenever two users share an
    email, a missing email counting as null.  When the section ends well,
    no two users shared an email, no document and no validator has
    changed, and from then on no sequence of helper calls brings two
    users to share an email, while the unique indexes that were respected
    before stay so. *)
Theorem email_index_spec (py_str : value -> string)
        (builds : string -> list string -> bool) (db : database) :
  let users := coll_docs (db_coll db user_collection) in
  (forall a b c d1 d2,
      users = a ++ d1 :: b ++ d2 :: c ->
      value_eqb (field_or_null "email" d1) (field_or_null "email" d2) = true ->
      exists e,
        db_create_index db user_collection ["email"] true = Raised e
        /\ create_lookup_indexes builds db = Raised e)
  /\ (forall db', create_lookup_indexes builds db = Ok db' ->
        ForallOrdPairs
          (fun x y => value_eqb (field_or_null "email" x)
                                (field_or_null "email" y) = false)
          users
        /\ (forall name,
               coll_docs (db_coll db' name) = coll_docs (db_coll db name)
               /\ coll_validator (db_coll db' name)
                  = coll_validator (db_coll db name))
        /\ forall calls,
            index_respected (run_calls py_str db' calls)
                            (user_collection, ["email"])
            /\ forall ix, index_respected db ix ->
                          index_respected (run_calls py_str db' calls) ix).
Proof.
  cbv zeta. unfold create_lookup_indexes.
  destruct (db_create_index_unique db user_collection ["email"])
    as [(Hdup & e & He) | (Hdup & db1 & H1 & Hoid & Hsame)].
  - rewrite He. cbn [bind]. split.
    + intros. now exists e.
    + intros db' [=].
  - rewrite H1. cbn [bind]. split.
    + intros a b c d1 d2 Hu Heq. exfalso.
      rewrite Hu, shared_key_is_duplicate in Hdup; [discriminate Hdup|].
      unfold index_key. simpl. now rewrite Heq.
    + intros db' Hdb'.
      assert (Hcoll : forall name, db_coll db' name = db_coll db1 name).
      { unfold create_plain_index in Hdb'.
        destruct (builds course_collection ["title"; "category"]);
          [|discriminate Hdb'].
        destruct (db_create_index_plain db1 course_collection
                                        ["title"; "category"])
          as (db2 & H2 & _ & Hs2).
        rewrite H2 in Hdb'. cbn [bind] in Hdb'.
        destruct (builds assignment_collection ["dueDate"]);
          [|discriminate Hdb'].
        destruct (db_create_index_plain db2 assignment_collection ["dueDate"])
          as (db3 & H3 & _ & Hs3).
        rewrite H3 in Hdb'. cbn [bind] in Hdb'.
        destruct (builds enrollment_collection ["studentId"; "courseId"]);
          [|discriminate Hdb'].
        destruct (db_create_index_plain db3 enrollment_collection
                                        ["studentId"; "courseId"])
          as (db4 & H4 & _ & Hs4).
        rewrite H4 in Hdb'. injection Hdb' as <-.
        intros name. now rewrite Hs4, Hs3, Hs2. }
      destruct (db_create_index_respects _ _ _ H1) as [Hemail Hkeep].
      split; [|split].
      * apply has_duplicates_false_iff in Hdup.
        clear - Hdup.
        induction Hdup as [|x l Hx _ IH]; constructor; [|exact IH].
        apply Forall_forall. intros y Hy.
        rewrite Forall_forall in Hx. specialize (Hx y Hy).
        unfold index_key in Hx. simpl in Hx.
        now rewrite andb_true_r in Hx.
      * intros name. rewrite Hcoll. apply Hsame.
      * intros calls. split.
        -- apply run_calls_respects.
           now apply (@index_respected_same db1 db' _ Hcoll).
        -- intros ix Hix. apply run_calls_respects.
           apply (@index_respected_same db1 db' _ Hcoll).
           now apply Hkeep.
Qed.

(** ** The new student *)

Lemma check_write_passes (c : collection) (d : doc) (others : list doc) :
  coll_validator c d = true ->
  (forall ks, In ks (all_unique c) -> collides ks d others = false) ->
  check_write c d others = Ok tt.
Proof.
  intros Hv Hu. unfold check_write. rewrite Hv. cbv [negb].
  now rewrite (existsb_none (fun ks => collides ks d others) (all_unique c) Hu).
Qed.

(** X19.  The stanza that adds a student.  In a user collection that is
    not empty, where every [userId] is a whole number below 2^53 in
    absolute value and the only unique index is the one on [userId], the
    new student goes in whenever the validator lets the document pass and
    the [ObjectId] the client draws is new:
    the [userId] it carries is the greatest one plus one, so the index
    cannot refuse it.  The document is stored last, and as it has no
    [isActive] field the read of the active students does not match it. *)
Theorem new_student_gets_a_fresh_id
        (py_str : value -> string) (now : Z) (db : database) :
  let users := coll_docs (db_coll db user_collection) in
  let stored := with_id (db_next_oid db) (new_user now db) in
  let r := add_new_user py_str now db in
  users <> [] ->
  forallb (is_small_int_at "userId") users = true ->
  (forall ks, In ks (coll_unique (db_coll db user_collection)) ->
              ks = ["userId"]) ->
  coll_validator (db_coll db user_collection) stored = true ->
  collides ["_id"] stored users = false ->
  run_printed r = []
  /\ run_value r = Ok (Some (py_str (VOid (db_next_oid db))))
  /\ coll_docs (db_coll (run_state r) user_collection) = users ++ [stored]
  /\ (exists m,
         doc_get "userId" stored = Some (VNum (m + 1))
         /\ forall d, In d users ->
              exists q, doc_get "userId" d = Some (VNum q) /\ (q <= m)%Q)
  /\ (forall cf, compile_filter active_students_query = Ok cf ->
                 matches cf stored = false).
Proof.
  cbv zeta. intros Hne Hsmall Hix Hval Hoid.
  pose proof (small_ints_are_numbers _ _ Hsmall) as Hnum.
  destruct (@greatest_id_first db user_collection "userId" eq_refl Hne Hnum)
    as (m & Htry & _ & Hmax).
  assert (Hnext : next_id db user_collection "userId" = VNum (m + 1)).
  { unfold next_id, get_next_id.
    rewrite (try_except_ok _ _ _ _ (a := VNum (m + 1))) by exact Htry.
    simpl. now rewrite Htry. }
  assert (Hstored : with_id (db_next_oid db) (new_user now db)
                    = ("_id", VOid (db_next_oid db)) :: new_user now db)
    by reflexivity.
  assert (Huid : doc_get "userId" (with_id (db_next_oid db) (new_user now db))
                 = Some (VNum (m + 1))).
  { rewrite Hstored. unfold new_user. rewrite Hnext. reflexivity. }
  assert (Hcheck : check_write (db_coll db user_collection)
                     (with_id (db_next_oid db) (new_user now db))
                     (coll_docs (db_coll db user_collection)) = Ok tt).
  { apply check_write_passes; [exact Hval|].
    intros ks [<- | Hks]; [exact Hoid|].
    rewrite (Hix ks Hks).
    apply above_all_no_collision with (m := m).
    - intros d Hd. destruct (Hmax d Hd) as (q & _ & Hf & Hle). now exists q.
    - unfold field_or_null.
      now rewrite (@get_path_plain "userId" _ eq_refl), Huid. }
  unfold add_new_user. rewrite create_document_unfold. unfold insert_one.
  rewrite Hcheck. cbn [run_printed run_value run_state].
  split; [reflexivity|]. split; [now rewrite Hstored|].
  split; [now rewrite db_coll_fresh, db_coll_store_same|].
  split.
  - exists m. split; [exact Huid|].
    intros d Hd. destruct (Hmax d Hd) as (q & Hg & _ & Hle). now exists q.
  - intros cf [= <-]. rewrite Hstored. reflexivity.
Qed.

(** ** Stanzas run twice *)

(** What a [create_document] that went through leaves behind. *)
Lemma create_document_ok (py_str : value -> string) (db : database)
      (name : string) (d : doc) :
  let r := create_document py_str db name d in
  run_printed r = [] ->
  coll_docs (db_coll (run_state r) name)
  = coll_docs (db_coll db name) ++ [with_id (db_next_oid db) d]
  /\ coll_unique (db_coll (run_state r) name) = coll_unique (db_coll db name)
  /\ coll_validator (db_coll (run_state r) name)
     = coll_validator (db_coll db name).
Proof.
  cbv zeta. rewrite create_document_unfold.
  destruct (insert_one (db_coll db name) (db_next_oid db) d) as [c' res] eqn:E.
  apply insert_one_cases in E.
  destruct E as [(-> & _ & ->) | (-> & e & -> & _)]; simpl; [|discriminate].
  intros _. rewrite db_coll_fresh, db_coll_store_same. now repeat split.
Qed.

(** What a [create_document] the server refuses leaves behind. *)
Lemma create_document_refused (py_str : value -> string) (db : database)
      (name : string) (d : doc) (ks : list string) :
  In ks (all_unique (db_coll db name)) ->
  collides ks (with_id (db_next_oid db) d) (coll_docs (db_coll db name)) = true ->
  let r := create_document py_str db name d in
  run_value r = Ok None /\ run_printed r <> []
  /\ db_coll (run_state r) name = db_coll db name.
Proof.
  intros Hks Hc. cbv zeta. rewrite create_document_unfold. unfold insert_one.
  destruct (@check_write_collision _ _ _ _ Hks Hc) as [e He]. rewrite He. simpl.
  split; [reflexivity|]. split; [discriminate|].
  now rewrite db_coll_fresh, db_store_coll.
Qed.

(** X20.  The stanza that enrolls student 31 in course 21 goes through
    once at most: with the unique index on the pair of [courseId] and
    [studentId] in place, a second run is refused whatever
    [enrollmentId] [get_next_id] gives it and whenever it is run; it
    prints the error, returns [None] and stores nothing. *)
Theorem enrolling_twice_is_refused
        (py_str : value -> string) (now now' : Z) (db : database) :
  In ["courseId"; "studentId"]
     (coll_unique (db_coll db enrollment_collection)) ->
  let r1 := add_new_enrollment py_str now db in
  run_printed r1 = [] ->
  let r2 := add_new_enrollment py_str now' (run_state r1) in
  run_value r2 = Ok None /\ run_printed r2 <> []
  /\ db_coll (run_state r2) enrollment_collection
     = db_coll (run_state r1) enrollment_collection.
Proof.
  intros Hix. cbv zeta. unfold add_new_enrollment. intros Hp.
  destruct (create_document_ok py_str db enrollment_collection
                               (new_enrollment now db) Hp)
    as (Hdocs & Huniq & _).
  apply create_document_refused with (ks := ["courseId"; "studentId"]).
  - right. now rewrite Huniq.
  - rewrite Hdocs. unfold collides. rewrite existsb_app.
    apply orb_true_iff. right. reflexivity.
Qed.

(** X21.  Once the stanza that adds the student has gone through twice,
    the two documents it stored are the last two of the user collection
    and carry the same email: two users share an email, and the section
    that builds the indexes for lookups raises on its first call, the
    unique index on [email]. *)
Theorem adding_the_student_twice_breaks_the_email_index
        (py_str : value -> string) (builds : string -> list string -> bool)
        (now now' : Z) (db : database) :
  let r1 := add_new_user py_str now db in
  let r2 := add_new_user py_str now' (run_state r1) in
  run_printed r1 = [] ->
  run_printed r2 = [] ->
  exists s1 s2 e,
    coll_docs (db_coll (run_state r2) user_collection)
    = coll_docs (db_coll db user_collection) ++ [s1; s2]
    /\ doc_get "email" s1 = Some (VStr "antonio.student@example.com")
    /\ doc_get "email" s2 = Some (VStr "antonio.student@example.com")
    /\ has_duplicates ["email"]
                      (coll_docs (db_coll (run_state r2) user_collection))
       = true
    /\ db_create_index (run_state r2) user_collection ["email"] true
       = Raised e
    /\ create_lookup_indexes builds (run_state r2) = Raised e.
Proof.
  cbv zeta. unfold add_new_user. intros Hp1 Hp2.
  destruct (create_document_ok py_str db user_collection (new_user now db) Hp1)
    as (Hdocs1 & _).
  destruct (create_document_ok py_str _ user_collection _ Hp2)
    as (Hdocs2 & _).
  set (db1 := run_state (create_document py_str db user_collection
                                         (new_user now db))) in *.
  set (db2 := run_state (create_document py_str db1 user_collection
                                         (new_user now' db1))) in *.
  assert (Hall : coll_docs (db_coll db2 user_collection)
                 = coll_docs (db_coll db user_collection)
                   ++ [with_id (db_next_oid db) (new_user now db);
                       with_id (db_next_oid db1) (new_user now' db1)])
    by (rewrite Hdocs2, Hdocs1, <- app_assoc; reflexivity).
  assert (Hdup : has_duplicates ["email"] (coll_docs (db_coll db2 user_collection))
                 = true).
  { rewrite Hall.
    apply (shared_key_is_duplicate ["email"] _ [] []). reflexivity. }
  destruct (db_create_index_unique db2 user_collection ["email"])
    as [(_ & e & He) | (Hno & _)]; [|congruence].
  exists (with_id (db_next_oid db) (new_user now db)),
         (with_id (db_next_oid db1) (new_user now' db1)), e.
  split; [exact Hall|]. split; [reflexivity|]. split; [reflexivity|].
  split; [exact Hdup|]. split; [exact He|].
  unfold create_lookup_indexes. now rewrite He.
Qed.

(** ** A delete by id *)

(** Under a respected index, the documents that share a key are one at
    most. *)
Lemma at_most_one_under_index (ks : list string) (p : doc -> bool)
      (ds : list doc) :
  has_duplicates ks ds = false ->
  (forall d d', In d ds -> In d' ds -> p d = true -> p d' = true ->
                key_eqb (index_key ks d) (index_key ks d') = true) ->
  (List.length (filter p ds) <= 1)%nat.
Proof.
  induction ds as [|d ds IH]; intros Hdup Hkey; simpl; [lia|].
  simpl in Hdup. apply orb_false_iff in Hdup. destruct Hdup as [Hc Hdup].
  assert (IH' : (List.length (filter p ds) <= 1)%nat).
  { apply IH; [exact Hdup|]. intros a b Ha Hb. apply Hkey; now right. }
  destruct (p d) eqn:Hp; [|exact IH'].
  destruct (filter p ds) as [|d' rest] eqn:Ef; [simpl; lia|].
  exfalso.
  assert (Hd' : In d' (filter p ds)) by (rewrite Ef; now left).
  apply filter_In in Hd'. destruct Hd' as [Hin Hp'].
  unfold collides in Hc.
  rewrite (existsb_in _ ds d' Hin) in Hc; [discriminate|].
  apply Hkey; auto; [now left|now right].
Qed.

(** X22.  A soft delete by id.  Where the unique index on the id field
    is in place and respected and every id is a number, the query on the
    id matches one document at most, so that [delete_document] returns 0
    or 1, whatever happens. *)
Theorem delete_by_id_touches_at_most_one
        (now : Z) (db : database) (collection_name id_field : string) (x : Q) :
  let docs := coll_docs (db_coll db collection_name) in
  let r := delete_document now db collection_name [(id_field, VNum x)] in
  split_path id_field = [id_field] ->
  String.prefix "$" id_field = false ->
  index_respected db (collection_name, [id_field]) ->
  forallb (is_number_at id_field) docs = true ->
  exists cf n,
    compile_filter [(id_field, VNum x)] = Ok cf
    /\ (List.length (filter (matches cf) docs) <= 1)%nat
    /\ run_value r = Ok n /\ (n <= 1)%nat.
Proof.
  cbv zeta. intros Hplain Hdollar [_ Hdup] Hnum. simpl in Hdup.
  rewrite forallb_forall in Hnum.
  exists [(id_field, [CEq (VNum x)])].
  assert (Hq : compile_filter [(id_field, VNum x)]
               = Ok [(id_field, [CEq (VNum x)])])
    by (simpl; rewrite Hdollar; reflexivity).
  assert (Hone : (List.length
                    (filter (matches [(id_field, [CEq (VNum x)])])
                            (coll_docs (db_coll db collection_name))) <= 1)%nat).
  { apply at_most_one_under_index with (ks := [id_field]); [exact Hdup|].
    assert (Hm : forall d,
               In d (coll_docs (db_coll db collection_name)) ->
               matches [(id_field, [CEq (VNum x)])] d = true ->
               value_eqb (field_or_null id_field d) (VNum x) = true).
    { intros d Hd Hmd. destruct (number_at _ _ (Hnum d Hd)) as [q Hgq].
      unfold matches in Hmd. simpl in Hmd. unfold field_or_null.
      rewrite Hgq in *. simpl in Hmd.
      now rewrite !andb_true_r, orb_false_r in Hmd. }
    intros d d' Hd Hd' Hp Hp'. unfold index_key. simpl.
    rewrite andb_true_r.
    apply value_eqb_trans with (b := VNum x); [now apply Hm|].
    rewrite value_eqb_sym. now apply Hm. }
  destruct (delete_document_cases now db collection_name [(id_field, VNum x)])
    as [(e & He & _) | (cf & ds & res & Hq' & Hl & _ & Hres)];
    [congruence|].
  rewrite Hq in Hq'. injection Hq' as <-.
  destruct res as [u|e].
  - destruct Hres as [Hv _]. exists (modified_count u).
    split; [exact Hq|]. split; [exact Hone|]. split; [exact Hv|].
    destruct (update_loop_ok _ _ _ _ _ Hl) as (Hout & _ & Hmod & _).
    rewrite Hmod, Hout.
    eapply Nat.le_trans; [apply changed_at_most_matched|exact Hone].
  - destruct Hres as [Hv _]. exists 0%nat.
    split; [exact Hq|]. split; [exact Hone|]. split; [exact Hv|lia].
Qed.

(** ** The profile of a user *)

Lemma set_profile_field (k : string) (v : value) (d p : doc) :
  doc_get "profile" d = Some (VDoc p) ->
  set_in ["profile"; k] v (Some (VDoc d))
  = Ok (VDoc (doc_set "profile" (VDoc (doc_set k v p)) d)).
Proof. intros H. simpl. rewrite H. reflexivity. Qed.

Lemma update_keeps_id (d d' : doc) :
  doc_get "_id" d' = doc_get "_id" d ->
  (if value_eqb (field_or_null "_id" d) (field_or_null "_id" d')
   then Ok d'
   else Raised (Exn WriteError
                    "Performing an update on the immutable field _id"))
  = Ok d'.
Proof.
  intros H. unfold field_or_null.
  rewrite !(@get_path_plain "_id" _ eq_refl), H, value_eqb_refl. reflexivity.
Qed.

(** X23.  The update of a profile writes the three fields inside the
    embedded [profile] document and keeps what else is in it; it creates
    the embedded document when the user has none; and it is an error,
    with the user left as it was, when [profile] holds anything but a
    document. *)
Theorem profile_update_spec (bio avatar skills : value) (now : Z) (d : doc) :
  exists ops,
    compile_update (profile_update bio avatar skills now) = Ok ops
    /\ (forall p, doc_get "profile" d = Some (VDoc p) ->
          apply_update ops d
          = Ok (doc_set "updatedAt" (VDate now)
                  (doc_set "profile"
                     (VDoc (doc_set "skills" skills
                              (doc_set "avatar" avatar
                                 (doc_set "bio" bio p))))
                     d)))
    /\ (doc_get "profile" d = None ->
          apply_update ops d
          = Ok (doc_set "updatedAt" (VDate now)
                  (doc_set "profile"
                     (VDoc [("bio", bio); ("avatar", avatar);
                            ("skills", skills)])
                     d)))
    /\ (forall v, doc_get "profile" d = Some v -> (forall p, v <> VDoc p) ->
          exists e, apply_update ops d = Raised e).
Proof.
  exists [USet "profile.bio" bio; USet "profile.avatar" avatar;
          USet "profile.skills" skills; USet "updatedAt" (VDate now)].
  split; [reflexivity|].
  assert (Hstep : forall p,
             doc_get "profile" d = Some (VDoc p) ->
             apply_update
               [USet "profile.bio" bio; USet "profile.avatar" avatar;
                USet "profile.skills" skills; USet "updatedAt" (VDate now)] d
             = Ok (doc_set "updatedAt" (VDate now)
                     (doc_set "profile"
                        (VDoc (doc_set "skills" skills
                                 (doc_set "avatar" avatar
                                    (doc_set "bio" bio p))))
                        d))).
  { intros p Hp. unfold apply_update, apply_ops, apply_op, set_path.
    change (split_path "profile.bio") with ["profile"; "bio"].
    change (split_path "profile.avatar") with ["profile"; "avatar"].
    change (split_path "profile.skills") with ["profile"; "skills"].
    change (split_path "updatedAt") with ["updatedAt"].
    rewrite (set_profile_field "bio" bio d Hp). cbn [bind].
    rewrite (set_profile_field "avatar" avatar _ (assoc_get_set_same _ _ _)).
    cbn [bind]. rewrite assoc_set_set.
    rewrite (set_profile_field "skills" skills _ (assoc_get_set_same _ _ _)).
    cbn [bind]. rewrite assoc_set_set.
    cbn [set_in bind]. apply update_keeps_id.
    now rewrite !assoc_get_set_other by discriminate. }
  split; [exact Hstep|]. split.
  - intros Hnone.
    unfold apply_update, apply_ops, apply_op, set_path.
    change (split_path "profile.bio") with ["profile"; "bio"].
    change (split_path "profile.avatar") with ["profile"; "avatar"].
    change (split_path "profile.skills") with ["profile"; "skills"].
    change (split_path "updatedAt") with ["updatedAt"].
    assert (H1 : set_in ["profile"; "bio"] bio (Some (VDoc d))
                 = Ok (VDoc (doc_set "profile" (VDoc [("bio", bio)]) d)))
      by (simpl; rewrite Hnone; reflexivity).
    rewrite H1. cbn [bind].
    rewrite (set_profile_field "avatar" avatar _ (assoc_get_set_same _ _ _)).
    cbn [bind]. rewrite assoc_set_set.
    rewrite (set_profile_field "skills" skills _ (assoc_get_set_same _ _ _)).
    cbn [bind]. rewrite assoc_set_set.
    cbn [set_in bind]. apply update_keeps_id.
    now rewrite !assoc_get_set_other by discriminate.
  - intros v Hv Hnot.
    unfold apply_update, apply_ops, apply_op, set_path.
    change (split_path "profile.bio") with ["profile"; "bio"].
    simpl. rewrite Hv.
    destruct v; try (eexists; reflexivity).
    exfalso. now apply (Hnot l).
Qed.

(* ================================================================= *)
(** * More of the code at work on sample states *)

(** A fourth user goes in and is read back by its [_id]. *)
Lemma create_document_then_read_witness :
  let r := create_document sample_py_str sample_db "user"
                           [("userId", VNum 4)] in
  doc_has "_id" [("userId", VNum 4)] = false
  /\ run_value r = Ok (Some "ObjectId")
  /\ exists found,
      run_value (read_document (run_state r) "user" [("_id", VOid 3)])
      = Ok found
      /\ In [("_id", VOid 3); ("userId", VNum 4)] found.
Proof.
  cbv zeta. split; [reflexivity|].
  destruct (@create_document_then_read sample_py_str sample_db "user"
              [("userId", VNum 4)] eq_refl) as (H & _ & _).
  destruct (H eq_refl) as (Hv & _ & Hf).
  split; [exact Hv|exact Hf].
Defined.


(** Two new users go in; sent again, they are refused. *)
Lemma create_documents_again_is_refused_witness :
  let r1 := create_documents sample_py_str sample_db "user" two_users
                             "userId" in
  let r2 := create_documents sample_py_str (run_state r1) "user" two_users
                             "userId" in
  run_printed r1 = []
  /\ run_value r2 = Ok [] /\ run_printed r2 <> []
  /\ db_coll (run_state r2) "user" = db_coll (run_state r1) "user".
Proof.
  cbv zeta. split; [reflexivity|].
  apply (@create_documents_again_is_refused sample_py_str sample_db "user"
           two_users "userId" ["userId"]).
  - left. reflexivity.
  - constructor; [discriminate|constructor].
  - reflexivity.
Defined.

(** After users 1 to 3 the next id is 4. *)
Lemma get_next_id_is_fresh_witness :
  coll_docs (db_coll sample_db "user") <> []
  /\ forallb (is_small_int_at "userId")
             (coll_docs (db_coll sample_db "user"))
     = true
  /\ exists m,
      run_value (get_next_id sample_db "user" "userId") = Ok (VNum (m + 1))
      /\ forall d', field_or_null "userId" d' = VNum (m + 1) ->
                    collides ["userId"] d' (coll_docs (db_coll sample_db "user"))
                    = false.
Proof.
  assert (Hne : coll_docs (db_coll sample_db "user") <> []) by discriminate.
  split; [exact Hne|]. split; [reflexivity|].
  destruct (@get_next_id_is_fresh sample_db "user" "userId" eq_refl Hne eq_refl)
    as (m & Hv & _ & _ & _ & Hfresh).
  exists m. split; [exact Hv|exact Hfresh].
Defined.

(** An update of user 1 leaves the number of users and the course
    collection alone. *)
Lemma update_document_frame_witness :
  let r := update_document sample_db "user" [("userId", VNum 1)]
                           [("$set", VDoc [("isActive", VBool false)])] in
  db_coll (run_state r) "course" = db_coll sample_db "course"
  /\ List.length (coll_docs (db_coll (run_state r) "user")) = 3%nat
  /\ coll_unique (db_coll (run_state r) "user") = [["userId"]].
Proof.
  cbv zeta.
  destruct (update_document_frame sample_db "user" [("userId", VNum 1)]
              [("$set", VDoc [("isActive", VBool false)])])
    as (H1 & _ & H3 & H4 & _).
  split; [apply H1; discriminate|]. split; [exact H4|exact H3].
Defined.

(** Setting user 1 inactive changes one document. *)
Lemma update_document_success_witness :
  let r := update_document sample_db "user" [("userId", VNum 1)]
                           [("$set", VDoc [("isActive", VBool false)])] in
  run_printed r = []
  /\ exists cf ops,
      compile_filter [("userId", VNum 1)] = Ok cf
      /\ compile_update [("$set", VDoc [("isActive", VBool false)])] = Ok ops
      /\ run_value r
         = Ok (changed (coll_docs (db_coll sample_db "user"))
                       (coll_docs (db_coll (run_state r) "user"))).
Proof.
  cbv zeta. split; [reflexivity|].
  destruct (@update_document_success sample_db "user" [("userId", VNum 1)]
              [("$set", VDoc [("isActive", VBool false)])] eq_refl)
    as (cf & ops & Hq & Hu & _ & _ & Hv & _).
  exists cf, ops. split; [exact Hq|]. split; [exact Hu|exact Hv].
Defined.

(** The sample calls on the strict submission collection leave only
    documents its schema allows. *)
Lemma helpers_store_only_valid_documents_witness :
  all_valid strict_submission_db
  /\ all_valid (run_calls sample_py_str strict_submission_db
                  [CallDeleteDocument 20240101000000 "submission"
                                      [("submissionId", VNum 1)];
                   CallCreateDocument "submission"
                                      [("submissionId", VNum 3)]]).
Proof.
  assert (H : all_valid strict_submission_db).
  { intros name d. unfold db_coll, strict_submission_db. simpl.
    destruct (String.eqb name "submission"); simpl.
    - intros [<- | [<- | []]]; reflexivity.
    - intros []. }
  split; [exact H|].
  apply (@helpers_store_only_valid_documents sample_py_str strict_submission_db
           _ H).
Defined.

(** The soft delete of user 3, who was inactive already, returns 1. *)
Lemma delete_document_counts_matches_witness :
  let r := delete_document 20240101000000 sample_db "user"
                           [("userId", VNum 3)] in
  run_printed r = []
  /\ doc_get "isActive" (nth 2 (coll_docs (db_coll sample_db "user")) [])
     = Some (VBool false)
  /\ run_value r = Ok 1%nat.
Proof.
  cbv zeta. split; [reflexivity|]. split; [reflexivity|].
  apply (@delete_document_counts_matches 20240101000000 sample_db "user"
           [("userId", VNum 3)] [("userId", [CEq (VNum 3)])]).
  - reflexivity.
  - reflexivity.
  - intros d [<- | [<- | [<- | []]]] _; discriminate.
Defined.

(** The soft delete of user 1, twice at the same time. *)
Lemma delete_document_twice_witness :
  let r1 := delete_document 20240101000000 sample_db "user"
                            [("userId", VNum 1)] in
  let r2 := delete_document 20240101000000 (run_state r1) "user"
                            [("userId", VNum 1)] in
  run_value r1 = Ok 1%nat
  /\ run_value r2 = Ok 0%nat /\ run_state r2 = run_state r1.
Proof.
  cbv zeta. split; [reflexivity|].
  destruct (@delete_document_twice 20240101000000 sample_db "user"
              [("userId", VNum 1)] eq_refl) as (H1 & _ & H3).
  split; [exact H1|exact H3].
Defined.

(** After the soft delete of user 1 the read of the active users finds
    users that the delete did not match. *)
Lemma soft_deleted_are_not_read_as_active_witness :
  let r := delete_document 20240101000000 sample_db "user"
                           [("userId", VNum 1)] in
  exists found,
    run_value (read_document (run_state r) "user" [("isActive", VBool true)])
    = Ok found
    /\ forall d, In d found ->
                 matches [("userId", [CEq (VNum 1)])] d = false.
Proof.
  cbv zeta.
  destruct (@soft_deleted_are_not_read_as_active 20240101000000 sample_db
              "user" [("userId", VNum 1)] [("isActive", VBool true)]
              [("userId", [CEq (VNum 1)])] [("isActive", [CEq (VBool true)])]
              eq_refl eq_refl (or_introl eq_refl) eq_refl)
    as (found & Hv & Hall).
  exists found. split; [exact Hv|].
  intros d Hd. exact (proj2 (Hall d Hd)).
Defined.

(** No schema file for the lessons: the collection comes to exist with
    its index and without a validator. *)
Lemma missing_schema_file_disables_validation_witness :
  let r := create_from_file sample_json_loads sample_jsonSchema sample_fs
                            empty_db "lesson"
                            "lesson_collection_schema.json" in
  run_value r = Ok false
  /\ run_state r = empty_db
  /\ exists db',
      db_create_index (run_state r) "lesson" ["lessonId"] true = Ok db'
      /\ forall d, coll_validator (db_coll db' "lesson") d = true.
Proof.
  cbv zeta.
  destruct (@missing_schema_file_disables_validation sample_json_loads
              sample_jsonSchema sample_fs empty_db "lesson"
              "lesson_collection_schema.json" ["lessonId"]
              eq_refl eq_refl eq_refl)
    as (Hv & _ & Hs & db' & Hix & _ & _ & Hval).
  split; [exact Hv|]. split; [exact Hs|].
  exists db'. split; [exact Hix|exact Hval].
Defined.


(** The index section raises on two users under one [userId] and ends
    well on the fresh collections. *)
Lemma index_section_raises_on_shared_key_witness :
  (exists e, create_unique_indexes clash_db = Raised e)
  /\ create_unique_indexes fresh_db = Ok indexed_db
  /\ db_next_oid indexed_db = db_next_oid fresh_db
  /\ coll_docs (db_coll indexed_db "user") = coll_docs (db_coll fresh_db "user").
Proof.
  split.
  - apply (proj1 (index_section_raises_on_shared_key clash_db)
                 user_collection ["userId"] [] [] []
                 [("_id", VOid 0); ("userId", VNum 1)]
                 [("_id", VOid 1); ("userId", VNum 1)]).
    + left. reflexivity.
    + reflexivity.
    + reflexivity.
  - assert (H : create_unique_indexes fresh_db = Ok indexed_db)
      by (vm_compute; reflexivity).
    split; [exact H|].
    destruct (proj2 (index_section_raises_on_shared_key fresh_db) indexed_db H)
      as (_ & Hoid & Hsame).
    split; [exact Hoid|exact (proj1 (Hsame "user"))].
Defined.

(** The index section run again after the sample calls. *)
Lemma index_section_again_changes_nothing_witness :
  create_unique_indexes fresh_db = Ok indexed_db
  /\ create_unique_indexes (run_calls sample_py_str indexed_db sample_calls)
     = Ok (run_calls sample_py_str indexed_db sample_calls).
Proof.
  assert (H : create_unique_indexes fresh_db = Ok indexed_db)
    by (vm_compute; reflexivity).
  split; [exact H|].
  apply (@index_section_again_changes_nothing sample_py_str fresh_db indexed_db
           sample_calls H).
Defined.

(** Of the two sample courses, the one at 99.99 lies between 50 and
    200, the one at 49.99 does not. *)
Lemma price_range_is_inclusive_witness :
  let r := read_document course_db "course" (price_range_query 50 200) in
  exists keep,
    run_value r = Ok (filter keep sample_courses)
    /\ keep (nth 0 sample_courses []) = false
    /\ keep (nth 1 sample_courses []) = true.
Proof.
  cbv zeta.
  destruct (price_range_is_inclusive course_db 50 200)
    as (keep & Hv & _ & _ & Hnum & _).
  exists keep. split; [exact Hv|]. split.
  - destruct (keep (nth 0 sample_courses [])) eqn:E; [|reflexivity].
    apply (Hnum (nth 0 sample_courses []) 49.99%Q eq_refl) in E.
    destruct E as [E _]. exfalso. apply E. reflexivity.
  - apply (Hnum (nth 1 sample_courses []) 99.99%Q eq_refl).
    split; discriminate.
Defined.

(** The read by the tags python and programming keeps the first sample
    course. *)
Lemma tags_query_finds_any_tag_witness :
  let r := read_document course_db "course"
                         (tags_query [VStr "python"; VStr "programming"]) in
  exists keep,
    run_value r = Ok (filter keep sample_courses)
    /\ keep (nth 0 sample_courses []) = true.
Proof.
  cbv zeta.
  destruct (tags_query_finds_any_tag course_db
              [VStr "python"; VStr "programming"])
    as (keep & Hv & _ & _ & Htags & _).
  exists keep. split; [exact Hv|].
  apply (Htags (nth 0 sample_courses []) [VStr "python"; VStr "basics"] eq_refl).
  exists (VStr "python"), (VStr "python").
  split; [right; left; reflexivity|]. split; [left; reflexivity|reflexivity].
Defined.

(** Adding backend and python to the tags of the first sample course. *)
Lemma add_tags_adds_each_tag_once_witness :
  exists ops added,
    compile_update (add_tags_update [VStr "backend"; VStr "python"]
                                    20240101000000) = Ok ops
    /\ apply_update ops (nth 0 sample_courses [])
       = Ok (doc_set "updatedAt" (VDate 20240101000000)
               (doc_set "tags"
                        (VList ([VStr "python"; VStr "basics"] ++ added))
                        (nth 0 sample_courses [])))
    /\ forall v, In v added -> existsb (value_eqb v)
                                       [VStr "python"; VStr "basics"] = false.
Proof.
  destruct (add_tags_adds_each_tag_once [VStr "backend"; VStr "python"]
              20240101000000 (nth 0 sample_courses []))
    as (ops & Hc & Harr & _).
  destruct (Harr [VStr "python"; VStr "basics"] eq_refl)
    as (added & H1 & _ & _ & Hnew & _).
  exists ops, added. split; [exact Hc|]. split; [exact H1|].
  intros v Hv. exact (proj2 (Hnew v Hv)).
Defined.

(** The indexes for lookups: on the three sample users, none of whom
    has an email, the first call raises; on the fresh collections the
    section ends well when the server builds the other indexes, and
    raises when it cannot build the text index. *)
Lemma email_index_spec_witness :
  (exists e,
      db_create_index sample_db user_collection ["email"] true = Raised e
      /\ create_lookup_indexes builds_all sample_db = Raised e)
  /\ (exists db',
         create_lookup_indexes builds_all indexed_db = Ok db'
         /\ index_respected db' (user_collection, ["email"]))
  /\ (exists e, create_lookup_indexes no_text_index indexed_db = Raised e).
Proof.
  split; [|split].
  - apply (proj1 (email_index_spec sample_py_str builds_all sample_db)
                 [] [] [nth 2 sample_users []]
                 (nth 0 sample_users []) (nth 1 sample_users []));
      reflexivity.
  - assert (E : exists db', create_lookup_indexes builds_all indexed_db = Ok db')
      by (vm_compute; eexists; reflexivity).
    destruct E as [db' E].
    destruct (proj2 (email_index_spec sample_py_str builds_all indexed_db) db' E)
      as (_ & _ & Hcalls).
    exists db'. split; [exact E|exact (proj1 (Hcalls []))].
  - vm_compute. eexists. reflexivity.
Defined.

(** The new student after the three sample users carries the id 4. *)
Lemma new_student_gets_a_fresh_id_witness :
  let r := add_new_user sample_py_str 20240101000000 sample_db in
  run_printed r = []
  /\ List.length (coll_docs (db_coll (run_state r) user_collection)) = 4%nat
  /\ forall cf, compile_filter active_students_query = Ok cf ->
                matches cf (with_id 3 (new_user 20240101000000 sample_db))
                = false.
Proof.
  cbv zeta.
  assert (Hne : coll_docs (db_coll sample_db user_collection) <> [])
    by discriminate.
  assert (Hix : forall ks,
             In ks (coll_unique (db_coll sample_db user_collection)) ->
             ks = ["userId"])
    by (intros ks [<- | []]; reflexivity).
  destruct (@new_student_gets_a_fresh_id sample_py_str 20240101000000 sample_db
              Hne eq_refl Hix eq_refl eq_refl)
    as (Hp & _ & Hdocs & _ & Hact).
  split; [exact Hp|]. split; [now rewrite Hdocs|exact Hact].
Defined.

(** The enrollment of student 31 in course 21, twice. *)
Lemma enrolling_twice_is_refused_witness :
  let r1 := add_new_enrollment sample_py_str 20240101000000 indexed_db in
  let r2 := add_new_enrollment sample_py_str 20240102000000 (run_state r1) in
  run_printed r1 = []
  /\ run_value r2 = Ok None /\ run_printed r2 <> [].
Proof.
  cbv zeta.
  assert (Hix : In ["courseId"; "studentId"]
                   (coll_unique (db_coll indexed_db enrollment_collection)))
    by (right; left; reflexivity).
  assert (Hp : run_printed (add_new_enrollment sample_py_str 20240101000000
                                               indexed_db) = [])
    by reflexivity.
  destruct (@enrolling_twice_is_refused sample_py_str 20240101000000
              20240102000000 indexed_db Hix Hp) as (Hv & Hq & _).
  split; [exact Hp|]. split; [exact Hv|exact Hq].
Defined.

(** The new student added twice to the sample users. *)
Lemma adding_the_student_twice_breaks_the_email_index_witness :
  let r1 := add_new_user sample_py_str 20240101000000 sample_db in
  let r2 := add_new_user sample_py_str 20240102000000 (run_state r1) in
  run_printed r1 = [] /\ run_printed r2 = []
  /\ exists e,
      db_create_index (run_state r2) user_collection ["email"] true = Raised e
      /\ create_lookup_indexes builds_all (run_state r2) = Raised e.
Proof.
  cbv zeta. split; [reflexivity|]. split; [reflexivity|].
  destruct (@adding_the_student_twice_breaks_the_email_index sample_py_str
              builds_all 20240101000000 20240102000000 sample_db
              eq_refl eq_refl)
    as (s1 & s2 & e & _ & _ & _ & _ & He & Hsec).
  exists e. split; [exact He|exact Hsec].
Defined.

(** The soft delete of user 1 among the sample users. *)
Lemma delete_by_id_touches_at_most_one_witness :
  index_respected sample_db ("user", ["userId"])
  /\ exists cf n,
      compile_filter [("userId", VNum 1)] = Ok cf
      /\ run_value (delete_document 20240101000000 sample_db "user"
                                    [("userId", VNum 1)]) = Ok n
      /\ (n <= 1)%nat.
Proof.
  assert (H : index_respected sample_db ("user", ["userId"])).
  { split; [left; reflexivity|reflexivity]. }
  split; [exact H|].
  destruct (@delete_by_id_touches_at_most_one 20240101000000 sample_db "user"
              "userId" 1%Q eq_refl eq_refl H eq_refl)
    as (cf & n & Hq & _ & Hv & Hn).
  exists cf, n. split; [exact Hq|]. split; [exact Hv|exact Hn].
Defined.

(** The profile update on a user without a profile and on a user whose
    profile is null. *)
Lemma profile_update_spec_witness :
  exists ops,
    compile_update (profile_update (VStr "Learning Data Engineering")
                                   (VStr "https://avatarlink.com/avatar.png")
                                   (VList [VStr "SQL"; VStr "Python"])
                                   20240101000000) = Ok ops
    /\ apply_update ops [("userId", VNum 1)]
       = Ok [("userId", VNum 1);
             ("profile",
              VDoc [("bio", VStr "Learning Data Engineering");
                    ("avatar", VStr "https://avatarlink.com/avatar.png");
                    ("skills", VList [VStr "SQL"; VStr "Python"])]);
             ("updatedAt", VDate 20240101000000)].
Proof.
  destruct (profile_update_spec (VStr "Learning Data Engineering")
              (VStr "https://avatarlink.com/avatar.png")
              (VList [VStr "SQL"; VStr "Python"]) 20240101000000
              [("userId", VNum 1)])
    as (ops & Hc & _ & Hnone & _).
  exists ops. split; [exact Hc|]. exact (Hnone eq_refl).
Defined.
